(** * AudioESP32ULP: audio output to the ESP32 DACs through the ULP coprocessor

    A shallow embedding of [AudioEsp32ULP.h] (class [AudioESP32ULP]) together
    with the part of the ESP32 platform the driver programs: the shared
    RTC slow memory, the ULP coprocessor executing the generated program,
    and the two DAC pad registers.

    Conventions.
    - C integers are [Z]; every wrap-around or truncation the C code performs
      is written out ([mod 2^32], [mod 2^16], bit-field widths).
    - [RTC_SLOW_MEM] is a total function from word addresses to 32-bit words.
    - The host object's fields are a record; member functions pass the
      [world] (object, shared memory, coprocessor, DACs) explicitly.
    - The coprocessor only advances while the host sleeps in [delay]; a host
      member function is atomic with respect to it. *)

From Stdlib Require Import ZArith List Bool Lia.
Import ListNotations.
Local Open Scope Z_scope.

(* ====================================================================== *)
(** ** Fixed-width integers and C bit-fields *)

Module Bits.

Definition uint32 (x : Z) : Z := x mod 2 ^ 32.
Definition uint16 (x : Z) : Z := x mod 2 ^ 16.

(** Conversion of a 32-bit pattern to [int]. *)
Definition to_int32 (x : Z) : Z :=
  let u := uint32 x in if u <? 2 ^ 31 then u else u - 2 ^ 32.

(** Conversion of a 16-bit pattern to [int16_t]. *)
Definition to_int16 (x : Z) : Z :=
  let u := uint16 x in if u <? 2 ^ 15 then u else u - 2 ^ 16.

(** A struct of unsigned bit-fields, least significant field first: each
    field is a (width, value) pair and the value is truncated to the
    width, as an assignment to a C bit-field does. *)
Fixpoint pack (fields : list (Z * Z)) : Z :=
  match fields with
  | [] => 0
  | (w, v) :: rest => v mod 2 ^ w + 2 ^ w * pack rest
  end.

(** The lowest [w] bits of a word, and the bits above them. *)
Definition low_bits (w x : Z) : Z := x mod 2 ^ w.
Definition drop_bits (w x : Z) : Z := x / 2 ^ w.

(** The field [width] bits wide that starts at bit [pos]. *)
Definition field (pos width x : Z) : Z := low_bits width (drop_bits pos x).

(** The (width, value) pair of the bit-field that starts at bit [pos] of
    a struct, if one starts there. *)
Fixpoint field_at (pos : Z) (fields : list (Z * Z)) : option (Z * Z) :=
  match fields with
  | [] => None
  | (w, v) :: rest =>
      if pos =? 0 then Some (w, v)
      else if (0 <=? w) && (w <=? pos) then field_at (pos - w) rest
      else None
  end.

End Bits.

(* ====================================================================== *)
(** ** The ULP coprocessor: instruction words ([esp32/ulp.h])

    The header is not part of the repository; the instruction formats below
    are the bit-field structs of the [ulp_insn_t] union, and the [I_*]
    definitions are the macros the driver uses.  The two literal opcodes
    quoted in the driver's comments ([0x1D4C0121 | (i << 10)] and
    [0x80000000 + retAddress * 4]) are checked against this encoding
    below. *)

Module ULP.
Import Bits.

Inductive reg := R0 | R1 | R2 | R3.

Definition reg_num (r : reg) : Z :=
  match r with R0 => 0 | R1 => 1 | R2 => 2 | R3 => 3 end.

Definition reg_of (n : Z) : reg :=
  match n mod 4 with 0 => R0 | 1 => R1 | 2 => R2 | _ => R3 end.

(** Major and minor opcodes. *)
Definition OPCODE_WR_REG := 1.
Definition OPCODE_DELAY := 4.
Definition OPCODE_ST := 6.
Definition SUB_OPCODE_ST := 4.
Definition OPCODE_ALU := 7.
Definition SUB_OPCODE_ALU_IMM := 1.
Definition ALU_SEL_ADD := 0.
Definition ALU_SEL_SUB := 1.
Definition ALU_SEL_AND := 2.
Definition ALU_SEL_OR := 3.
Definition ALU_SEL_MOV := 4.
Definition ALU_SEL_LSH := 5.
Definition ALU_SEL_RSH := 6.
Definition OPCODE_BRANCH := 8.
Definition SUB_OPCODE_BX := 0.
Definition BX_JUMP_TYPE_DIRECT := 0.
Definition SUB_OPCODE_B := 1.
Definition B_CMP_L := 0.
Definition B_CMP_GE := 1.
Definition OPCODE_HALT := 11.
Definition OPCODE_LD := 13.

Definition RD_REG_PERIPH_RTC_CNTL := 0.
Definition RD_REG_PERIPH_RTC_IO := 1.
Definition RD_REG_PERIPH_SENS := 2.
Definition RD_REG_PERIPH_RTC_I2C := 3.

(** The members of the [ulp_insn_t] union that the driver emits, with the
    fields of each bit-field struct. *)
Inductive ulp_insn :=
| insn_wr_reg (addr periph_sel data low high : Z)
| insn_delay (cycles : Z)
| insn_st (dreg sreg : reg) (offset : Z)
| insn_ld (dreg sreg : reg) (offset : Z)
| insn_alu_imm (dreg sreg : reg) (imm sel : Z)
| insn_bx (dreg : reg) (addr : Z) (is_reg : bool) (type : Z)
| insn_b (imm cmp offset : Z) (sign : bool)
| insn_halt.

Definition bit (x : bool) : Z := if x then 1 else 0.

(** [ulp_bin]: the 32-bit word of an instruction (the other member of
    the union in [create_I_WR_REG] and [create_I_BXI]). *)
Definition ulp_bin (i : ulp_insn) : Z :=
  match i with
  | insn_wr_reg addr periph_sel data low high =>
      pack [(8, addr); (2, periph_sel); (8, data); (5, low); (5, high);
            (4, OPCODE_WR_REG)]
  | insn_delay cycles =>
      pack [(16, cycles); (12, 0); (4, OPCODE_DELAY)]
  | insn_st dreg sreg offset =>
      pack [(2, reg_num dreg); (2, reg_num sreg); (6, 0); (11, offset);
            (4, 0); (3, SUB_OPCODE_ST); (4, OPCODE_ST)]
  | insn_ld dreg sreg offset =>
      pack [(2, reg_num dreg); (2, reg_num sreg); (6, 0); (11, offset);
            (7, 0); (4, OPCODE_LD)]
  | insn_alu_imm dreg sreg imm sel =>
      pack [(2, reg_num dreg); (2, reg_num sreg); (16, imm); (1, 0);
            (4, sel); (3, SUB_OPCODE_ALU_IMM); (4, OPCODE_ALU)]
  | insn_bx dreg addr is_reg type =>
      pack [(2, reg_num dreg); (11, addr); (8, 0); (1, bit is_reg);
            (3, type); (3, SUB_OPCODE_BX); (4, OPCODE_BRANCH)]
  | insn_b imm cmp offset sign =>
      pack [(16, imm); (1, cmp); (7, offset); (1, bit sign);
            (3, SUB_OPCODE_B); (4, OPCODE_BRANCH)]
  | insn_halt =>
      pack [(28, 0); (4, OPCODE_HALT)]
  end.

(** Instruction decoding, as the coprocessor's fetch unit splits a word.
    Words outside the formats above decode to [None]. *)
Definition decode (w : Z) : option ulp_insn :=
  let opcode := field 28 4 w in
  let sub := field 25 3 w in
  if opcode =? OPCODE_WR_REG then
    Some (insn_wr_reg (field 0 8 w) (field 8 2 w) (field 10 8 w)
                 (field 18 5 w) (field 23 5 w))
  else if opcode =? OPCODE_DELAY then
    Some (insn_delay (field 0 16 w))
  else if opcode =? OPCODE_ST then
    if sub =? SUB_OPCODE_ST then
      Some (insn_st (reg_of (field 0 2 w)) (reg_of (field 2 2 w)) (field 10 11 w))
    else None
  else if opcode =? OPCODE_LD then
    Some (insn_ld (reg_of (field 0 2 w)) (reg_of (field 2 2 w)) (field 10 11 w))
  else if opcode =? OPCODE_ALU then
    if sub =? SUB_OPCODE_ALU_IMM then
      Some (insn_alu_imm (reg_of (field 0 2 w)) (reg_of (field 2 2 w))
                    (field 4 16 w) (field 21 4 w))
    else None
  else if opcode =? OPCODE_BRANCH then
    if sub =? SUB_OPCODE_BX then
      Some (insn_bx (reg_of (field 0 2 w)) (field 2 11 w)
               (field 21 1 w =? 1) (field 22 3 w))
    else if sub =? SUB_OPCODE_B then
      Some (insn_b (field 0 16 w) (field 16 1 w) (field 17 7 w)
              (field 24 1 w =? 1))
    else None
  else if opcode =? OPCODE_HALT then Some insn_halt
  else None.

(** The instruction a word holds after the C bit-field assignments have
    truncated each field to its width. *)
Definition truncate (i : ulp_insn) : ulp_insn :=
  match i with
  | insn_wr_reg addr periph_sel data low high =>
      insn_wr_reg (addr mod 2 ^ 8) (periph_sel mod 2 ^ 2) (data mod 2 ^ 8)
                  (low mod 2 ^ 5) (high mod 2 ^ 5)
  | insn_delay cycles => insn_delay (cycles mod 2 ^ 16)
  | insn_st dreg sreg offset => insn_st dreg sreg (offset mod 2 ^ 11)
  | insn_ld dreg sreg offset => insn_ld dreg sreg (offset mod 2 ^ 11)
  | insn_alu_imm dreg sreg imm sel =>
      insn_alu_imm dreg sreg (imm mod 2 ^ 16) (sel mod 2 ^ 4)
  | insn_bx dreg addr is_reg type =>
      insn_bx dreg (addr mod 2 ^ 11) is_reg (type mod 2 ^ 3)
  | insn_b imm cmp offset sign =>
      insn_b (imm mod 2 ^ 16) (cmp mod 2 ^ 1) (offset mod 2 ^ 7) sign
  | insn_halt => insn_halt
  end.

(** *** Peripheral register addresses ([soc/soc.h], [soc/rtc_io_reg.h],
    [soc/rtc_cntl_reg.h]) *)
Definition DR_REG_RTCCNTL_BASE := 0x3ff48000.
Definition DR_REG_RTCIO_BASE := 0x3ff48400.
Definition DR_REG_SENS_BASE := 0x3ff48800.
Definition DR_REG_RTC_I2C_BASE := 0x3ff48C00.
Definition RTC_CNTL_STATE0_REG := DR_REG_RTCCNTL_BASE + 0x18.
Definition RTC_CNTL_ULP_CP_SLP_TIMER_EN_S := 24.
Definition RTC_IO_PAD_DAC1_REG := DR_REG_RTCIO_BASE + 0x84.
Definition RTC_IO_PAD_DAC2_REG := DR_REG_RTCIO_BASE + 0x88.

Definition SOC_REG_TO_ULP_PERIPH_SEL (r : Z) : Z :=
  if (DR_REG_RTCCNTL_BASE <=? r) && (r <? DR_REG_RTCIO_BASE)
  then RD_REG_PERIPH_RTC_CNTL
  else if (DR_REG_RTCIO_BASE <=? r) && (r <? DR_REG_SENS_BASE)
  then RD_REG_PERIPH_RTC_IO
  else if (DR_REG_SENS_BASE <=? r) && (r <? DR_REG_RTC_I2C_BASE)
  then RD_REG_PERIPH_SENS
  else if (DR_REG_RTC_I2C_BASE <=? r) && (r <? DR_REG_RTC_I2C_BASE + 0x400)
  then RD_REG_PERIPH_RTC_I2C
  else -1.

(** *** The instruction macros used by the driver *)
Definition I_WR_REG (r low_bit high_bit val : Z) : ulp_insn :=
  insn_wr_reg (Z.land r 0xff / 4) (SOC_REG_TO_ULP_PERIPH_SEL r) val low_bit high_bit.
Definition I_WR_REG_BIT (r shift val : Z) : ulp_insn :=
  I_WR_REG r shift shift val.
Definition I_END : ulp_insn :=
  I_WR_REG_BIT RTC_CNTL_STATE0_REG RTC_CNTL_ULP_CP_SLP_TIMER_EN_S 0.
Definition I_HALT : ulp_insn := insn_halt.
Definition I_DELAY (cycles : Z) : ulp_insn := insn_delay cycles.
Definition I_ST (reg_val reg_addr : reg) (offset : Z) : ulp_insn :=
  insn_st reg_val reg_addr offset.
Definition I_LD (reg_dest reg_addr : reg) (offset : Z) : ulp_insn :=
  insn_ld reg_dest reg_addr offset.
Definition I_MOVI (reg_dest : reg) (imm : Z) : ulp_insn :=
  insn_alu_imm reg_dest R0 imm ALU_SEL_MOV.
Definition I_ADDI (reg_dest reg_src : reg) (imm : Z) : ulp_insn :=
  insn_alu_imm reg_dest reg_src imm ALU_SEL_ADD.
Definition I_ANDI (reg_dest reg_src : reg) (imm : Z) : ulp_insn :=
  insn_alu_imm reg_dest reg_src imm ALU_SEL_AND.
Definition I_LSHI (reg_dest reg_src : reg) (imm : Z) : ulp_insn :=
  insn_alu_imm reg_dest reg_src imm ALU_SEL_LSH.
Definition I_RSHI (reg_dest reg_src : reg) (imm : Z) : ulp_insn :=
  insn_alu_imm reg_dest reg_src imm ALU_SEL_RSH.
Definition I_BXR (reg_pc : reg) : ulp_insn :=
  insn_bx reg_pc 0 true BX_JUMP_TYPE_DIRECT.
Definition I_BXI (imm_pc : Z) : ulp_insn :=
  insn_bx R0 imm_pc false BX_JUMP_TYPE_DIRECT.
Definition I_BGE (pc_offset imm_value : Z) : ulp_insn :=
  insn_b imm_value B_CMP_GE (Z.abs pc_offset) (negb (0 <=? pc_offset)).

End ULP.

(* ====================================================================== *)
(** ** The platform: shared memory, coprocessor state, DACs

    The ESP-IDF ([esp32/ulp.h], [driver/dac.h], [soc/rtc.h]) is not part of
    the repository; this module follows its headers and the ULP
    instruction-set reference for the operations the driver relies on.
    - The coprocessor registers are 16 bits wide.  [ST] stores a register in
      the low half of a word and the program counter in the upper bits
      (which is why the host masks the index cell with [0xffff]); [LD] loads
      the low half of a word.
    - Cycle counts are not modelled: [DELAY] takes one step like any other
      instruction, and the host's [delay] lets the coprocessor retire a
      number of instructions that is a parameter.
    - [ulp_run] starts the coprocessor at the entry point, whether it was
      halted or running.
    - A fetch or an operation outside the modelled subset puts the
      coprocessor in the state [Stuck]; the properties below show that the
      driver's programs never reach it. *)

Module Platform.
Import Bits ULP.

(** RTC slow memory holds 8 KB, that is 2048 words. *)
Definition RTC_SLOW_MEM_WORDS := 2048.
Definition RTC_CLK_CAL_FRACT := 19.

Definition memory := Z -> Z.

Definition store (a v : Z) (m : memory) : memory :=
  fun x => if x =? a then v else m x.

Inductive cop_status := Running | Halted | Stuck.

(** The coprocessor: program counter, the four 16-bit registers, the
    entry point and the wake-up timer enable set by [ulp_run]. *)
Record ulp_state := mk_ulp {
  pc : Z;
  r0 : Z; r1 : Z; r2 : Z; r3 : Z;
  status : cop_status;
  entry_point : Z;
  timer_en : bool
}.

Inductive dac_channel := DAC_CHANNEL_1 | DAC_CHANNEL_2.

(** The two DAC pads: output enable and the 8-bit code of the PDAC field
    (bits 19..26 of the pad register). *)
Record dacs := mk_dacs {
  dac1_enabled : bool; dac1_code : Z;
  dac2_enabled : bool; dac2_code : Z
}.

Definition get_reg (u : ulp_state) (r : reg) : Z :=
  match r with R0 => r0 u | R1 => r1 u | R2 => r2 u | R3 => r3 u end.

Definition set_reg (r : reg) (v : Z) (u : ulp_state) : ulp_state :=
  match r with
  | R0 => mk_ulp (pc u) v (r1 u) (r2 u) (r3 u) (status u) (entry_point u) (timer_en u)
  | R1 => mk_ulp (pc u) (r0 u) v (r2 u) (r3 u) (status u) (entry_point u) (timer_en u)
  | R2 => mk_ulp (pc u) (r0 u) (r1 u) v (r3 u) (status u) (entry_point u) (timer_en u)
  | R3 => mk_ulp (pc u) (r0 u) (r1 u) (r2 u) v (status u) (entry_point u) (timer_en u)
  end.

Definition set_pc (p : Z) (u : ulp_state) : ulp_state :=
  mk_ulp p (r0 u) (r1 u) (r2 u) (r3 u) (status u) (entry_point u) (timer_en u).

Definition set_status (s : cop_status) (u : ulp_state) : ulp_state :=
  mk_ulp (pc u) (r0 u) (r1 u) (r2 u) (r3 u) s (entry_point u) (timer_en u).

Definition set_timer_en (t : bool) (u : ulp_state) : ulp_state :=
  mk_ulp (pc u) (r0 u) (r1 u) (r2 u) (r3 u) (status u) (entry_point u) t.

Definition next (u : ulp_state) : ulp_state := set_pc (pc u + 1) u.

(** The hardware the coprocessor acts on. *)
Record machine := mk_machine {
  mem : memory;
  cop : ulp_state;
  dac : dacs
}.

Definition stuck (m : machine) : machine :=
  mk_machine (mem m) (set_status Stuck (cop m)) (dac m).

(** ALU with an immediate operand; results are 16 bits wide. *)
Definition alu (sel a imm : Z) : option Z :=
  if sel =? ALU_SEL_ADD then Some (uint16 (a + imm))
  else if sel =? ALU_SEL_SUB then Some (uint16 (a - imm))
  else if sel =? ALU_SEL_AND then Some (Z.land a imm)
  else if sel =? ALU_SEL_OR then Some (Z.lor a imm)
  else if sel =? ALU_SEL_MOV then Some imm
  else if sel =? ALU_SEL_LSH then Some (uint16 (Z.shiftl a imm))
  else if sel =? ALU_SEL_RSH then Some (Z.shiftr a imm)
  else None.

(** The word [ST] writes: {PC[10:0], 3'b0, Rdst[1:0], Rsrc[15:0]}. *)
Definition st_word (pc_ : Z) (reg_addr : reg) (v : Z) : Z :=
  pack [(16, v); (2, reg_num reg_addr); (3, 0); (11, pc_)].

(** Register writes by [WR_REG].  Only the fields this driver touches are
    modelled: the PDAC code (bits 19..26) of the two DAC pad registers
    and the ULP timer enable (bit 24 of RTC_CNTL_STATE0_REG).  Any other
    register write leaves the modelled subset and is [None]. *)
Definition wr_periph (addr periph_sel data low high : Z) (m : machine)
  : option machine :=
  if (periph_sel =? RD_REG_PERIPH_RTC_IO) && (low =? 19) && (high =? 26) then
    if addr =? Z.land RTC_IO_PAD_DAC1_REG 0xff / 4 then
      Some (mk_machine (mem m) (cop m)
              (mk_dacs (dac1_enabled (dac m)) data
                       (dac2_enabled (dac m)) (dac2_code (dac m))))
    else if addr =? Z.land RTC_IO_PAD_DAC2_REG 0xff / 4 then
      Some (mk_machine (mem m) (cop m)
              (mk_dacs (dac1_enabled (dac m)) (dac1_code (dac m))
                       (dac2_enabled (dac m)) data))
    else None
  else if (periph_sel =? RD_REG_PERIPH_RTC_CNTL)
          && (addr =? Z.land RTC_CNTL_STATE0_REG 0xff / 4)
          && (low =? RTC_CNTL_ULP_CP_SLP_TIMER_EN_S)
          && (high =? RTC_CNTL_ULP_CP_SLP_TIMER_EN_S) then
    Some (mk_machine (mem m) (set_timer_en (data mod 2 =? 1) (cop m)) (dac m))
  else None.

Definition advance (m : machine) : machine :=
  mk_machine (mem m) (next (cop m)) (dac m).

(** Execution of one decoded instruction at the current [pc]. *)
Definition exec (i : ulp_insn) (m : machine) : machine :=
  let u := cop m in
  match i with
  | insn_wr_reg addr periph_sel data low high =>
      match wr_periph addr periph_sel data low high m with
      | Some m' => advance m'
      | None => stuck m
      end
  | insn_delay _ => advance m
  | insn_st dreg sreg offset =>
      let a := get_reg u sreg + offset in
      if a <? RTC_SLOW_MEM_WORDS then
        mk_machine (store a (st_word (pc u) sreg (get_reg u dreg)) (mem m))
                   (next u) (dac m)
      else stuck m
  | insn_ld dreg sreg offset =>
      let a := get_reg u sreg + offset in
      if a <? RTC_SLOW_MEM_WORDS then
        mk_machine (mem m) (next (set_reg dreg (low_bits 16 (mem m a)) u)) (dac m)
      else stuck m
  | insn_alu_imm dreg sreg imm sel =>
      match alu sel (get_reg u sreg) imm with
      | Some v => mk_machine (mem m) (next (set_reg dreg v u)) (dac m)
      | None => stuck m
      end
  | insn_bx dreg addr is_reg type =>
      if type =? BX_JUMP_TYPE_DIRECT then
        mk_machine (mem m)
                   (set_pc (if is_reg then get_reg u dreg else addr) u) (dac m)
      else stuck m
  | insn_b imm cmp offset sign =>
      let taken := if cmp =? B_CMP_GE then imm <=? r0 u else r0 u <? imm in
      let target := if sign then pc u - offset else pc u + offset in
      mk_machine (mem m) (set_pc (if taken then target else pc u + 1) u) (dac m)
  | insn_halt => mk_machine (mem m) (set_status Halted u) (dac m)
  end.

(** One coprocessor step: fetch, decode, execute.  A halted coprocessor
    is woken at its entry point while the wake-up timer is enabled. *)
Definition ulp_step (m : machine) : machine :=
  let u := cop m in
  match status u with
  | Stuck => m
  | Halted =>
      if timer_en u
      then mk_machine (mem m) (set_status Running (set_pc (entry_point u) u)) (dac m)
      else m
  | Running =>
      if (0 <=? pc u) && (pc u <? RTC_SLOW_MEM_WORDS) then
        match decode (mem m (pc u)) with
        | Some i => exec i m
        | None => stuck m
        end
      else stuck m
  end.

Fixpoint ulp_steps (n : nat) (m : machine) : machine :=
  match n with
  | O => m
  | S k => ulp_steps k (ulp_step m)
  end.

(** [ulp_run]: sets the entry point, enables the wake-up timer and starts
    the coprocessor there. *)
Definition ulp_run (entry : Z) (m : machine) : machine :=
  let u := cop m in
  mk_machine (mem m)
             (mk_ulp entry (r0 u) (r1 u) (r2 u) (r3 u) Running entry true)
             (dac m).

(** [ulp_process_macros_and_load]: the program contains no macro
    (label or branch) pseudo-instructions, so it is copied word by word. *)
Fixpoint load_words (a : Z) (ws : list Z) (m : memory) : memory :=
  match ws with
  | [] => m
  | w :: rest => load_words (a + 1) rest (store a w m)
  end.

Definition ulp_process_macros_and_load (load_addr : Z) (prog : list ulp_insn)
    (m : machine) : machine :=
  mk_machine (load_words load_addr (map ulp_bin prog) (mem m)) (cop m) (dac m).

Definition dac_output_enable (ch : dac_channel) (m : machine) : machine :=
  let d := dac m in
  mk_machine (mem m) (cop m)
    match ch with
    | DAC_CHANNEL_1 => mk_dacs true (dac1_code d) (dac2_enabled d) (dac2_code d)
    | DAC_CHANNEL_2 => mk_dacs (dac1_enabled d) (dac1_code d) true (dac2_code d)
    end.

Definition dac_output_voltage (ch : dac_channel) (v : Z) (m : machine) : machine :=
  let d := dac m in
  mk_machine (mem m) (cop m)
    match ch with
    | DAC_CHANNEL_1 => mk_dacs (dac1_enabled d) (v mod 256) (dac2_enabled d) (dac2_code d)
    | DAC_CHANNEL_2 => mk_dacs (dac1_enabled d) (dac1_code d) (dac2_enabled d) (v mod 256)
    end.

End Platform.

(* ====================================================================== *)
(** ** The driver: class [AudioESP32ULP] *)

Module Driver.
Import Bits ULP Platform.

(** What a member function that may block or trap yields: a result, a
    processor trap (integer division by zero), or exhaustion of the
    fuel that bounds the number of iterations of a waiting loop. *)
Inductive outcome (A : Type) :=
| Ret (a : A)
| Crash
| OutOfFuel.
Arguments Ret {A} a.
Arguments Crash {A}.
Arguments OutOfFuel {A}.

Record AudioInfo := mk_info {
  sample_rate : Z;
  channels : Z;
  bits_per_sample : Z
}.

Inductive UlpDac := ULP_DAC1 | ULP_DAC2.

Definition UlpDac_value (d : UlpDac) : Z :=
  match d with ULP_DAC1 => 1 | ULP_DAC2 => 2 end.

(** The data members that change at run time. *)
Record AudioESP32ULP := mk_obj {
  cfg : AudioInfo;
  lastFilledWord : Z;
  hertz : Z;
  min_write_bytes : Z;
  selected_mono_dac : UlpDac;
  bufferedOddSample : Z;
  waitingOddSample : bool;
  activeDACs : Z;
  stereoOutput : bool
}.

(** The data members that never change. *)
Definition opcodeCount := 20.
Definition dacTableStart1 := 2048 - 512.
Definition dacTableStart2 := dacTableStart1 - 512.
Definition totalSampleWords := 2048 - 512 - 512 - (opcodeCount + 1).
Definition totalSamples := totalSampleWords * 2.
Definition indexAddress := opcodeCount.
Definition bufferStart := indexAddress + 1.

(** A freshly constructed object: the default member initialisers; [cfg]
    comes from the base class and [hertz] is not initialised. *)
Definition new_AudioESP32ULP (cfg0 : AudioInfo) (hertz0 : Z) : AudioESP32ULP :=
  mk_obj cfg0 0 hertz0 128 ULP_DAC1 128 true 3 true.

(** The host object, the hardware, the value [rtc_clk_cal] measures, and
    the history of the ring words stored by [writeFrame] (slot, word),
    oldest first. *)
Record world := mk_world {
  this : AudioESP32ULP;
  hw : machine;
  rtc_8md256_period : Z;
  ring_log : list (Z * Z)
}.

Definition RTC_SLOW_MEM (w : world) : memory := mem (hw w).

Definition set_this (o : AudioESP32ULP) (w : world) : world :=
  mk_world o (hw w) (rtc_8md256_period w) (ring_log w).

Definition set_hw (m : machine) (w : world) : world :=
  mk_world (this w) m (rtc_8md256_period w) (ring_log w).

(** [for (int i = 0; i < n; i++) body(i)] *)
Fixpoint for_loop {S : Type} (n : nat) (body : Z -> S -> S) (s : S) : S :=
  match n with
  | O => s
  | Datatypes.S k => body (Z.of_nat k) (for_loop k body s)
  end.

Definition defaultConfig : AudioInfo := mk_info 44100 2 16.

Definition setMonoDAC (d : UlpDac) (o : AudioESP32ULP) : AudioESP32ULP :=
  mk_obj (cfg o) (lastFilledWord o) (hertz o) (min_write_bytes o) d
         (bufferedOddSample o) (waitingOddSample o) (activeDACs o)
         (stereoOutput o).

Definition setMinWriteBytes (bytes : Z) (o : AudioESP32ULP) : AudioESP32ULP :=
  mk_obj (cfg o) (lastFilledWord o) (hertz o) bytes (selected_mono_dac o)
         (bufferedOddSample o) (waitingOddSample o) (activeDACs o)
         (stereoOutput o).

Definition availableForWrite (o : AudioESP32ULP) : Z :=
  let result := to_int32 (totalSampleWords - lastFilledWord o) in
  if result <? min_write_bytes o then 0 else result.

Definition create_I_WR_REG (r low_bit high_bit val : Z) : Z :=
  ulp_bin (I_WR_REG r low_bit high_bit val).

Definition create_I_BXI (imm_pc : Z) : Z := ulp_bin (I_BXI imm_pc).

(** The control program of [setup]: the array [stereo], used for mono
    output as well, with the delays [dt] and [dt2] computed there. *)
Definition stereo (dt dt2 : Z) : list ulp_insn :=
  [ I_MOVI R3 0;
    I_DELAY dt;
    I_MOVI R0 0;
    I_ST R0 R3 indexAddress;
    I_LD R1 R0 bufferStart;
    I_ANDI R2 R1 0x00ff;
    I_LSHI R2 R2 1;
    I_ADDI R2 R2 dacTableStart1;
    I_BXR R2;
    I_DELAY dt2;
    I_ANDI R2 R1 0xff00;
    I_RSHI R2 R2 (8 - 1);
    I_ADDI R2 R2 dacTableStart2;
    I_BXR R2;
    I_MOVI R1 0x8080;
    I_ST R1 R0 indexAddress;
    I_ADDI R0 R0 1;
    I_BGE (-16) totalSampleWords;
    I_DELAY (uint32 (dt + 2));
    I_BXI 3 ].

(** The halt program of [end] ([const ulp_insn_t stopulp[]]). *)
Definition stopulp : list ulp_insn := [ I_END; I_HALT ].

(** One iteration of the table loops of [setup]: the entry for code [i]
    of both tables, writing to pad register [reg1] in the first table and
    [reg2] in the second. *)
Definition dac_table_entry (reg1 reg2 retAddress1 retAddress2 i : Z)
    (m : memory) : memory :=
  let m := store (dacTableStart1 + i * 2) (create_I_WR_REG reg1 19 26 i) m in
  let m := store (dacTableStart1 + 1 + i * 2) (create_I_BXI retAddress1) m in
  let m := store (dacTableStart2 + i * 2) (create_I_WR_REG reg2 19 26 i) m in
  store (dacTableStart2 + 1 + i * 2) (create_I_BXI retAddress2) m.

(** [switch (activeDACs)] of [setup]. *)
Definition create_dac_tables (active retAddress1 retAddress2 : Z)
    (m : memory) : memory :=
  if active =? 1 then
    for_loop 256 (dac_table_entry RTC_IO_PAD_DAC1_REG RTC_IO_PAD_DAC1_REG
                                  retAddress1 retAddress2) m
  else if active =? 2 then
    for_loop 256 (dac_table_entry RTC_IO_PAD_DAC2_REG RTC_IO_PAD_DAC2_REG
                                  retAddress1 retAddress2) m
  else if active =? 3 then
    for_loop 256 (dac_table_entry RTC_IO_PAD_DAC1_REG RTC_IO_PAD_DAC1_REG
                                  retAddress1 retAddress2) m
  else m.

(** [if (activeDACs & 1) ...; if (activeDACs & 2) ...] with the given
    action on a channel. *)
Definition on_active_dacs (active : Z) (f : dac_channel -> machine -> machine)
    (m : machine) : machine :=
  let m := if Z.land active 1 =? 0 then m else f DAC_CHANNEL_1 m in
  if Z.land active 2 =? 0 then m else f DAC_CHANNEL_2 m.

Definition set_waitingOddSample (b : bool) (o : AudioESP32ULP) : AudioESP32ULP :=
  mk_obj (cfg o) (lastFilledWord o) (hertz o) (min_write_bytes o)
         (selected_mono_dac o) (bufferedOddSample o) b (activeDACs o)
         (stereoOutput o).

Definition dac_init (ch : dac_channel) (m : machine) : machine :=
  dac_output_voltage ch 128 (dac_output_enable ch m).

(** [setup] up to and including [ulp_run(0)]. *)
Definition setup_start (w : world) : outcome world :=
  let o := this w in
  let o := if negb (stereoOutput o) then set_waitingOddSample false o else o in
  (* calculate the actual ULP clock *)
  let period := uint32 (rtc_8md256_period w) in
  if period =? 0 then Crash else
  let rtc_fast_freq_hz :=
    uint32 (1000000 * 2 ^ RTC_CLK_CAL_FRACT * 256 / period) in
  (* initialize DACs *)
  let m := on_active_dacs (activeDACs o) dac_init (hw w) in
  let retAddress1 := 9 in
  let retAddress2 := 14 in
  let loopCycles := 134 in
  let loopHalfCycles1 := 90 in
  let loopHalfCycles2 := 44 in
  if uint32 (hertz o) =? 0 then Crash else
  let dt :=
    if stereoOutput o
    then uint32 (rtc_fast_freq_hz / uint32 (hertz o) - loopCycles)
    else uint32 (rtc_fast_freq_hz / uint32 (hertz o) - loopHalfCycles1) in
  let dt2 :=
    if stereoOutput o
    then 0
    else uint32 (rtc_fast_freq_hz / uint32 (hertz o) - loopHalfCycles2) in
  let m := ulp_process_macros_and_load 0 (stereo dt dt2) m in
  (* create DAC opcode tables *)
  let ram := create_dac_tables (activeDACs o) retAddress1 retAddress2 (mem m) in
  (* set all samples to 128 (silence) *)
  let ram := for_loop (Z.to_nat totalSampleWords)
               (fun i => store (bufferStart + i) 0x8080) ram in
  (* start *)
  let ram := store indexAddress 0 ram in
  let m := ulp_run 0 (mk_machine ram (cop m) (dac m)) in
  Ret (mk_world o m (rtc_8md256_period w) (ring_log w)).

(** The 8-bit output code of a 16-bit sample:
    [((ms[i] >> 8) + 128) & 0xff]. *)
Definition sample_code (s : Z) : Z := Z.land (Z.shiftr s 8 + 128) 0xff.

(** Mixing of both channels for mono output. *)
Definition mix (a c : Z) : Z :=
  uint16 (Z.land (Z.shiftr (uint32 (a + c)) 1) 0xff).

Definition writeFrame (sample : Z * Z) (w : world) : bool * world :=
  let o := this w in
  let currentSample := Z.land (RTC_SLOW_MEM w indexAddress) 0xffff in
  let currentWord := Z.shiftr currentSample 1 in
  let ms0 := sample_code (fst sample) in
  let ms1 := sample_code (snd sample) in
  let ms0 := if negb (stereoOutput o) then to_int16 (mix ms0 ms1) else ms0 in
  if waitingOddSample o then
    if negb (lastFilledWord o =? currentWord) then
      let word :=
        if stereoOutput o
        then uint32 (Z.lor ms0 (Z.shiftl ms1 8))
        else uint32 (Z.lor (bufferedOddSample o) (Z.shiftl ms0 8)) in
      let buffered := if stereoOutput o then bufferedOddSample o else 128 in
      let waiting := if stereoOutput o then waitingOddSample o else false in
      let ram := store (bufferStart + lastFilledWord o) word (RTC_SLOW_MEM w) in
      let filled := lastFilledWord o + 1 in
      let filled := if filled =? totalSampleWords then 0 else filled in
      (true,
       mk_world
         (mk_obj (cfg o) filled (hertz o) (min_write_bytes o)
                 (selected_mono_dac o) buffered waiting (activeDACs o)
                 (stereoOutput o))
         (mk_machine ram (cop (hw w)) (dac (hw w)))
         (rtc_8md256_period w)
         (ring_log w ++ [(lastFilledWord o, word)]))
    else (false, w)
  else
    (true,
     set_this
       (mk_obj (cfg o) (lastFilledWord o) (hertz o) (min_write_bytes o)
               (selected_mono_dac o) (ms0 mod 256) true (activeDACs o)
               (stereoOutput o)) w).

(** [data_16[k]]: the byte buffer read as an array of [int16_t] on the
    little-endian ESP32. *)
Definition data_16 (data : list Z) (k : Z) : Z :=
  to_int16 (nth (Z.to_nat (2 * k)) data 0
            + 256 * nth (Z.to_nat (2 * k + 1)) data 0).

Definition end_ (w : world) : world :=
  let m := ulp_process_macros_and_load 0 stopulp (hw w) in
  (* start *)
  let m := ulp_run 0 m in
  set_hw (on_active_dacs (activeDACs (this w))
            (fun ch => dac_output_voltage ch 128) m) w.

Section Timing.

(** The number of instructions the coprocessor retires while the host
    sleeps in [delay(ms)]. *)
Variable ulp_ticks : Z -> nat.

Definition delay (ms : Z) (w : world) : world :=
  set_hw (ulp_steps (ulp_ticks ms) (hw w)) w.

(** [while (RTC_SLOW_MEM[indexAddress] == 0) delay(1);] *)
Fixpoint wait_index (fuel : nat) (w : world) : outcome world :=
  if RTC_SLOW_MEM w indexAddress =? 0 then
    match fuel with
    | O => OutOfFuel
    | S f => wait_index f (delay 1 w)
    end
  else Ret w.

Definition setup (fuel : nat) (w : world) : outcome (bool * world) :=
  match setup_start w with
  | Ret w1 =>
      match wait_index fuel w1 with
      | Ret w2 => Ret (true, w2)
      | Crash => Crash
      | OutOfFuel => OutOfFuel
      end
  | Crash => Crash
  | OutOfFuel => OutOfFuel
  end.

(** [begin]: the configuration members are assigned before the sample
    width is checked. *)
Definition begin_config (info : AudioInfo) (o : AudioESP32ULP) : AudioESP32ULP :=
  let is_stereo := channels info =? 2 in
  mk_obj info (lastFilledWord o) (to_int32 (sample_rate info))
         (min_write_bytes o) (selected_mono_dac o) (bufferedOddSample o)
         (waitingOddSample o)
         (if is_stereo then 3 else UlpDac_value (selected_mono_dac o))
         is_stereo.

Definition begin (fuel : nat) (info : AudioInfo) (w : world)
  : outcome (bool * world) :=
  let w := set_this (begin_config info (this w)) w in
  if negb (bits_per_sample info =? 16) then Ret (false, w)
  else setup fuel w.

(** [while (!writeFrame(stereo)) delay(20);] *)
Fixpoint write_blocking (fuel : nat) (sample : Z * Z) (w : world)
  : outcome world :=
  let (ok, w') := writeFrame sample w in
  if ok then Ret w'
  else
    match fuel with
    | O => OutOfFuel
    | S f => write_blocking f sample (delay 20 w')
    end.

(** The frame loop of [write]: [n] frames remain, [j] is the loop
    index; each blocking write may retry [fuel] times. *)
Fixpoint write_frames (fuel : nat) (data : list Z) (frameSize : Z)
    (n : nat) (j : Z) (result : Z) (w : world) : outcome (Z * world) :=
  match n with
  | O => Ret (result, w)
  | S n' =>
      let o := this w in
      let pos := j * channels (cfg o) in
      let s0 := data_16 data pos in
      let s1 := if stereoOutput o then data_16 data (pos + 1)
                else data_16 data pos in
      match write_blocking fuel (s0, s1) w with
      | Ret w' =>
          write_frames fuel data frameSize n' (j + 1)
                       (uint32 (result + frameSize)) w'
      | Crash => Crash
      | OutOfFuel => OutOfFuel
      end
  end.

Definition write (fuel : nat) (data : list Z) (len : Z) (w : world)
  : outcome (Z * world) :=
  let frameSize := to_int32 (channels (cfg (this w)) * 2) in
  if uint32 frameSize =? 0 then Crash else
  let frames := to_int32 (uint32 len / uint32 frameSize) in
  write_frames fuel data frameSize (Z.to_nat frames) 0 0 w.

End Timing.

End Driver.

(* ====================================================================== *)
(** ** Invariants of the running system *)

Module Invariants.
Import Bits ULP Platform Driver.

(** The words of [prog] are in memory from address 0. *)
Definition program_at (prog : list ulp_insn) (m : memory) : Prop :=
  forall k, (k < length prog)%nat ->
            m (Z.of_nat k) = ulp_bin (nth k prog I_HALT).

(** Both dispatch tables are in memory, the first one writing to pad
    register [t1] and the second one to [t2]. *)
Definition tables_at (t1 t2 : Z) (m : memory) : Prop :=
  forall i, 0 <= i < 256 ->
    m (dacTableStart1 + i * 2) = create_I_WR_REG t1 19 26 i /\
    m (dacTableStart1 + 1 + i * 2) = create_I_BXI 9 /\
    m (dacTableStart2 + i * 2) = create_I_WR_REG t2 19 26 i /\
    m (dacTableStart2 + 1 + i * 2) = create_I_BXI 14.

Definition is_dac_reg (t : Z) : Prop :=
  t = RTC_IO_PAD_DAC1_REG \/ t = RTC_IO_PAD_DAC2_REG.

(** What [setup] leaves in memory for the coprocessor. *)
Definition installed (t1 t2 : Z) (m : memory) : Prop :=
  (exists dt dt2, program_at (stereo dt dt2) m) /\
  tables_at t1 t2 m /\ is_dac_reg t1 /\ is_dac_reg t2.

(** The pad registers the tables of [setup] write to, by active-output
    mask. *)
Definition table_reg (active : Z) : Z :=
  if active =? 2 then RTC_IO_PAD_DAC2_REG else RTC_IO_PAD_DAC1_REG.

(** The memory image [setup] builds: program, tables, silence, index. *)
Definition setup_image (active dt dt2 : Z) (m : memory) : memory :=
  store indexAddress 0
    (for_loop (Z.to_nat totalSampleWords)
       (fun i => store (bufferStart + i) 0x8080)
       (create_dac_tables active 9 14
          (load_words 0 (map ulp_bin (stereo dt dt2)) m))).

(** The observed word index: the host halves the published index
    ([currentWord] in [writeFrame]). *)
Definition currentWord (w : world) : Z :=
  Z.shiftr (Z.land (RTC_SLOW_MEM w indexAddress) 0xffff) 1.

(** Where the coprocessor can be while it runs the control program, and
    what its registers hold there. *)
Inductive loop_inv (u : ulp_state) : Prop :=
| at_entry : pc u = 0 -> loop_inv u
| at_reset (Hpc : pc u = 1 \/ pc u = 2) (H3 : r3 u = 0)
| at_index (Hpc : pc u = 3 \/ pc u = 4 \/ pc u = 14 \/ pc u = 15 \/
                  pc u = 16 \/ pc u = 18 \/ pc u = 19)
    (H3 : r3 u = 0) (H0 : 0 <= r0 u < totalSampleWords)
| at_word (Hpc : pc u = 5 \/ pc u = 9 \/ pc u = 10)
    (H3 : r3 u = 0) (H0 : 0 <= r0 u < totalSampleWords)
    (H1 : 0 <= r1 u < 65536)
| at_low (Hpc : pc u = 6)
    (H3 : r3 u = 0) (H0 : 0 <= r0 u < totalSampleWords)
    (H1 : 0 <= r1 u < 65536) (H2 : 0 <= r2 u < 256)
| at_high (Hpc : pc u = 11)
    (H3 : r3 u = 0) (H0 : 0 <= r0 u < totalSampleWords)
    (H1 : 0 <= r1 u < 65536) (H2 : r2 u = Z.land (r1 u) 0xff00)
| at_dispatch (k : Z) (Hk : 0 <= k < 256)
    (Hpc : pc u = 7 /\ r2 u = 2 * k \/
           pc u = 8 /\ r2 u = dacTableStart1 + 2 * k \/
           pc u = dacTableStart1 + k * 2 \/
           pc u = dacTableStart1 + 1 + k * 2 \/
           pc u = 12 /\ r2 u = 2 * k \/
           pc u = 13 /\ r2 u = dacTableStart2 + 2 * k \/
           pc u = dacTableStart2 + k * 2 \/
           pc u = dacTableStart2 + 1 + k * 2)
    (H3 : r3 u = 0) (H0 : 0 <= r0 u < totalSampleWords)
    (H1 : 0 <= r1 u < 65536)
| at_wrap (Hpc : pc u = 17)
    (H3 : r3 u = 0) (H0 : 1 <= r0 u <= totalSampleWords).

(** The coprocessor runs the control program. *)
Definition looping (m : machine) : Prop :=
  status (cop m) = Running /\ loop_inv (cop m).

(** The write cursor points into the ring. *)
Definition cursor_ok (o : AudioESP32ULP) : Prop :=
  0 <= lastFilledWord o < totalSampleWords.

(** The words the control program stores to. *)
Definition ulp_writes (a : Z) : Prop :=
  indexAddress <= a < indexAddress + totalSampleWords.

(** The words [writeFrame] stores to: the ring buffer. *)
Definition in_buffer (a : Z) : Prop :=
  bufferStart <= a < bufferStart + totalSampleWords.

(** A write of [code] to the PDAC field of pad register [t]. *)
Definition pad_write (t code : Z) (d : dacs) : dacs :=
  if t =? RTC_IO_PAD_DAC1_REG
  then mk_dacs (dac1_enabled d) code (dac2_enabled d) (dac2_code d)
  else mk_dacs (dac1_enabled d) (dac1_code d) (dac2_enabled d) code.

(** The pad that no table writes to keeps its code, and the output
    enables stay as they are. *)
Definition dac_frame (t1 t2 : Z) (d d' : dacs) : Prop :=
  dac1_enabled d' = dac1_enabled d /\
  dac2_enabled d' = dac2_enabled d /\
  (t1 = RTC_IO_PAD_DAC1_REG -> t2 = RTC_IO_PAD_DAC1_REG ->
   dac2_code d' = dac2_code d) /\
  (t1 = RTC_IO_PAD_DAC2_REG -> t2 = RTC_IO_PAD_DAC2_REG ->
   dac1_code d' = dac1_code d).

End Invariants.

(* ====================================================================== *)
(** ** Scenarios: test drivers, reference definitions and concrete states *)

Module Scenario.
Import Bits ULP Platform Driver Invariants.

(** Consecutive [writeFrame] calls with no coprocessor step in between
    (the read-index cell does not change), up to the first rejected
    frame: the number of frames accepted and the state reached. *)
Fixpoint push_until_rejected (frames : list (Z * Z)) (w : world) : nat * world :=
  match frames with
  | [] => (O, w)
  | f :: rest =>
      let (ok, w') := writeFrame f w in
      if ok then
        let (n, w'') := push_until_rejected rest w' in (S n, w'')
      else (O, w)
  end.

(** A ring word with the given low and high byte. *)
Definition ring_word (lo hi : Z) : Z := lo + 256 * hi.

(** Consecutive codes combined two by two in (low, high) order; an odd
    last code is left over. *)
Fixpoint pair_words (codes : list Z) : list Z :=
  match codes with
  | lo :: hi :: rest => ring_word lo hi :: pair_words rest
  | _ => []
  end.

(** The odd code left over by [pair_words], if any. *)
Fixpoint left_over (codes : list Z) : option Z :=
  match codes with
  | [] => None
  | [c] => Some c
  | _ :: _ :: rest => left_over rest
  end.

(** The output codes of mono frames [j], [j+1], ... ([n] of them) of a
    byte buffer. *)
Fixpoint mono_codes (data : list Z) (j : Z) (n : nat) : list Z :=
  match n with
  | O => []
  | S n' => sample_code (data_16 data j) :: mono_codes data (j + 1) n'
  end.

(** The codes waiting to be paired: the staged one, if any. *)
Definition pending (o : AudioESP32ULP) : list Z :=
  if waitingOddSample o then [bufferedOddSample o] else [].

(** A staged code is a byte. *)
Definition staged_ok (o : AudioESP32ULP) : Prop :=
  waitingOddSample o = true -> 0 <= bufferedOddSample o < 256.

Definition opt_list (o : option Z) : list Z :=
  match o with Some c => [c] | None => [] end.

(** The ring words stored so far, oldest first. *)
Definition ring_words (w : world) : list Z := map snd (ring_log w).

(** Reference definitions following the specification's wording of
    [availableSlots] and [availableForWrite]: capacity minus the distance
    from the observed read index to the write cursor, times the frame
    size, reported when above the threshold. *)
Definition spec_availableSlots (w : world) : Z :=
  totalSampleWords
  - (lastFilledWord (this w) - currentWord w) mod totalSampleWords.

Definition spec_availableForWrite (w : world) : Z :=
  let bytes := spec_availableSlots w * (channels (cfg (this w)) * 2) in
  if min_write_bytes (this w) <? bytes then bytes else 0.

(** The pad register selected for mono output. *)
Definition mono_reg (d : UlpDac) : Z :=
  match d with
  | ULP_DAC1 => RTC_IO_PAD_DAC1_REG
  | ULP_DAC2 => RTC_IO_PAD_DAC2_REG
  end.

(** *** Concrete states *)

(** The hardware at power-on: memory cleared, coprocessor halted with
    its timer off, DAC pads disabled with code 0. *)
Definition power_on : machine :=
  mk_machine (fun _ => 0) (mk_ulp 0 0 0 0 0 Halted 0 false)
             (mk_dacs false 0 false 0).

(** A freshly constructed driver on that hardware; [rtc_clk_cal] measures
    a period of 15790321 (in units of 2^-19 microseconds), which makes the
    fast clock 8.5 MHz. *)
Definition fresh_world : world :=
  mk_world (new_AudioESP32ULP defaultConfig 0) power_on 15790321 [].

(** The coprocessor retires four instructions per millisecond of host
    sleep. *)
Definition four_per_ms (ms : Z) : nat := Z.to_nat (4 * ms).

Definition mono_config : AudioInfo := mk_info 44100 1 16.

(** The state after a successful [begin] on the fresh driver. *)
Definition session (info : AudioInfo) : world :=
  match begin four_per_ms 4 info fresh_world with
  | Ret (_, w) => w
  | _ => fresh_world
  end.

Definition stereo_session : world := session defaultConfig.
Definition mono_session : world := session mono_config.

(** The stereo session after the host has slept 53 ms: the coprocessor
    has consumed ten slots. *)
Definition stereo_after_10 : world := delay four_per_ms 53 stereo_session.
Definition mono_after_10 : world := delay four_per_ms 53 mono_session.

(** Three mono frames, little-endian: 0, 32767, -32768. *)
Definition three_mono_frames : list Z := [0; 0; 255; 127; 0; 128].

(** A second session on the same object.  In the first stereo session
    the host pushes five frames of silence once the coprocessor has
    consumed ten slots; then [end], and [begin] again.  The write cursor
    keeps its place, so it is five slots ahead of the restarted
    coprocessor. *)
Definition five_pushed : world :=
  snd (push_until_rejected (repeat (0, 0) 5) stereo_after_10).

Definition second_session : world :=
  match begin four_per_ms 4 defaultConfig (end_ five_pushed) with
  | Ret (_, w) => w
  | _ => fresh_world
  end.

(** In the second session the host pushes one full-scale frame and sleeps
    28 ms: the coprocessor has then played that frame. *)
Definition loud_frame_played : world :=
  delay four_per_ms 28 (snd (writeFrame (32767, 32767) second_session)).

End Scenario.

(* ====================================================================== *)
(** ** Sessions: what the host and the coprocessor do after [begin] *)

Module Session.
Import Bits ULP Platform Driver Invariants Scenario.

(** The next write cursor: [lastFilledWord++] with the wrap at the end of
    the ring. *)
Definition next_slot (c : Z) : Z :=
  if c + 1 =? totalSampleWords then 0 else c + 1.

(** The (slot, word) pairs of stereo frames [j], [j+1], ... ([n] of them)
    of a byte buffer, stored from slot [c] on. *)
Fixpoint stereo_log (data : list Z) (c j : Z) (n : nat) : list (Z * Z) :=
  match n with
  | O => []
  | S n' =>
      (c, ring_word (sample_code (data_16 data (j * 2)))
                    (sample_code (data_16 data (j * 2 + 1))))
      :: stereo_log data (next_slot c) (j + 1) n'
  end.

(** What happens during a session, one step at a time: the host pushes a
    frame or changes a setting, or the coprocessor retires some
    instructions. *)
Inductive session_step : world -> world -> Prop :=
| host_writes (s : Z * Z) (w : world) :
    session_step w (snd (writeFrame s w))
| host_sets_threshold (bytes : Z) (w : world) :
    session_step w (set_this (setMinWriteBytes bytes (this w)) w)
| host_selects_dac (d : UlpDac) (w : world) :
    session_step w (set_this (setMonoDAC d (this w)) w)
| cop_runs (n : nat) (w : world) :
    session_step w (set_hw (ulp_steps n (hw w)) w).

Inductive session_run : world -> world -> Prop :=
| run_done (w : world) : session_run w w
| run_step (w1 w2 w3 : world) :
    session_run w1 w2 -> session_step w2 w3 -> session_run w1 w3.

(** The values the index cell takes: zero before the first publication,
    the word stored by instruction 3 for an index in the ring, or the
    word stored by the silence store of instruction 15. *)
Definition index_cell_ok (v : Z) : Prop :=
  v = 0 \/
  (exists i, 0 <= i < totalSampleWords /\ v = st_word 3 R3 i) \/
  v = st_word 15 R0 0x8080.

(** At the silence store the register to store holds the silence word. *)
Definition silence_ready (u : ulp_state) : Prop :=
  pc u = 15 -> r1 u = 0x8080.

(** Between the extraction of a byte and the jump into a dispatch table,
    the table offset is that of the low byte (first table) or the high
    byte (second table) of the word loaded into R1. *)
Definition dispatch_ok (u : ulp_state) : Prop :=
  (pc u = 6 -> r2 u = r1 u mod 256) /\
  (pc u = 7 -> r2 u = 2 * (r1 u mod 256)) /\
  (pc u = 8 -> r2 u = dacTableStart1 + 2 * (r1 u mod 256)) /\
  (dacTableStart1 <= pc u ->
   pc u = dacTableStart1 + (r1 u mod 256) * 2 \/
   pc u = dacTableStart1 + 1 + (r1 u mod 256) * 2) /\
  (pc u = 12 -> r2 u = 2 * (r1 u / 256)) /\
  (pc u = 13 -> r2 u = dacTableStart2 + 2 * (r1 u / 256)) /\
  (dacTableStart2 <= pc u < dacTableStart1 ->
   pc u = dacTableStart2 + (r1 u / 256) * 2 \/
   pc u = dacTableStart2 + 1 + (r1 u / 256) * 2).

(** Every ring slot reads as a word with property [P], and so does the
    word in R1 once it has been loaded. *)
Definition ring_all (P : Z -> Prop) (m : memory) : Prop :=
  forall a, in_buffer a -> P (low_bits 16 (m a)).

Definition word_inv (P : Z -> Prop) (u : ulp_state) : Prop :=
  5 <= pc u -> P (r1 u).

(** What holds throughout a session that [begin] has started. *)
Definition session_inv (t : Z) (w : world) : Prop :=
  installed t t (RTC_SLOW_MEM w) /\
  looping (hw w) /\
  silence_ready (cop (hw w)) /\
  dispatch_ok (cop (hw w)) /\
  index_cell_ok (RTC_SLOW_MEM w indexAddress) /\
  cursor_ok (this w).

(** The outputs that [begin] has initialised are at the idle code. *)
Definition outputs_idle (active : Z) (d : dacs) : Prop :=
  (Z.land active 1 <> 0 -> dac1_code d = 128) /\
  (Z.land active 2 <> 0 -> dac2_code d = 128).

End Session.

(* ====================================================================== *)
(** ** The player sketch ([esp32_player.ino])

    The sketch only calls into the Arduino core and the audio library.
    Those calls are recorded, in program order, in a log; the one input
    the sketch reads is the card-detect pin, given as the sequence of
    levels that successive [digitalRead(sdCardPin)] calls return. *)

Module Sketch.

Inductive level := LOW | HIGH.

(** The four messages printed with [Serial.println]. *)
Inductive message :=
| please_insert      (* Please insert an SD card. *)
| card_detected      (* SD card detected. *)
| card_removed       (* SD card removed. Stopping playback. *)
| card_reinserted.   (* SD card reinserted. Resuming playback. *)

(** The button handlers registered in [setup]. *)
Inductive handler := on_startStop | on_next | on_previous.

Inductive call :=
| Serial_begin (baud : Z)
| AudioToolsLogger_begin_Warning
| pinMode_INPUT_PULLUP (pin : Z)
| Serial_println (msg : message)
| delay_ms (ms : Z)
| kit_defaultConfig_TX_MODE
| kit_begin
| kit_addDefaultActions
| kit_addAction (key : Z) (h : handler)   (* kit.addAction(kit.getKey(key), h) *)
| kit_processActions
| player_setBufferSize (bytes : Z)
| player_setVolume (percent : Z)          (* setVolume(0.5) is 50 percent *)
| player_begin
| player_setActive (active : bool)
| player_copy.

Definition sdCardPin := 34.

Record board := mk_board {
  card_pin : nat -> level;
  reads : nat;
  calls : list call
}.

Definition emit (c : call) (b : board) : board :=
  mk_board (card_pin b) (reads b) (calls b ++ [c]).

(** [digitalRead(sdCardPin)]: the next level of the card-detect pin. *)
Definition digitalRead (b : board) : level * board :=
  (card_pin b (reads b), mk_board (card_pin b) (S (reads b)) (calls b)).

Definition isSDCardInserted (b : board) : bool * board :=
  let (l, b') := digitalRead b in
  (match l with LOW => true | HIGH => false end, b').

(** [while (!isSDCardInserted()) delay(1000);] *)
Fixpoint wait_for_card (fuel : nat) (b : board) : Driver.outcome board :=
  let (inserted, b') := isSDCardInserted b in
  if inserted then Driver.Ret b'
  else
    match fuel with
    | O => Driver.OutOfFuel
    | S f => wait_for_card f (emit (delay_ms 1000) b')
    end.

(** The calls of [setup] after the card has been detected. *)
Definition start_player (b : board) : board :=
  let b := emit (Serial_println card_detected) b in
  (* setup output *)
  let b := emit kit_defaultConfig_TX_MODE b in
  let b := emit kit_begin b in
  (* setup additional buttons *)
  let b := emit kit_addDefaultActions b in
  let b := emit (kit_addAction 1 on_startStop) b in
  let b := emit (kit_addAction 4 on_next) b in
  let b := emit (kit_addAction 3 on_previous) b in
  (* setup player *)
  let b := emit (player_setBufferSize (512 * 1024)) b in
  let b := emit (player_setVolume 50) b in
  emit player_begin b.

Definition setup (fuel : nat) (b : board) : Driver.outcome board :=
  let b := emit (Serial_begin 115200) b in
  let b := emit AudioToolsLogger_begin_Warning b in
  (* SD card detection *)
  let b := emit (pinMode_INPUT_PULLUP sdCardPin) b in
  let (inserted, b) := isSDCardInserted b in
  if inserted then Driver.Ret (start_player b)
  else
    match wait_for_card fuel (emit (Serial_println please_insert) b) with
    | Driver.Ret b' => Driver.Ret (start_player b')
    | Driver.Crash => Driver.Crash
    | Driver.OutOfFuel => Driver.OutOfFuel
    end.

Definition play (b : board) : board :=
  emit kit_processActions (emit player_copy b).

Definition loop (fuel : nat) (b : board) : Driver.outcome board :=
  let (inserted, b) := isSDCardInserted b in
  if inserted then Driver.Ret (play b)
  else
    let b := emit (Serial_println card_removed) b in
    let b := emit (player_setActive false) b in
    match wait_for_card fuel b with
    | Driver.Ret b' =>
        let b' := emit (Serial_println card_reinserted) b' in
        let b' := emit (player_setActive true) b' in
        Driver.Ret (play b')
    | Driver.Crash => Driver.Crash
    | Driver.OutOfFuel => Driver.OutOfFuel
    end.

(** What [loop] logs when it finds the card out and sees it back after
    [k] more readings. *)
Definition pause_log (k : nat) : list call :=
  [Serial_println card_removed; player_setActive false]
  ++ repeat (delay_ms 1000) k
  ++ [Serial_println card_reinserted; player_setActive true].

(** What [setup] logs before and after the card detection. *)
Definition init_log : list call :=
  [Serial_begin 115200; AudioToolsLogger_begin_Warning;
   pinMode_INPUT_PULLUP sdCardPin].

Definition start_log : list call :=
  [Serial_println card_detected; kit_defaultConfig_TX_MODE; kit_begin;
   kit_addDefaultActions; kit_addAction 1 on_startStop;
   kit_addAction 4 on_next; kit_addAction 3 on_previous;
   player_setBufferSize 524288; player_setVolume 50; player_begin].

(** The card is out for the next [k] readings and in at the one after. *)
Definition card_back_after (k : nat) (b : board) : Prop :=
  (forall j, (j < k)%nat -> card_pin b (reads b + j) = HIGH) /\
  card_pin b (reads b + k) = LOW.

End Sketch.

(* ====================================================================== *)
(** * Properties *)

(** ** Bit-fields *)

Module BitsFacts.
Import Bits.

Lemma field_pack_hit (w v : Z) (rest : list (Z * Z)) :
  0 <= w -> field 0 w (pack ((w, v) :: rest)) = v mod 2 ^ w.
Proof.
  intros Hw. unfold field, low_bits, drop_bits. cbn [pack].
  rewrite Z.pow_0_r, Z.div_1_r.
  assert (0 < 2 ^ w) by (apply Z.pow_pos_nonneg; lia).
  rewrite Z.mul_comm, Z.mod_add by lia.
  apply Z.mod_mod; lia.
Qed.

Lemma field_pack_skip (pos k w v : Z) (rest : list (Z * Z)) :
  0 <= w <= pos ->
  field pos k (pack ((w, v) :: rest)) = field (pos - w) k (pack rest).
Proof.
  intros Hw. unfold field, low_bits, drop_bits. cbn [pack].
  assert (0 < 2 ^ w) by (apply Z.pow_pos_nonneg; lia).
  assert (0 < 2 ^ (pos - w)) by (apply Z.pow_pos_nonneg; lia).
  replace (2 ^ pos) with (2 ^ w * 2 ^ (pos - w))
    by (rewrite <- Z.pow_add_r by lia; f_equal; lia).
  rewrite <- Z.div_div by lia.
  f_equal. f_equal.
  rewrite Z.mul_comm, Z.div_add by lia.
  rewrite Z.div_small by (apply Z.mod_pos_bound; lia).
  reflexivity.
Qed.

Lemma field_pack (pos k v : Z) (fields : list (Z * Z)) :
  field_at pos fields = Some (k, v) -> 0 <= k ->
  field pos k (pack fields) = v mod 2 ^ k.
Proof.
  revert pos. induction fields as [| [w u] rest IH]; intros pos Hat Hk.
  - discriminate.
  - cbn [field_at] in Hat.
    destruct (pos =? 0) eqn:Hpos.
    + apply Z.eqb_eq in Hpos. inversion Hat; subst.
      apply field_pack_hit; assumption.
    + apply Z.eqb_neq in Hpos.
      destruct ((0 <=? w) && (w <=? pos)) eqn:E; [| discriminate].
      apply andb_true_iff in E. destruct E as [E1 E2].
      apply Z.leb_le in E1, E2.
      rewrite field_pack_skip by lia. apply IH; assumption.
Qed.

Lemma to_int32_small (x : Z) : 0 <= x < 2 ^ 31 -> to_int32 x = x.
Proof.
  intros H. unfold to_int32, uint32.
  rewrite Z.mod_small by lia.
  destruct (x <? 2 ^ 31) eqn:E; [reflexivity | apply Z.ltb_ge in E; lia].
Qed.

Lemma to_int16_small (x : Z) : 0 <= x < 2 ^ 15 -> to_int16 x = x.
Proof.
  intros H. unfold to_int16, uint16.
  rewrite Z.mod_small by lia.
  destruct (x <? 2 ^ 15) eqn:E; [reflexivity | apply Z.ltb_ge in E; lia].
Qed.

Lemma uint16_small (x : Z) : 0 <= x < 65536 -> uint16 x = x.
Proof. intros H. unfold uint16. apply Z.mod_small. lia. Qed.

Lemma land_ff (x : Z) : Z.land x 0xff = x mod 256.
Proof. change 0xff with (Z.ones 8). apply Z.land_ones. lia. Qed.

Lemma land_ffff (x : Z) : Z.land x 0xffff = x mod 65536.
Proof. change 0xffff with (Z.ones 16). apply Z.land_ones. lia. Qed.

(** The high byte of a 16-bit word, as the control program extracts it:
    mask with 0xff00, then shift right by 7 to get twice the byte. *)
Lemma high_byte_table_offset (x : Z) :
  0 <= x < 65536 ->
  Z.shiftr (Z.land x 0xff00) 7 = 2 * (x / 256).
Proof.
  intros Hx.
  assert (E : Z.land x 0xff00 = Z.shiftl (x / 256) 8).
  { apply Z.bits_inj'. intros n Hn.
    rewrite Z.land_spec.
    destruct (Z.ltb_spec n 8) as [Hlt | Hge].
    - rewrite Z.shiftl_spec_low by lia.
      change 0xff00 with (Z.shiftl 255 8).
      rewrite (Z.shiftl_spec_low 255) by lia. apply andb_false_r.
    - rewrite Z.shiftl_spec by lia.
      change 256 with (2 ^ 8). rewrite <- Z.shiftr_div_pow2 by lia.
      rewrite Z.shiftr_spec by lia.
      replace (n - 8 + 8) with n by lia.
      change 0xff00 with (Z.shiftl (Z.ones 8) 8).
      rewrite (Z.shiftl_spec (Z.ones 8)) by lia.
      destruct (Z.ltb_spec n 16) as [Hlt | Hge'].
      + rewrite Z.ones_spec_low by lia. apply andb_true_r.
      + rewrite Z.ones_spec_high by lia. rewrite andb_false_r.
        symmetry. apply Z.bits_above_log2; [lia |].
        destruct (Z.eq_dec x 0) as [-> | Hnz]; [simpl; lia |].
        apply Z.log2_lt_pow2; [lia |].
        apply Z.lt_le_trans with (2 ^ 16); [lia |].
        apply Z.pow_le_mono_r; lia. }
  rewrite E, Z.shiftl_mul_pow2, Z.shiftr_div_pow2 by lia.
  change (2 ^ 8) with (2 * 2 ^ 7).
  rewrite Z.mul_assoc, Z.div_mul by lia. lia.
Qed.

End BitsFacts.

(** ** Instruction words *)

Module ULPFacts.
Import Bits ULP BitsFacts.

Lemma reg_of_num (r : reg) : reg_of (reg_num r mod 2 ^ 2) = r.
Proof. destruct r; reflexivity. Qed.

Lemma bit_test (x : bool) : (bit x mod 2 ^ 1 =? 1) = x.
Proof. destruct x; reflexivity. Qed.

(** Resolves the test at the head of a cascade of conditionals once it
    is closed. *)
Ltac eval_head_test :=
  lazymatch goal with
  | |- (if ?t then _ else _) = _ =>
      let v := eval vm_compute in t in
      lazymatch v with
      | true => change t with true
      | false => change t with false
      end; cbv iota
  end.

(** Reads every field that starts where the struct has a field of the
    same width. *)
Ltac read_fields :=
  repeat match goal with
    | |- context [field ?p ?k (pack ?fs)] =>
        let r := eval cbn in (field_at p fs) in
        lazymatch r with
        | Some (k, ?v) => rewrite (field_pack p k v fs eq_refl) by lia
        end
    end.

(** Fetching a word the driver has assembled yields the instruction,
    with every field truncated to its width. *)
Lemma decode_ulp_bin (i : ulp_insn) : decode (ulp_bin i) = Some (truncate i).
Proof.
  destruct i; unfold decode, ulp_bin; cbv zeta;
    read_fields;
    repeat eval_head_test;
    rewrite ?reg_of_num, ?bit_test; reflexivity.
Qed.

End ULPFacts.

(** ** The platform *)

Module PlatformFacts.
Import Bits ULP Platform BitsFacts ULPFacts.

Lemma store_eq (a v : Z) (m : memory) : store a v m a = v.
Proof. unfold store. rewrite Z.eqb_refl. reflexivity. Qed.

Lemma store_neq (a v x : Z) (m : memory) : x <> a -> store a v m x = m x.
Proof.
  intros H. unfold store. destruct (Z.eqb_spec x a); [contradiction | reflexivity].
Qed.

Lemma load_words_below (ws : list Z) :
  forall a m x, x < a -> load_words a ws m x = m x.
Proof.
  induction ws as [| w rest IH]; intros a m x Hx; cbn [load_words].
  - reflexivity.
  - rewrite IH by lia. apply store_neq. lia.
Qed.

Lemma load_words_above (ws : list Z) :
  forall a m x, a + Z.of_nat (length ws) <= x -> load_words a ws m x = m x.
Proof.
  induction ws as [| w rest IH]; intros a m x Hx; cbn [load_words].
  - reflexivity.
  - cbn [length] in Hx. rewrite IH by lia. apply store_neq. lia.
Qed.

Lemma load_words_at (ws : list Z) :
  forall a m k, (k < length ws)%nat ->
                load_words a ws m (a + Z.of_nat k) = nth k ws 0.
Proof.
  induction ws as [| w rest IH]; intros a m k Hk; cbn [load_words length] in *.
  - lia.
  - destruct k as [| k'].
    + rewrite load_words_below by lia.
      replace (a + Z.of_nat 0) with a by lia. apply store_eq.
    + replace (a + Z.of_nat (S k')) with (a + 1 + Z.of_nat k') by lia.
      rewrite IH by lia. reflexivity.
Qed.

(** Fetch and decode of a word the driver assembled. *)
Lemma step_fetch (m : machine) (i : ulp_insn) :
  status (cop m) = Running ->
  0 <= pc (cop m) < RTC_SLOW_MEM_WORDS ->
  mem m (pc (cop m)) = ulp_bin i ->
  ulp_step m = exec (truncate i) m.
Proof.
  intros Hrun Hpc Hword. unfold ulp_step. rewrite Hrun.
  destruct Hpc as [Hlo Hhi].
  apply Z.leb_le in Hlo. apply Z.ltb_lt in Hhi. rewrite Hlo, Hhi.
  cbn [andb]. rewrite Hword, decode_ulp_bin. reflexivity.
Qed.

(** *** What each instruction of the driver does *)

Lemma exec_MOVI (rd : reg) (imm : Z) (m : machine) :
  exec (truncate (I_MOVI rd imm)) m
  = mk_machine (mem m) (next (set_reg rd (imm mod 2 ^ 16) (cop m))) (dac m).
Proof. reflexivity. Qed.

Lemma exec_ADDI (rd rs : reg) (imm : Z) (m : machine) :
  exec (truncate (I_ADDI rd rs imm)) m
  = mk_machine (mem m)
      (next (set_reg rd (uint16 (get_reg (cop m) rs + imm mod 2 ^ 16)) (cop m)))
      (dac m).
Proof. reflexivity. Qed.

Lemma exec_ANDI (rd rs : reg) (imm : Z) (m : machine) :
  exec (truncate (I_ANDI rd rs imm)) m
  = mk_machine (mem m)
      (next (set_reg rd (Z.land (get_reg (cop m) rs) (imm mod 2 ^ 16)) (cop m)))
      (dac m).
Proof. reflexivity. Qed.

Lemma exec_LSHI (rd rs : reg) (imm : Z) (m : machine) :
  exec (truncate (I_LSHI rd rs imm)) m
  = mk_machine (mem m)
      (next (set_reg rd (uint16 (Z.shiftl (get_reg (cop m) rs) (imm mod 2 ^ 16)))
                     (cop m)))
      (dac m).
Proof. reflexivity. Qed.

Lemma exec_RSHI (rd rs : reg) (imm : Z) (m : machine) :
  exec (truncate (I_RSHI rd rs imm)) m
  = mk_machine (mem m)
      (next (set_reg rd (Z.shiftr (get_reg (cop m) rs) (imm mod 2 ^ 16)) (cop m)))
      (dac m).
Proof. reflexivity. Qed.

Lemma exec_DELAY (cycles : Z) (m : machine) :
  exec (truncate (I_DELAY cycles)) m = advance m.
Proof. reflexivity. Qed.

Lemma exec_BXR (r : reg) (m : machine) :
  exec (truncate (I_BXR r)) m
  = mk_machine (mem m) (set_pc (get_reg (cop m) r) (cop m)) (dac m).
Proof. reflexivity. Qed.

Lemma exec_BXI (imm_pc : Z) (m : machine) :
  exec (truncate (I_BXI imm_pc)) m
  = mk_machine (mem m) (set_pc (imm_pc mod 2 ^ 11) (cop m)) (dac m).
Proof. reflexivity. Qed.

Lemma exec_ST (rv ra : reg) (offset : Z) (m : machine) :
  exec (truncate (I_ST rv ra offset)) m
  = if get_reg (cop m) ra + offset mod 2 ^ 11 <? RTC_SLOW_MEM_WORDS then
      mk_machine
        (store (get_reg (cop m) ra + offset mod 2 ^ 11)
               (st_word (pc (cop m)) ra (get_reg (cop m) rv)) (mem m))
        (next (cop m)) (dac m)
    else stuck m.
Proof. reflexivity. Qed.

Lemma exec_LD (rd ra : reg) (offset : Z) (m : machine) :
  exec (truncate (I_LD rd ra offset)) m
  = if get_reg (cop m) ra + offset mod 2 ^ 11 <? RTC_SLOW_MEM_WORDS then
      mk_machine (mem m)
        (next (set_reg rd
                 (low_bits 16 (mem m (get_reg (cop m) ra + offset mod 2 ^ 11)))
                 (cop m)))
        (dac m)
    else stuck m.
Proof. reflexivity. Qed.

Lemma exec_BGE_back (offset imm : Z) (m : machine) :
  offset < 0 ->
  exec (truncate (I_BGE offset imm)) m
  = mk_machine (mem m)
      (set_pc (if imm mod 2 ^ 16 <=? r0 (cop m)
               then pc (cop m) - Z.abs offset mod 2 ^ 7
               else pc (cop m) + 1) (cop m))
      (dac m).
Proof.
  intros H. unfold I_BGE. cbn [truncate exec].
  destruct (Z.leb_spec 0 offset); [lia | reflexivity].
Qed.

Lemma exec_WR_DAC1 (code : Z) (m : machine) :
  exec (truncate (I_WR_REG RTC_IO_PAD_DAC1_REG 19 26 code)) m
  = advance (mk_machine (mem m) (cop m)
               (mk_dacs (dac1_enabled (dac m)) (code mod 2 ^ 8)
                        (dac2_enabled (dac m)) (dac2_code (dac m)))).
Proof. reflexivity. Qed.

Lemma exec_WR_DAC2 (code : Z) (m : machine) :
  exec (truncate (I_WR_REG RTC_IO_PAD_DAC2_REG 19 26 code)) m
  = advance (mk_machine (mem m) (cop m)
               (mk_dacs (dac1_enabled (dac m)) (dac1_code (dac m))
                        (dac2_enabled (dac m)) (code mod 2 ^ 8))).
Proof. reflexivity. Qed.

Lemma exec_HALT (m : machine) :
  exec (truncate I_HALT) m
  = mk_machine (mem m) (set_status Halted (cop m)) (dac m).
Proof. reflexivity. Qed.

Lemma exec_END (m : machine) :
  exec (truncate I_END) m
  = advance (mk_machine (mem m) (set_timer_en false (cop m)) (dac m)).
Proof. reflexivity. Qed.

End PlatformFacts.

(** ** The control program: one step preserves the loop invariant *)

Module LoopFacts.
Import Bits ULP Platform Driver Invariants BitsFacts ULPFacts PlatformFacts.

Lemma program_fetch (prog : list ulp_insn) (m : memory) (k : nat) (i : ulp_insn) :
  program_at prog m -> nth_error prog k = Some i ->
  m (Z.of_nat k) = ulp_bin i.
Proof.
  intros Hprog Hk. rewrite (Hprog k).
  - f_equal. apply nth_error_nth. assumption.
  - apply nth_error_Some. congruence.
Qed.

Ltac consts :=
  unfold ulp_writes, in_buffer, cursor_ok, totalSamples, totalSampleWords,
    bufferStart, indexAddress, opcodeCount, dacTableStart2, dacTableStart1,
    RTC_SLOW_MEM_WORDS in *.

(** Fetches instruction number [k] of the control program, which is [i],
    and executes it. *)
Ltac fetch k i :=
  match goal with
  | Hprog : program_at _ (mem ?m), Hrun : status (cop ?m) = Running |- _ =>
      rewrite (step_fetch m i Hrun);
      [ | consts; lia
        | match goal with
          | Hpc : pc (cop m) = _ |- _ => rewrite Hpc
          end;
          exact (program_fetch _ _ k i Hprog eq_refl) ]
  end.

Ltac project :=
  cbn [mem cop dac next advance set_reg set_pc set_status get_reg
       status pc r0 r1 r2 r3 dac1_enabled dac2_enabled dac1_code dac2_code] in *.

(** Closes the three parts of a step that stores nothing, given the
    proof of the invariant at the new location. *)
Ltac no_store inv :=
  split; [ split; [project; assumption | inv ]
         | split; [ intros a _; reflexivity
                  | split; [ intros a; left; reflexivity
                           | unfold dac_frame; project; repeat split;
                             reflexivity ] ] ].

(** A word stored by [ST] is never zero: its upper bits hold the
    program counter. *)
Lemma st_word_nonzero (p v : Z) (r : reg) :
  0 < p < 2 ^ 11 -> st_word p r v <> 0.
Proof.
  intros Hp. unfold st_word. cbn [pack].
  rewrite (Z.mod_small p) by lia.
  pose proof (Z.mod_pos_bound v (2 ^ 16) ltac:(lia)).
  pose proof (Z.mod_pos_bound (reg_num r) (2 ^ 2) ltac:(lia)).
  change (0 mod 2 ^ 3) with 0. lia.
Qed.

Lemma store_same_or_nonzero (a v : Z) (m : memory) :
  v <> 0 -> forall x, store a v m x = m x \/ store a v m x <> 0.
Proof.
  intros Hv x. unfold store. destruct (x =? a); [right; exact Hv | left; reflexivity].
Qed.

Lemma loop_step (t1 t2 : Z) (m : machine) :
  installed t1 t2 (mem m) -> looping m ->
  looping (ulp_step m) /\
  (forall a, ~ ulp_writes a -> mem (ulp_step m) a = mem m a) /\
  (forall a, mem (ulp_step m) a = mem m a \/ mem (ulp_step m) a <> 0) /\
  dac_frame t1 t2 (dac m) (dac (ulp_step m)).
Proof.
  intros [[dt [dt2 Hprog]] [Htab [Ht1 Ht2]]] [Hrun Hinv].
  destruct Hinv.
  - (* 0: reset the offset register *)
    fetch 0%nat (I_MOVI R3 0). rewrite exec_MOVI.
    no_store ltac:(apply at_reset; project; [lia | reflexivity]).
  - destruct Hpc as [Hpc | Hpc].
    + fetch 1%nat (I_DELAY dt). rewrite exec_DELAY.
      no_store ltac:(apply at_reset; project; [lia | assumption]).
    + fetch 2%nat (I_MOVI R0 0). rewrite exec_MOVI.
      no_store ltac:(apply at_index; project;
                     [lia | assumption | consts; cbn; lia]).
  - destruct Hpc as [Hpc | [Hpc | [Hpc | [Hpc | [Hpc | [Hpc | Hpc]]]]]].
    + (* 3: publish the index *)
      fetch 3%nat (I_ST R0 R3 indexAddress). rewrite exec_ST.
      project. rewrite H3.
      change (0 + indexAddress mod 2 ^ 11 <? RTC_SLOW_MEM_WORDS) with true.
      cbv iota.
      split; [ split; [project; assumption
                      | apply at_index; project; [lia | assumption | assumption] ] | ].
      split; [ | split; [ | unfold dac_frame; project; repeat split; reflexivity ] ].
      * intros a Ha. project. apply store_neq.
        change (0 + indexAddress mod 2 ^ 11) with indexAddress.
        consts. lia.
      * project. apply store_same_or_nonzero, st_word_nonzero. lia.
    + (* 4: load the ring word *)
      fetch 4%nat (I_LD R1 R0 bufferStart). rewrite exec_LD.
      project. change (bufferStart mod 2 ^ 11) with 21.
      assert (Hlt : (r0 (cop m) + 21 <? RTC_SLOW_MEM_WORDS) = true)
        by (apply Z.ltb_lt; consts; lia).
      rewrite Hlt.
      no_store ltac:(apply at_word; project;
                     [lia | assumption | assumption
                     | unfold low_bits; apply Z.mod_pos_bound; lia]).
    + fetch 14%nat (I_MOVI R1 0x8080). rewrite exec_MOVI.
      no_store ltac:(apply at_index; project; [lia | assumption | assumption]).
    + (* 15: the silence store *)
      fetch 15%nat (I_ST R1 R0 indexAddress). rewrite exec_ST.
      project. change (indexAddress mod 2 ^ 11) with 20.
      assert (Hlt : (r0 (cop m) + 20 <? RTC_SLOW_MEM_WORDS) = true)
        by (apply Z.ltb_lt; consts; lia).
      rewrite Hlt.
      split; [ split; [project; assumption
                      | apply at_index; project; [lia | assumption | assumption] ] | ].
      split; [ | split; [ | unfold dac_frame; project; repeat split; reflexivity ] ].
      * intros a Ha. project. apply store_neq. consts. lia.
      * project. apply store_same_or_nonzero, st_word_nonzero. lia.
    + fetch 16%nat (I_ADDI R0 R0 1). rewrite exec_ADDI.
      project. change (1 mod 2 ^ 16) with 1.
      rewrite uint16_small by (consts; lia).
      no_store ltac:(apply at_wrap; project; [lia | assumption | lia]).
    + fetch 18%nat (I_DELAY (uint32 (dt + 2))). rewrite exec_DELAY.
      no_store ltac:(apply at_index; project; [lia | assumption | assumption]).
    + fetch 19%nat (I_BXI 3). rewrite exec_BXI.
      no_store ltac:(apply at_index; project;
                     [left; reflexivity | assumption | assumption]).
  - destruct Hpc as [Hpc | [Hpc | Hpc]].
    + fetch 5%nat (I_ANDI R2 R1 0x00ff). rewrite exec_ANDI.
      project. change (0x00ff mod 2 ^ 16) with 0xff. rewrite land_ff.
      no_store ltac:(apply at_low; project;
                     [lia | assumption | assumption | assumption
                     | apply Z.mod_pos_bound; lia]).
    + fetch 9%nat (I_DELAY dt2). rewrite exec_DELAY.
      no_store ltac:(apply at_word; project;
                     [lia | assumption | assumption | assumption]).
    + fetch 10%nat (I_ANDI R2 R1 0xff00). rewrite exec_ANDI.
      no_store ltac:(apply at_high; project;
                     [lia | assumption | assumption | assumption | reflexivity]).
  - fetch 6%nat (I_LSHI R2 R2 1). rewrite exec_LSHI.
    project. change (1 mod 2 ^ 16) with 1.
    rewrite Z.shiftl_mul_pow2 by lia. rewrite uint16_small by lia.
    no_store ltac:(apply (at_dispatch _ (r2 (cop m))); project;
                   [assumption | left; lia | assumption | assumption | assumption]).
  - fetch 11%nat (I_RSHI R2 R2 (8 - 1)). rewrite exec_RSHI.
    project. change ((8 - 1) mod 2 ^ 16) with 7.
    rewrite H2, high_byte_table_offset by assumption.
    assert (0 <= r1 (cop m) / 256 < 256)
      by (split; [apply Z.div_pos; lia | apply Z.div_lt_upper_bound; lia]).
    no_store ltac:(apply (at_dispatch _ (r1 (cop m) / 256)); project;
                   [assumption | do 4 right; left; lia
                   | assumption | assumption | assumption]).
  - destruct (Htab k Hk) as [Hw1 [Hb1 [Hw2 Hb2]]].
    destruct Hpc as [[Hpc Hr] | [[Hpc Hr] | [Hpc | [Hpc | [[Hpc Hr] | [[Hpc Hr] | [Hpc | Hpc]]]]]]].
    + fetch 7%nat (I_ADDI R2 R2 dacTableStart1). rewrite exec_ADDI.
      project. rewrite Hr. change (dacTableStart1 mod 2 ^ 16) with dacTableStart1.
      rewrite uint16_small by (consts; lia).
      no_store ltac:(apply (at_dispatch _ k); project;
                     [assumption | right; left; lia
                     | assumption | assumption | assumption]).
    + fetch 8%nat (I_BXR R2). rewrite exec_BXR.
      no_store ltac:(apply (at_dispatch _ k); project;
                     [assumption | do 2 right; left; lia
                     | assumption | assumption | assumption]).
    + (* first table: write the code to the pad register *)
      rewrite (step_fetch m (I_WR_REG t1 19 26 k) Hrun);
        [ | consts; lia | rewrite Hpc; exact Hw1 ].
      assert (Hinv' : forall m', cop m' = next (cop m) -> loop_inv (cop m')).
      { intros m' ->. apply (at_dispatch _ k); project;
          [assumption | do 3 right; left; lia | assumption | assumption | assumption]. }
      destruct Ht1 as [-> | ->].
      * rewrite exec_WR_DAC1.
        split; [ split; [project; assumption | apply Hinv'; reflexivity] | ].
        split; [ intros a _; reflexivity | ].
        split; [ intros a; left; reflexivity | ].
        unfold dac_frame; project; repeat split; try reflexivity; discriminate.
      * rewrite exec_WR_DAC2.
        split; [ split; [project; assumption | apply Hinv'; reflexivity] | ].
        split; [ intros a _; reflexivity | ].
        split; [ intros a; left; reflexivity | ].
        unfold dac_frame; project; repeat split; try reflexivity; discriminate.
    + rewrite (step_fetch m (I_BXI 9) Hrun);
        [ | consts; lia | rewrite Hpc; exact Hb1 ].
      rewrite exec_BXI.
      no_store ltac:(apply at_word; project;
                     [right; left; reflexivity
                     | assumption | assumption | assumption]).
    + fetch 12%nat (I_ADDI R2 R2 dacTableStart2). rewrite exec_ADDI.
      project. rewrite Hr. change (dacTableStart2 mod 2 ^ 16) with dacTableStart2.
      rewrite uint16_small by (consts; lia).
      no_store ltac:(apply (at_dispatch _ k); project;
                     [assumption | do 5 right; left; lia
                     | assumption | assumption | assumption]).
    + fetch 13%nat (I_BXR R2). rewrite exec_BXR.
      no_store ltac:(apply (at_dispatch _ k); project;
                     [assumption | do 6 right; left; lia
                     | assumption | assumption | assumption]).
    + (* second table *)
      rewrite (step_fetch m (I_WR_REG t2 19 26 k) Hrun);
        [ | consts; lia | rewrite Hpc; exact Hw2 ].
      assert (Hinv' : forall m', cop m' = next (cop m) -> loop_inv (cop m')).
      { intros m' ->. apply (at_dispatch _ k); project;
          [assumption | do 7 right; lia | assumption | assumption | assumption]. }
      destruct Ht2 as [-> | ->].
      * rewrite exec_WR_DAC1.
        split; [ split; [project; assumption | apply Hinv'; reflexivity] | ].
        split; [ intros a _; reflexivity | ].
        split; [ intros a; left; reflexivity | ].
        unfold dac_frame; project; repeat split; try reflexivity; discriminate.
      * rewrite exec_WR_DAC2.
        split; [ split; [project; assumption | apply Hinv'; reflexivity] | ].
        split; [ intros a _; reflexivity | ].
        split; [ intros a; left; reflexivity | ].
        unfold dac_frame; project; repeat split; try reflexivity; discriminate.
    + rewrite (step_fetch m (I_BXI 14) Hrun);
        [ | consts; lia | rewrite Hpc; exact Hb2 ].
      rewrite exec_BXI.
      no_store ltac:(apply at_index; project;
                     [do 2 right; left; reflexivity | assumption | assumption]).
  - (* 17: wrap to the index reset at the end of the buffer *)
    fetch 17%nat (I_BGE (-16) totalSampleWords).
    rewrite exec_BGE_back by lia.
    change (totalSampleWords mod 2 ^ 16) with totalSampleWords.
    change (Z.abs (-16) mod 2 ^ 7) with 16. rewrite Hpc.
    destruct (Z.leb_spec totalSampleWords (r0 (cop m))).
    + no_store ltac:(apply at_reset; project; [left; reflexivity | assumption]).
    + no_store ltac:(apply at_index; project;
                     [do 5 right; left; reflexivity | assumption | lia]).
Qed.

End LoopFacts.

(** ** [setup] and [begin] *)

Module SetupFacts.
Import Bits ULP Platform Driver Invariants.
Import BitsFacts ULPFacts PlatformFacts LoopFacts.

(** [installed] only depends on the program and table words. *)
Lemma installed_frame (t1 t2 : Z) (m m' : memory) :
  installed t1 t2 m ->
  (forall a, 0 <= a < opcodeCount \/ dacTableStart2 <= a < RTC_SLOW_MEM_WORDS ->
             m' a = m a) ->
  installed t1 t2 m'.
Proof.
  intros [[dt [dt2 Hprog]] [Htab [Ht1 Ht2]]] Hsame.
  split; [exists dt, dt2 | split; [ | split; assumption]].
  - intros k Hk. rewrite Hsame; [apply Hprog; assumption |].
    left. cbn [length stereo] in Hk. consts. lia.
  - intros i Hi. destruct (Htab i Hi) as [H1 [H2 [H3 H4]]].
    rewrite !Hsame by (right; consts; lia). repeat split; assumption.
Qed.

Lemma dac_frame_refl (t1 t2 : Z) (d : dacs) : dac_frame t1 t2 d d.
Proof. unfold dac_frame. repeat split; reflexivity. Qed.

Lemma dac_frame_trans (t1 t2 : Z) (d d' d'' : dacs) :
  dac_frame t1 t2 d d' -> dac_frame t1 t2 d' d'' -> dac_frame t1 t2 d d''.
Proof.
  unfold dac_frame. intros [A1 [A2 [A3 A4]]] [B1 [B2 [B3 B4]]].
  repeat split; intros; try congruence.
  - rewrite B3, A3 by assumption. reflexivity.
  - rewrite B4, A4 by assumption. reflexivity.
Qed.

(** Any number of steps of the control program keeps it running, in
    place, and confined to the index cell and the ring slots. *)
Lemma loop_steps (t1 t2 : Z) (n : nat) :
  forall m,
    installed t1 t2 (mem m) -> looping m ->
    installed t1 t2 (mem (ulp_steps n m)) /\
    looping (ulp_steps n m) /\
    (forall a, ~ ulp_writes a -> mem (ulp_steps n m) a = mem m a) /\
    (forall a, mem m a <> 0 -> mem (ulp_steps n m) a <> 0) /\
    dac_frame t1 t2 (dac m) (dac (ulp_steps n m)).
Proof.
  induction n as [| n IH]; intros m Hinst Hloop; cbn [ulp_steps].
  - split; [assumption | split; [assumption | split; [ | split]]].
    + reflexivity.
    + auto.
    + apply dac_frame_refl.
  - destruct (loop_step t1 t2 m Hinst Hloop) as [Hloop' [Hmem [Hnz Hdac]]].
    assert (Hinst' : installed t1 t2 (mem (ulp_step m))).
    { apply (installed_frame _ _ (mem m)); [assumption |].
      intros a Ha. apply Hmem. consts. lia. }
    destruct (IH _ Hinst' Hloop') as [Hi [Hl [Hm [Hz Hd]]]].
    split; [assumption | split; [assumption | split; [ | split]]].
    + intros a Ha. rewrite Hm, Hmem by assumption. reflexivity.
    + intros a Ha. apply Hz. destruct (Hnz a) as [E | E]; congruence.
    + apply (dac_frame_trans _ _ _ _ _ Hdac Hd).
Qed.

(** *** The loops of [setup] *)

Lemma silence_loop (v : Z) (m : memory) (n : nat) (x : Z) :
  for_loop n (fun i => store (bufferStart + i) v) m x
  = if (bufferStart <=? x) && (x <? bufferStart + Z.of_nat n) then v else m x.
Proof.
  induction n as [| n IH]; cbn [for_loop].
  - destruct (Z.leb_spec bufferStart x), (Z.ltb_spec x (bufferStart + Z.of_nat 0));
      cbn [andb]; try reflexivity; lia.
  - unfold store at 1. rewrite IH.
    destruct (Z.eqb_spec x (bufferStart + Z.of_nat n)),
      (Z.leb_spec bufferStart x),
      (Z.ltb_spec x (bufferStart + Z.of_nat n)),
      (Z.ltb_spec x (bufferStart + Z.of_nat (S n)));
      cbn [andb]; try reflexivity; lia.
Qed.

Lemma table_loop_below (r1 r2 a1 a2 : Z) (m : memory) (n : nat) (x : Z) :
  x < dacTableStart2 ->
  for_loop n (dac_table_entry r1 r2 a1 a2) m x = m x.
Proof.
  intros Hx. induction n as [| n IH]; cbn [for_loop]; [reflexivity |].
  unfold dac_table_entry.
  rewrite !store_neq by (consts; lia). assumption.
Qed.

Lemma table_loop_at (r1 r2 a1 a2 : Z) (m : memory) (n : nat) :
  (n <= 256)%nat ->
  forall i, 0 <= i < Z.of_nat n ->
    let m' := for_loop n (dac_table_entry r1 r2 a1 a2) m in
    m' (dacTableStart1 + i * 2) = create_I_WR_REG r1 19 26 i /\
    m' (dacTableStart1 + 1 + i * 2) = create_I_BXI a1 /\
    m' (dacTableStart2 + i * 2) = create_I_WR_REG r2 19 26 i /\
    m' (dacTableStart2 + 1 + i * 2) = create_I_BXI a2.
Proof.
  induction n as [| n IH]; intros Hn i Hi; [lia |].
  cbn [for_loop]. cbv zeta.
  destruct (Z.eq_dec i (Z.of_nat n)) as [-> | Hne].
  - unfold dac_table_entry.
    repeat split;
      repeat (first [ rewrite store_eq; reflexivity
                    | rewrite store_neq by (consts; lia) ]).
  - specialize (IH ltac:(lia) i ltac:(lia)). cbv zeta in IH.
    destruct IH as [E1 [E2 [E3 E4]]].
    unfold dac_table_entry.
    rewrite !store_neq by (consts; lia).
    repeat split; assumption.
Qed.

Lemma on_active_dacs_mem (active : Z) f (m : machine) :
  (forall ch m0, mem (f ch m0) = mem m0) ->
  mem (on_active_dacs active f m) = mem m.
Proof.
  intros Hf. unfold on_active_dacs.
  destruct (Z.land active 1 =? 0), (Z.land active 2 =? 0);
    rewrite ?Hf; reflexivity.
Qed.

Lemma on_active_dacs_cop (active : Z) f (m : machine) :
  (forall ch m0, cop (f ch m0) = cop m0) ->
  cop (on_active_dacs active f m) = cop m.
Proof.
  intros Hf. unfold on_active_dacs.
  destruct (Z.land active 1 =? 0), (Z.land active 2 =? 0);
    rewrite ?Hf; reflexivity.
Qed.

Lemma create_dac_tables_below (active : Z) (m : memory) (x : Z) :
  x < dacTableStart2 -> create_dac_tables active 9 14 m x = m x.
Proof.
  intros Hx. unfold create_dac_tables.
  destruct (active =? 1); [apply table_loop_below; assumption |].
  destruct (active =? 2); [apply table_loop_below; assumption |].
  destruct (active =? 3); [apply table_loop_below; assumption | reflexivity].
Qed.

Lemma create_dac_tables_at (active : Z) (m : memory) :
  1 <= active <= 3 ->
  tables_at (table_reg active) (table_reg active)
            (create_dac_tables active 9 14 m).
Proof.
  intros Ha i Hi. unfold create_dac_tables, table_reg.
  assert (Hc : active = 1 \/ active = 2 \/ active = 3) by lia.
  destruct Hc as [-> | [-> | ->]]; cbn [Z.eqb Pos.eqb];
    apply table_loop_at;
    first [ apply Nat.le_refl | change (Z.of_nat 256) with 256; lia ].
Qed.

Lemma table_reg_is_dac (active : Z) : is_dac_reg (table_reg active).
Proof. unfold table_reg, is_dac_reg. destruct (active =? 2); auto. Qed.

Lemma setup_image_installed (active dt dt2 : Z) (m : memory) :
  1 <= active <= 3 ->
  installed (table_reg active) (table_reg active)
            (setup_image active dt dt2 m).
Proof.
  intros Ha. unfold setup_image.
  split; [exists dt, dt2 | split; [ | split; apply table_reg_is_dac]].
  - intros k Hk. cbn [length stereo] in Hk.
    rewrite store_neq by (consts; lia).
    rewrite silence_loop.
    replace ((bufferStart <=? Z.of_nat k)
             && (Z.of_nat k <? bufferStart + Z.of_nat (Z.to_nat totalSampleWords)))
      with false
      by (symmetry; apply andb_false_iff; left; apply Z.leb_gt; consts; lia).
    rewrite create_dac_tables_below by (consts; lia).
    change (Z.of_nat k) with (0 + Z.of_nat k).
    rewrite load_words_at by (rewrite length_map; cbn [length stereo]; lia).
    rewrite (nth_indep _ 0 (ulp_bin I_HALT))
      by (rewrite length_map; cbn [length stereo]; lia).
    apply map_nth.
  - intros i Hi.
    destruct (create_dac_tables_at active
                (load_words 0 (map ulp_bin (stereo dt dt2)) m) Ha i Hi)
      as [E1 [E2 [E3 E4]]].
    rewrite !store_neq by (consts; lia).
    rewrite !silence_loop.
    assert (Hout : forall x, dacTableStart2 <= x ->
              (bufferStart <=? x)
              && (x <? bufferStart + Z.of_nat (Z.to_nat totalSampleWords)) = false).
    { intros x Hx. apply andb_false_iff. right. apply Z.ltb_ge. consts. lia. }
    rewrite !Hout by (consts; lia).
    repeat split; assumption.
Qed.

Lemma setup_image_silence (active dt dt2 : Z) (m : memory) (a : Z) :
  in_buffer a -> setup_image active dt dt2 m a = 0x8080.
Proof.
  intros Ha. unfold setup_image.
  rewrite store_neq by (consts; lia). rewrite silence_loop.
  replace ((bufferStart <=? a)
           && (a <? bufferStart + Z.of_nat (Z.to_nat totalSampleWords)))
    with true; [reflexivity |].
  symmetry. apply andb_true_iff.
  split; [apply Z.leb_le | apply Z.ltb_lt]; consts; lia.
Qed.

Lemma setup_image_index (active dt dt2 : Z) (m : memory) :
  setup_image active dt dt2 m indexAddress = 0.
Proof. unfold setup_image. apply store_eq. Qed.

Lemma Ret_inj {A : Type} (x y : A) : Ret x = Ret y -> x = y.
Proof. intros H. injection H as H. exact H. Qed.

(** The state [setup] starts the coprocessor in. *)
Lemma setup_start_ok (w w1 : world) :
  setup_start w = Ret w1 ->
  let o := this w in
  let o1 := if negb (stereoOutput o) then set_waitingOddSample false o else o in
  this w1 = o1 /\
  ring_log w1 = ring_log w /\
  rtc_8md256_period w1 = rtc_8md256_period w /\
  (exists dt dt2,
     RTC_SLOW_MEM w1 = setup_image (activeDACs o) dt dt2 (RTC_SLOW_MEM w)) /\
  cop (hw w1) = mk_ulp 0 (r0 (cop (hw w))) (r1 (cop (hw w))) (r2 (cop (hw w)))
                       (r3 (cop (hw w))) Running 0 true /\
  dac (hw w1) = dac (on_active_dacs (activeDACs o) dac_init (hw w)).
Proof.
  unfold setup_start. cbv zeta. intros H.
  destruct (uint32 (rtc_8md256_period w) =? 0); [discriminate |].
  set (o1 := if negb (stereoOutput (this w))
             then set_waitingOddSample false (this w) else this w) in *.
  assert (Hact : activeDACs o1 = activeDACs (this w))
    by (subst o1; destruct (stereoOutput (this w)); reflexivity).
  destruct (uint32 (hertz o1) =? 0); [discriminate |].
  apply Ret_inj in H. subst w1.
  cbn [this ring_log rtc_8md256_period hw]. unfold RTC_SLOW_MEM.
  cbn [hw ulp_run ulp_process_macros_and_load mem cop dac].
  rewrite Hact.
  rewrite !on_active_dacs_mem, !on_active_dacs_cop
    by (intros [] m0; reflexivity).
  repeat split.
  eexists. eexists. unfold setup_image. reflexivity.
Qed.

Lemma ulp_steps_add (a c : nat) (m : machine) :
  ulp_steps (a + c) m = ulp_steps c (ulp_steps a m).
Proof.
  revert m. induction a as [| a IH]; intros m; cbn [ulp_steps Nat.add];
    [reflexivity | apply IH].
Qed.

Section Timing.
Variable ulp_ticks : Z -> nat.

(** The waiting loop of [setup] only lets the coprocessor run. *)
Lemma wait_index_ret (fuel : nat) :
  forall w w',
    wait_index ulp_ticks fuel w = Ret w' ->
    (exists n, hw w' = ulp_steps n (hw w)) /\
    this w' = this w /\ ring_log w' = ring_log w /\
    rtc_8md256_period w' = rtc_8md256_period w /\
    RTC_SLOW_MEM w' indexAddress <> 0.
Proof.
  induction fuel as [| fuel IH]; intros w w' H; cbn [wait_index] in H;
    destruct (Z.eqb_spec (RTC_SLOW_MEM w indexAddress) 0) as [E | E];
    try discriminate.
  - injection H as <-. repeat split; try assumption. exists 0%nat. reflexivity.
  - destruct (IH _ _ H) as [[n Hn] [Ht [Hl [Hp Hi]]]].
    repeat split; try assumption.
    exists (ulp_ticks 1 + n)%nat. rewrite ulp_steps_add. exact Hn.
  - injection H as <-. repeat split; try assumption. exists 0%nat. reflexivity.
Qed.

Lemma begin_config_active (info : AudioInfo) (o : AudioESP32ULP) :
  1 <= activeDACs (begin_config info o) <= 3.
Proof.
  unfold begin_config. cbn [activeDACs].
  destruct (channels info =? 2); [lia |].
  destruct (selected_mono_dac o); cbn; lia.
Qed.

(** What a successful [begin] establishes. *)
Lemma begin_true (fuel : nat) (info : AudioInfo) (w w' : world) :
  begin ulp_ticks fuel info w = Ret (true, w') ->
  let o := begin_config info (this w) in
  let t := table_reg (activeDACs o) in
  bits_per_sample info = 16 /\
  this w' = (if negb (stereoOutput o)
             then set_waitingOddSample false o else o) /\
  ring_log w' = ring_log w /\
  installed t t (RTC_SLOW_MEM w') /\
  looping (hw w') /\
  dac_frame t t (dac (on_active_dacs (activeDACs o) dac_init (hw w)))
            (dac (hw w')).
Proof.
  unfold begin. cbv zeta.
  destruct (Z.eqb_spec (bits_per_sample info) 16) as [Hbits | Hbits];
    cbn [negb]; [ | discriminate].
  unfold setup.
  set (w0 := set_this (begin_config info (this w)) w).
  destruct (setup_start w0) as [w1 | |] eqn:Hstart; try discriminate.
  destruct (wait_index ulp_ticks fuel w1) as [w2 | |] eqn:Hwait;
    try discriminate.
  intros H. injection H as <-.
  destruct (setup_start_ok _ _ Hstart)
    as [Ho [Hl [Hp [[dt [dt2 Hmem]] [Hcop Hdac]]]]].
  cbv zeta in *. cbn [this set_this ring_log hw] in *.
  destruct (wait_index_ret _ _ _ Hwait) as [[n Hn] [Ht [Hl' [Hp' Hi]]]].
  pose proof (begin_config_active info (this w)) as Hact.
  set (o := begin_config info (this w)) in *.
  assert (Hinst1 : installed (table_reg (activeDACs o)) (table_reg (activeDACs o))
                     (mem (hw w1))).
  { unfold RTC_SLOW_MEM in Hmem. rewrite Hmem.
    apply setup_image_installed. assumption. }
  assert (Hloop1 : looping (hw w1)).
  { split; rewrite Hcop; [reflexivity | apply at_entry; reflexivity]. }
  destruct (loop_steps _ _ n _ Hinst1 Hloop1) as [Hi2 [Hl2 [Hm2 [_ Hd2]]]].
  change (this w0) with o in *.
  change (ring_log w0) with (ring_log w) in *.
  change (hw w0) with (hw w) in *.
  unfold RTC_SLOW_MEM. rewrite Hn.
  split; [assumption |].
  split; [congruence |].
  split; [congruence |].
  split; [assumption |].
  split; [assumption |].
  rewrite <- Hdac. assumption.
Qed.

End Timing.

End SetupFacts.

(** ** The host side: [writeFrame] and the blocking write *)

Module HostFacts.
Import Bits ULP Platform Driver Invariants Scenario.
Import BitsFacts PlatformFacts LoopFacts SetupFacts.

Lemma sample_code_range (s : Z) : 0 <= sample_code s < 256.
Proof. unfold sample_code. rewrite land_ff. apply Z.mod_pos_bound. lia. Qed.

Lemma mix_same (c : Z) : 0 <= c < 256 -> to_int16 (mix c c) = c.
Proof.
  intros Hc. unfold mix, uint32.
  rewrite Z.mod_small by lia.
  rewrite Z.shiftr_div_pow2 by lia.
  replace ((c + c) / 2 ^ 1) with c
    by (change (2 ^ 1) with 2; apply Z.div_unique with 0; lia).
  rewrite land_ff, Z.mod_small by lia.
  rewrite uint16_small by lia. apply to_int16_small. lia.
Qed.

(** Two bytes combined with [|] and [<<] make the ring word with those
    bytes. *)
Lemma lor_bytes (lo hi : Z) :
  0 <= lo < 256 -> 0 <= hi < 256 ->
  uint32 (Z.lor lo (Z.shiftl hi 8)) = ring_word lo hi.
Proof.
  intros Hlo Hhi. unfold ring_word.
  rewrite Z.shiftl_mul_pow2 by lia. change (2 ^ 8) with 256.
  assert (Hland : Z.land lo (hi * 256) = 0).
  { apply Z.bits_inj'. intros n Hn.
    rewrite Z.land_spec, Z.bits_0.
    destruct (Z.ltb_spec n 8).
    - change 256 with (2 ^ 8). rewrite Z.mul_pow2_bits_low by lia.
      apply andb_false_r.
    - replace (Z.testbit lo n) with false; [reflexivity |].
      symmetry. destruct (Z.eq_dec lo 0) as [-> | Hnz]; [apply Z.bits_0 |].
      apply Z.bits_above_log2; [lia |].
      apply Z.lt_le_trans with 8; [ | assumption].
      apply Z.log2_lt_pow2; lia. }
  pose proof (Z.add_lor_land lo (hi * 256)) as Hadd.
  rewrite Hland in Hadd.
  unfold uint32. rewrite Z.mod_small by lia. lia.
Qed.

(** *** The three outcomes of [writeFrame] *)

Lemma writeFrame_stage (s : Z * Z) (w : world) :
  waitingOddSample (this w) = false ->
  writeFrame s w
  = (true,
     set_this
       (mk_obj (cfg (this w)) (lastFilledWord (this w)) (hertz (this w))
          (min_write_bytes (this w)) (selected_mono_dac (this w))
          ((if negb (stereoOutput (this w))
            then to_int16 (mix (sample_code (fst s)) (sample_code (snd s)))
            else sample_code (fst s)) mod 256)
          true (activeDACs (this w)) (stereoOutput (this w))) w).
Proof. intros H. unfold writeFrame. rewrite H. reflexivity. Qed.

Lemma writeFrame_reject (s : Z * Z) (w : world) :
  waitingOddSample (this w) = true ->
  lastFilledWord (this w) = currentWord w ->
  writeFrame s w = (false, w).
Proof.
  intros Hw Hc. unfold writeFrame. rewrite Hw.
  fold (currentWord w). rewrite Hc, Z.eqb_refl. reflexivity.
Qed.

Lemma writeFrame_accepts (s : Z * Z) (w : world) :
  waitingOddSample (this w) = true ->
  lastFilledWord (this w) <> currentWord w ->
  exists w', writeFrame s w = (true, w') /\
    lastFilledWord (this w')
    = (if lastFilledWord (this w) + 1 =? totalSampleWords
       then 0 else lastFilledWord (this w) + 1) /\
    stereoOutput (this w') = stereoOutput (this w) /\
    cfg (this w') = cfg (this w) /\
    waitingOddSample (this w') = stereoOutput (this w) /\
    bufferedOddSample (this w')
    = (if stereoOutput (this w) then bufferedOddSample (this w) else 128) /\
    RTC_SLOW_MEM w'
    = store (bufferStart + lastFilledWord (this w))
            (snd (last (ring_log w') (0, 0))) (RTC_SLOW_MEM w) /\
    cop (hw w') = cop (hw w) /\ dac (hw w') = dac (hw w) /\
    ring_log w'
    = ring_log w
        ++ [(lastFilledWord (this w),
             if stereoOutput (this w)
             then uint32 (Z.lor (sample_code (fst s))
                                (Z.shiftl (sample_code (snd s)) 8))
             else uint32 (Z.lor (bufferedOddSample (this w))
                    (Z.shiftl
                       (to_int16 (mix (sample_code (fst s))
                                      (sample_code (snd s)))) 8)))].
Proof.
  intros Hw Hc. unfold writeFrame. rewrite Hw.
  fold (currentWord w).
  destruct (Z.eqb_spec (lastFilledWord (this w)) (currentWord w)) as [E | E];
    [contradiction |].
  cbn [negb]. eexists. split; [reflexivity |].
  cbn [this hw ring_log lastFilledWord stereoOutput cfg waitingOddSample
       bufferedOddSample cop dac]. unfold RTC_SLOW_MEM. cbn [hw mem].
  rewrite last_last. cbn [snd].
  destruct (stereoOutput (this w)); rewrite ?Hw; repeat split; reflexivity.
Qed.

(** A rejected frame changes nothing; an accepted one only stores into
    the ring buffer and keeps the cursor in the ring. *)
Lemma writeFrame_frame (s : Z * Z) (w : world) :
  cursor_ok (this w) ->
  cursor_ok (this (snd (writeFrame s w))) /\
  (forall a, ~ in_buffer a ->
             RTC_SLOW_MEM (snd (writeFrame s w)) a = RTC_SLOW_MEM w a) /\
  cop (hw (snd (writeFrame s w))) = cop (hw w) /\
  dac (hw (snd (writeFrame s w))) = dac (hw w).
Proof.
  intros Hc.
  destruct (waitingOddSample (this w)) eqn:Hw.
  - destruct (Z.eq_dec (lastFilledWord (this w)) (currentWord w)) as [E | E].
    + rewrite writeFrame_reject by assumption. cbn [snd]. auto.
    + destruct (writeFrame_accepts s w Hw E)
        as [w' [-> [Hl [_ [_ [_ [_ [Hm [Hcop [Hdac _]]]]]]]]]].
      cbn [snd]. repeat split; try assumption.
      * rewrite Hl. destruct (Z.eqb_spec (lastFilledWord (this w) + 1) totalSampleWords);
          consts; lia.
      * rewrite Hl. destruct (Z.eqb_spec (lastFilledWord (this w) + 1) totalSampleWords);
          consts; lia.
      * intros a Ha. rewrite Hm. apply store_neq. consts. lia.
  - rewrite writeFrame_stage by assumption. cbn [snd]. auto.
Qed.

(** The distance from the cursor to the observed word index, around
    the ring. *)
Lemma ring_distance (c cw n : Z) :
  0 <= c < n -> 0 <= cw < n ->
  (cw - c) mod n = if c <=? cw then cw - c else cw - c + n.
Proof.
  intros Hc Hcw. destruct (Z.leb_spec c cw).
  - apply Z.mod_small. lia.
  - symmetry. apply Z.mod_unique with (-1); lia.
Qed.

Lemma ring_advance (c k n : Z) :
  0 <= c < n -> 0 <= k ->
  ((if c + 1 =? n then 0 else c + 1) + k) mod n = (c + (1 + k)) mod n.
Proof.
  intros Hc Hk. destruct (Z.eqb_spec (c + 1) n) as [E | E].
  - replace (c + (1 + k)) with (k + 1 * n) by lia.
    rewrite Z.mod_add by lia. reflexivity.
  - f_equal. lia.
Qed.

(** Pushing stereo frames against a read index that does not move. *)
Lemma push_stereo (fs : list (Z * Z)) :
  forall w,
    stereoOutput (this w) = true -> waitingOddSample (this w) = true ->
    cursor_ok (this w) -> 0 <= currentWord w < totalSampleWords ->
    let d := (currentWord w - lastFilledWord (this w)) mod totalSampleWords in
    let r := push_until_rejected fs w in
    Z.of_nat (fst r) = Z.min (Z.of_nat (length fs)) d /\
    lastFilledWord (this (snd r))
    = (lastFilledWord (this w) + Z.of_nat (fst r)) mod totalSampleWords /\
    stereoOutput (this (snd r)) = true /\
    waitingOddSample (this (snd r)) = true /\
    RTC_SLOW_MEM (snd r) indexAddress = RTC_SLOW_MEM w indexAddress /\
    length (ring_log (snd r)) = (length (ring_log w) + fst r)%nat.
Proof.
  induction fs as [| f fs IH]; intros w Hst Hwait Hc Hcw; cbv zeta.
  - cbn [push_until_rejected fst snd length].
    assert (0 <= (currentWord w - lastFilledWord (this w)) mod totalSampleWords)
      by (apply Z.mod_pos_bound; consts; lia).
    repeat split; try assumption; try lia.
    rewrite Z.add_0_r, Z.mod_small; [reflexivity | exact Hc].
  - cbn [push_until_rejected length].
    rewrite (ring_distance _ _ _ Hc Hcw).
    destruct (Z.eq_dec (lastFilledWord (this w)) (currentWord w)) as [E | E].
    + rewrite writeFrame_reject by assumption.
      cbn [fst snd].
      destruct (Z.leb_spec (lastFilledWord (this w)) (currentWord w)); [ | lia].
      repeat split; try assumption; try lia.
      rewrite Z.add_0_r, Z.mod_small; [reflexivity | exact Hc].
    + destruct (writeFrame_accepts f w Hwait E)
        as [w' [-> [Hl [Hs [_ [Hw' [_ [Hm [_ [_ Hlog]]]]]]]]]].
      assert (Hidx : RTC_SLOW_MEM w' indexAddress = RTC_SLOW_MEM w indexAddress).
      { rewrite Hm. apply store_neq. unfold cursor_ok in Hc. consts. lia. }
      assert (Hcw' : currentWord w' = currentWord w)
        by (unfold currentWord; rewrite Hidx; reflexivity).
      assert (Hc' : cursor_ok (this w')).
      { unfold cursor_ok in *. rewrite Hl.
        destruct (Z.eqb_spec (lastFilledWord (this w) + 1) totalSampleWords);
          consts; lia. }
      assert (Hcwr : 0 <= currentWord w' < totalSampleWords)
        by (rewrite Hcw'; assumption).
      assert (Hst' : stereoOutput (this w') = true) by congruence.
      assert (Hwt' : waitingOddSample (this w') = true) by congruence.
      specialize (IH w' Hst' Hwt' Hc' Hcwr).
      cbv zeta in IH.
      rewrite (ring_distance _ _ _ Hc' Hcwr) in IH.
      rewrite Hcw' in IH.
      destruct (push_until_rejected fs w') as [n w''].
      cbn [fst snd] in *.
      destruct IH as [Hn [Hl'' [Hs'' [Hw'' [Hi'' Hlen]]]]].
      split; [ | split; [ | split; [assumption | split; [assumption | split]]]].
      * rewrite Hl in Hn. unfold cursor_ok in Hc.
        destruct (Z.eqb_spec (lastFilledWord (this w) + 1) totalSampleWords);
          destruct (Z.leb_spec (lastFilledWord (this w)) (currentWord w));
          repeat match goal with
            | H : context [?a <=? ?c] |- _ =>
                destruct (Z.leb_spec a c)
            end; lia.
      * rewrite Hl'', Hl. unfold cursor_ok in Hc.
        rewrite ring_advance by lia. f_equal. lia.
      * congruence.
      * rewrite Hlen, Hlog, length_app. cbn [length]. lia.
Qed.

Lemma writeFrame_rejected_same (s : Z * Z) (w w' : world) :
  writeFrame s w = (false, w') -> w' = w /\ waitingOddSample (this w) = true
                                 /\ lastFilledWord (this w) = currentWord w.
Proof.
  unfold writeFrame. fold (currentWord w).
  destruct (waitingOddSample (this w)); [ | discriminate].
  destruct (Z.eqb_spec (lastFilledWord (this w)) (currentWord w));
    cbn [negb]; [ | discriminate].
  intros H. injection H as <-. auto.
Qed.

Section Timing.
Variable ulp_ticks : Z -> nat.

(** A blocking write ends with one accepted [writeFrame]; the retries
    before it leave the object and the history alone. *)
Lemma write_blocking_ret (fuel : nat) (s : Z * Z) :
  forall w w',
    write_blocking ulp_ticks fuel s w = Ret w' ->
    exists w0, this w0 = this w /\ ring_log w0 = ring_log w /\
               writeFrame s w0 = (true, w').
Proof.
  induction fuel as [| fuel IH]; intros w w' H; cbn [write_blocking] in H.
  - destruct (writeFrame s w) as [[] w1] eqn:E; [ | discriminate].
    apply Ret_inj in H. subst w1. exists w. auto.
  - destruct (writeFrame s w) as [[] w1] eqn:E.
    + apply Ret_inj in H. subst w1. exists w. auto.
    + apply writeFrame_rejected_same in E. destruct E as [-> _].
      destruct (IH _ _ H) as [w0 [Ht [Hl Hw]]].
      exists w0. auto.
Qed.

(** With room in the ring, a blocking write does not wait. *)
Lemma write_blocking_now (fuel : nat) (s : Z * Z) (w w' : world) :
  writeFrame s w = (true, w') ->
  write_blocking ulp_ticks fuel s w = Ret w'.
Proof.
  intros H. destruct fuel; cbn [write_blocking]; rewrite H; reflexivity.
Qed.

End Timing.

End HostFacts.

(** ** Mono output: pairing of frames *)

Module MonoFacts.
Import Bits ULP Platform Driver Invariants Scenario.
Import BitsFacts PlatformFacts LoopFacts SetupFacts HostFacts.

(** One accepted mono frame: it is staged, or completes a ring word. *)
Lemma mono_frame (s : Z) (w w' : world) :
  stereoOutput (this w) = false -> staged_ok (this w) ->
  writeFrame (s, s) w = (true, w') ->
  stereoOutput (this w') = false /\ cfg (this w') = cfg (this w) /\
  staged_ok (this w') /\
  ring_words w' = ring_words w ++ pair_words (pending (this w) ++ [sample_code s]) /\
  pending (this w')
  = match pending (this w) with [] => [sample_code s] | _ => [] end.
Proof.
  intros Hst Hok H.
  pose proof (sample_code_range s) as Hs.
  destruct (waitingOddSample (this w)) eqn:Hw.
  - destruct (Z.eq_dec (lastFilledWord (this w)) (currentWord w)) as [E | E].
    + rewrite writeFrame_reject in H by assumption. discriminate.
    + destruct (writeFrame_accepts (s, s) w Hw E)
        as [w1 [H1 [_ [Hs1 [Hc1 [Hw1 [_ [_ [_ [_ Hlog]]]]]]]]]].
      rewrite H1 in H. injection H as <-.
      rewrite Hst in *. cbn [fst snd] in Hlog.
      rewrite mix_same in Hlog by assumption.
      rewrite lor_bytes in Hlog by (try apply Hok; assumption).
      unfold pending, staged_ok, ring_words. rewrite Hw, Hw1, Hlog, map_app.
      repeat split; try assumption; try discriminate.
  - rewrite writeFrame_stage in H by assumption.
    injection H as <-. rewrite Hst. cbn [negb fst snd].
    rewrite mix_same by assumption. rewrite Z.mod_small by lia.
    unfold pending, staged_ok, ring_words.
    cbn [this set_this ring_log waitingOddSample bufferedOddSample
         stereoOutput cfg].
    rewrite Hw. cbn [app pair_words]. rewrite app_nil_r.
    repeat split; try assumption; try reflexivity; lia.
Qed.



Section Timing.
Variable ulp_ticks : Z -> nat.

(** The frame loop of [write] in mono mode pairs the codes of the
    frames, starting with the staged one if there is one. *)
Lemma write_frames_mono (fuel : nat) (data : list Z) (frameSize : Z) (n : nat) :
  forall j result w r w',
    stereoOutput (this w) = false -> channels (cfg (this w)) = 1 ->
    staged_ok (this w) ->
    write_frames ulp_ticks fuel data frameSize n j result w = Ret (r, w') ->
    ring_words w'
    = ring_words w ++ pair_words (pending (this w) ++ mono_codes data j n) /\
    pending (this w')
    = opt_list (left_over (pending (this w) ++ mono_codes data j n)).
Proof.
  induction n as [| n IH]; intros j result w r w' Hst Hch Hok H;
    cbn [write_frames mono_codes] in *.
  - apply Ret_inj in H. injection H as _ <-.
    rewrite app_nil_r. unfold pending.
    destruct (waitingOddSample (this w)); cbn; rewrite ?app_nil_r; auto.
  - rewrite Hst, Hch, Z.mul_1_r in H.
    destruct (write_blocking ulp_ticks fuel (data_16 data j, data_16 data j) w)
      as [w1 | |] eqn:Hb; try discriminate.
    destruct (write_blocking_ret _ _ _ _ _ Hb) as [w0 [Ht [Hl Hw]]].
    destruct (mono_frame _ _ _ ltac:(rewrite Ht; exact Hst)
                ltac:(rewrite Ht; exact Hok) Hw)
      as [Hst1 [Hc1 [Hok1 [Hwords Hpend]]]].
    rewrite Ht in Hc1, Hwords, Hpend.
    assert (Hrw : ring_words w0 = ring_words w)
      by (unfold ring_words; rewrite Hl; reflexivity).
    rewrite Hrw in Hwords.
    destruct (IH _ _ _ _ _ Hst1 ltac:(congruence) Hok1 H) as [IH1 IH2].
    rewrite IH1, IH2, Hwords, Hpend.
    unfold pending in *.
    destruct (waitingOddSample (this w)); cbn [app pair_words left_over];
      rewrite ?app_nil_r, <- ?app_assoc; auto.
Qed.

(** With room in the ring for every word, the frame loop returns
    without waiting. *)
Lemma write_frames_mono_room (fuel : nat) (data : list Z) (frameSize : Z)
    (n : nat) :
  forall j result w,
    stereoOutput (this w) = false -> channels (cfg (this w)) = 1 ->
    cursor_ok (this w) -> 0 <= currentWord w < totalSampleWords ->
    Z.of_nat (length (pair_words (pending (this w) ++ mono_codes data j n)))
    <= (currentWord w - lastFilledWord (this w)) mod totalSampleWords ->
    exists r w',
      write_frames ulp_ticks fuel data frameSize n j result w = Ret (r, w').
Proof.
  induction n as [| n IH]; intros j result w Hst Hch Hc Hcw Hroom;
    cbn [write_frames mono_codes] in *.
  - eexists. eexists. reflexivity.
  - rewrite Hst, Hch, Z.mul_1_r.
    set (s := data_16 data j) in *.
    destruct (waitingOddSample (this w)) eqn:Hw.
    + unfold pending in Hroom. rewrite Hw in Hroom.
      cbn [app pair_words length] in Hroom.
      rewrite (ring_distance _ _ _ Hc Hcw) in Hroom.
      assert (E : lastFilledWord (this w) <> currentWord w).
      { intros E. rewrite E, Z.leb_refl in Hroom. lia. }
      destruct (writeFrame_accepts (s, s) w Hw E)
        as [w1 [H1 [Hl [Hs1 [Hc1 [Hw1 [_ [Hm [_ [_ _]]]]]]]]]].
      rewrite (write_blocking_now _ _ _ _ _ H1).
      assert (Hidx : RTC_SLOW_MEM w1 indexAddress = RTC_SLOW_MEM w indexAddress).
      { rewrite Hm. apply store_neq. unfold cursor_ok in Hc. consts. lia. }
      assert (Hcw1 : currentWord w1 = currentWord w)
        by (unfold currentWord; rewrite Hidx; reflexivity).
      assert (Hc' : cursor_ok (this w1)).
      { unfold cursor_ok in *. rewrite Hl.
        destruct (Z.eqb_spec (lastFilledWord (this w) + 1) totalSampleWords);
          consts; lia. }
      assert (Hcwr : 0 <= currentWord w1 < totalSampleWords)
        by (rewrite Hcw1; assumption).
      apply IH; try congruence.
      unfold pending. rewrite Hw1, Hst. cbn [app].
      rewrite (ring_distance _ _ _ Hc' Hcwr).
      rewrite Hcw1, Hl. unfold cursor_ok in Hc.
      destruct (Z.eqb_spec (lastFilledWord (this w) + 1) totalSampleWords);
        destruct (Z.leb_spec (lastFilledWord (this w)) (currentWord w));
        match goal with
        | |- context [?a <=? ?c] => destruct (Z.leb_spec a c)
        end; lia.
    + pose proof (sample_code_range s) as Hs.
      rewrite (write_blocking_now _ _ _ _ _ (writeFrame_stage (s, s) w Hw)).
      apply IH; cbn [this set_this cfg stereoOutput lastFilledWord];
        try assumption.
      unfold pending in *. rewrite Hw in Hroom.
      cbn [this set_this waitingOddSample bufferedOddSample app] in *.
      rewrite Hst. cbn [negb fst snd].
      rewrite mix_same, Z.mod_small by lia. exact Hroom.
Qed.

End Timing.

(** *** Lists of codes and words *)

Lemma mono_codes_length (data : list Z) (n : nat) :
  forall j, length (mono_codes data j n) = n.
Proof.
  induction n as [| n IH]; intros j; cbn [mono_codes length];
    [reflexivity | rewrite IH; reflexivity].
Qed.

Lemma mono_codes_nth (data : list Z) (n : nat) :
  forall j i, (i < n)%nat ->
    nth i (mono_codes data j n) 0 = sample_code (data_16 data (j + Z.of_nat i)).
Proof.
  induction n as [| n IH]; intros j i Hi; [lia |].
  cbn [mono_codes]. destruct i as [| i].
  - cbn [nth]. rewrite Z.add_0_r. reflexivity.
  - cbn [nth]. rewrite IH by lia. f_equal. f_equal. lia.
Qed.

(** Induction two elements at a time. *)
Lemma list_pair_ind (P : list Z -> Prop) :
  P [] -> (forall c, P [c]) ->
  (forall lo hi rest, P rest -> P (lo :: hi :: rest)) ->
  forall l, P l.
Proof.
  intros H0 H1 H2 l.
  assert (H : P l /\ forall c, P (c :: l)).
  { induction l as [| x l [IHa IHb]]; split; auto. }
  apply H.
Qed.

Lemma pair_words_length (codes : list Z) :
  length (pair_words codes) = (length codes / 2)%nat.
Proof.
  induction codes as [| c | lo hi rest IH] using list_pair_ind;
    try reflexivity.
  cbn [pair_words length]. rewrite IH.
  change (S (S (length rest))) with (2 + length rest)%nat.
  replace (2 + length rest)%nat with (length rest + 1 * 2)%nat by lia.
  rewrite Nat.div_add by lia. lia.
Qed.

Lemma pair_words_nth (codes : list Z) :
  forall k, (k < length codes / 2)%nat ->
    nth k (pair_words codes) 0
    = ring_word (nth (2 * k) codes 0) (nth (2 * k + 1) codes 0).
Proof.
  induction codes as [| c | lo hi rest IH] using list_pair_ind; intros k Hk.
  - cbn in Hk. lia.
  - cbn in Hk. lia.
  - cbn [pair_words]. destruct k as [| k]; [reflexivity |].
    cbn [length] in Hk.
    change (S (S (length rest))) with (2 + length rest)%nat in Hk.
    replace (2 + length rest)%nat with (length rest + 1 * 2)%nat in Hk by lia.
    rewrite Nat.div_add in Hk by lia.
    cbn [nth]. rewrite IH by lia.
    replace (2 * S k)%nat with (S (S (2 * k))) by lia.
    replace (S (S (2 * k)) + 1)%nat with (S (S (2 * k + 1))) by lia.
    reflexivity.
Qed.

Lemma left_over_odd (codes : list Z) :
  left_over codes
  = if Nat.odd (length codes) then Some (last codes 0) else None.
Proof.
  induction codes as [| c | lo hi rest IH] using list_pair_ind;
    try reflexivity.
  cbn [left_over length]. rewrite IH.
  change (Nat.odd (S (S (length rest)))) with (Nat.odd (length rest)).
  destruct rest; reflexivity.
Qed.

End MonoFacts.

(** ** One pass of the control program, and the halt program *)

Module IterationFacts.
Import Bits ULP Platform Driver Invariants Scenario.
Import BitsFacts ULPFacts PlatformFacts LoopFacts SetupFacts.

Lemma exec_WR_DAC (t code : Z) (m : machine) :
  is_dac_reg t ->
  exec (truncate (I_WR_REG t 19 26 code)) m
  = advance (mk_machine (mem m) (cop m) (pad_write t (code mod 2 ^ 8) (dac m))).
Proof. intros [-> | ->]; reflexivity. Qed.

Lemma ulp_steps_S (n : nat) (m : machine) :
  ulp_steps (S n) m = ulp_steps n (ulp_step m).
Proof. reflexivity. Qed.

(** One instruction of the control program, at an explicit state. *)
Ltac run k i :=
  rewrite ulp_steps_S;
  match goal with
  | |- context [ulp_step ?M] =>
      rewrite (step_fetch M i);
      [ | reflexivity | cbn [cop pc]; consts; lia
        | match goal with
          | Hprog : program_at _ _ |- _ =>
              exact (program_fetch _ _ k i Hprog eq_refl)
          end ]
  end.

(** One instruction of a dispatch table, whose word is given by [Hw]. *)
Ltac run_table i Hw :=
  rewrite ulp_steps_S;
  match goal with
  | |- context [ulp_step ?M] =>
      rewrite (step_fetch M i);
      [ | reflexivity | cbn [cop pc]; consts; lia
        | cbn [mem cop pc]; etransitivity; [ | exact Hw ]; f_equal; lia ]
  end.

Ltac norm :=
  unfold advance, next, set_pc, set_reg, get_reg;
  cbn [mem cop dac pc r0 r1 r2 r3 status entry_point timer_en].

(** One pass of the control program over slot [i], from the load of the
    ring word to the silence store: the word is read at
    [bufferStart + i], its low byte goes to the pad of the first table
    and its high byte to the pad of the second, and the silence word is
    stored at [indexAddress + i]. *)
Lemma loop_iteration (t1 t2 : Z) (ram : memory) (d : dacs)
    (i x1 x2 x3 e : Z) (te : bool) :
  installed t1 t2 ram -> 0 <= i < totalSampleWords ->
  let word := low_bits 16 (ram (bufferStart + i)) in
  ulp_steps 16 (mk_machine ram (mk_ulp 4 i x1 x2 x3 Running e te) d)
  = mk_machine
      (store (indexAddress + i) (st_word 15 R0 0x8080) ram)
      (mk_ulp 16 i 0x8080 (dacTableStart2 + word / 256 * 2) x3 Running e te)
      (pad_write t2 (word / 256) (pad_write t1 (word mod 256) d)).
Proof.
  intros [[dt [dt2 Hprog]] [Htab [Ht1 Ht2]]] Hi word.
  assert (Hword : 0 <= word < 65536)
    by (unfold word, low_bits; apply Z.mod_pos_bound; lia).
  assert (Hlo : 0 <= word mod 256 < 256) by (apply Z.mod_pos_bound; lia).
  assert (Hhi : 0 <= word / 256 < 256)
    by (split; [apply Z.div_pos; lia | apply Z.div_lt_upper_bound; lia]).
  destruct (Htab _ Hlo) as [Hw1 [Hb1 _]].
  destruct (Htab _ Hhi) as [_ [_ [Hw2 Hb2]]].
  (* 4: load *)
  run 4%nat (I_LD R1 R0 bufferStart). rewrite exec_LD. norm.
  change (bufferStart mod 2 ^ 11) with bufferStart.
  replace (i + bufferStart <? RTC_SLOW_MEM_WORDS) with true
    by (symmetry; apply Z.ltb_lt; consts; lia).
  rewrite (Z.add_comm i bufferStart). fold word.
  (* 5..8: low byte to the first table *)
  run 5%nat (I_ANDI R2 R1 0x00ff). rewrite exec_ANDI. norm.
  change (0x00ff mod 2 ^ 16) with 0xff. rewrite land_ff.
  run 6%nat (I_LSHI R2 R2 1). rewrite exec_LSHI. norm.
  change (1 mod 2 ^ 16) with 1.
  rewrite Z.shiftl_mul_pow2 by lia. rewrite uint16_small by lia.
  run 7%nat (I_ADDI R2 R2 dacTableStart1). rewrite exec_ADDI. norm.
  change (dacTableStart1 mod 2 ^ 16) with dacTableStart1.
  rewrite uint16_small by (consts; lia).
  replace (word mod 256 * 2 ^ 1 + dacTableStart1)
    with (dacTableStart1 + word mod 256 * 2) by lia.
  run 8%nat (I_BXR R2). rewrite exec_BXR. norm.
  run_table (I_WR_REG t1 19 26 (word mod 256)) Hw1.
  rewrite exec_WR_DAC by assumption. norm.
  rewrite (Z.mod_small (word mod 256)) by lia.
  run_table (I_BXI 9) Hb1.
  rewrite exec_BXI. norm. change (9 mod 2 ^ 11) with 9.
  (* 9..13: high byte to the second table *)
  run 9%nat (I_DELAY dt2). rewrite exec_DELAY. norm.
  run 10%nat (I_ANDI R2 R1 0xff00). rewrite exec_ANDI. norm.
  change (0xff00 mod 2 ^ 16) with 0xff00.
  run 11%nat (I_RSHI R2 R2 (8 - 1)). rewrite exec_RSHI. norm.
  change ((8 - 1) mod 2 ^ 16) with 7.
  rewrite high_byte_table_offset by assumption.
  run 12%nat (I_ADDI R2 R2 dacTableStart2). rewrite exec_ADDI. norm.
  change (dacTableStart2 mod 2 ^ 16) with dacTableStart2.
  rewrite uint16_small by (consts; lia).
  replace (2 * (word / 256) + dacTableStart2)
    with (dacTableStart2 + word / 256 * 2) by lia.
  run 13%nat (I_BXR R2). rewrite exec_BXR. norm.
  run_table (I_WR_REG t2 19 26 (word / 256)) Hw2.
  rewrite exec_WR_DAC by assumption. norm.
  rewrite (Z.mod_small (word / 256)) by lia.
  run_table (I_BXI 14) Hb2.
  rewrite exec_BXI. norm. change (14 mod 2 ^ 11) with 14.
  (* 14, 15: the silence store *)
  run 14%nat (I_MOVI R1 0x8080). rewrite exec_MOVI. norm.
  change (0x8080 mod 2 ^ 16) with 0x8080.
  run 15%nat (I_ST R1 R0 indexAddress). rewrite exec_ST. norm.
  change (indexAddress mod 2 ^ 11) with indexAddress.
  replace (i + indexAddress <? RTC_SLOW_MEM_WORDS) with true
    by (symmetry; apply Z.ltb_lt; consts; lia).
  rewrite (Z.add_comm i indexAddress).
  reflexivity.
Qed.

(** *** The halt program of [end] *)

Lemma halted_stays (n : nat) (m : machine) :
  status (cop m) = Halted -> timer_en (cop m) = false ->
  ulp_steps n m = m.
Proof.
  intros Hs Ht. induction n as [| n IH]; [reflexivity |].
  rewrite ulp_steps_S.
  replace (ulp_step m) with m; [exact IH |].
  unfold ulp_step. rewrite Hs, Ht. reflexivity.
Qed.

Lemma on_active_dacs_voltage (active v : Z) (m : machine) :
  let m' := on_active_dacs active (fun ch => dac_output_voltage ch v) m in
  dac1_code (dac m')
  = (if Z.land active 1 =? 0 then dac1_code (dac m) else v mod 256) /\
  dac2_code (dac m')
  = (if Z.land active 2 =? 0 then dac2_code (dac m) else v mod 256) /\
  dac1_enabled (dac m') = dac1_enabled (dac m) /\
  dac2_enabled (dac m') = dac2_enabled (dac m).
Proof.
  unfold on_active_dacs.
  destruct (Z.land active 1 =? 0), (Z.land active 2 =? 0);
    repeat split; reflexivity.
Qed.

(** After [end] the coprocessor executes the two instructions of the
    halt program and stops for good; it stores nothing and writes to no
    pad. *)
Lemma end_halts (w : world) (n : nat) :
  let m := ulp_steps n (hw (end_ w)) in
  mem m = mem (hw (end_ w)) /\ dac m = dac (hw (end_ w)) /\
  ((2 <= n)%nat -> status (cop m) = Halted /\ timer_en (cop m) = false).
Proof.
  unfold end_. cbn [hw set_hw].
  set (m0 := ulp_run 0 (ulp_process_macros_and_load 0 stopulp (hw w))).
  set (m1 := on_active_dacs (activeDACs (this w))
               (fun ch => dac_output_voltage ch 128) m0).
  assert (Hmem : mem m1 = mem m0)
    by (apply on_active_dacs_mem; intros [] ?; reflexivity).
  assert (Hcop : cop m1 = cop m0)
    by (apply on_active_dacs_cop; intros [] ?; reflexivity).
  assert (Hstep1 : ulp_step m1
                   = advance (mk_machine (mem m1) (set_timer_en false (cop m1))
                                         (dac m1))).
  { rewrite (step_fetch m1 I_END); [apply exec_END | | | ];
      rewrite ?Hcop, ?Hmem; try reflexivity.
    change (pc (cop m0)) with 0. consts. lia. }
  set (m2 := advance (mk_machine (mem m1) (set_timer_en false (cop m1)) (dac m1)))
    in *.
  assert (Hstep2 : ulp_step m2
                   = mk_machine (mem m2) (set_status Halted (cop m2)) (dac m2)).
  { rewrite (step_fetch m2 I_HALT); [apply exec_HALT | | | ];
      subst m2; cbn [advance mem cop dac next set_pc set_timer_en pc status];
      rewrite ?Hcop, ?Hmem; try reflexivity.
    change (pc (cop m0)) with 0. consts. lia. }
  destruct n as [| [| n]]; cbv zeta.
  - cbn [ulp_steps]. repeat split; lia.
  - cbn [ulp_steps]. rewrite Hstep1. repeat split; lia.
  - rewrite !ulp_steps_S, Hstep1, Hstep2.
    rewrite halted_stays by reflexivity.
    repeat split; reflexivity.
Qed.

End IterationFacts.

(** ** [begin] returns *)

Module StartFacts.
Import Bits ULP Platform Driver Invariants Scenario.
Import BitsFacts ULPFacts PlatformFacts LoopFacts SetupFacts IterationFacts.

Lemma setup_start_returns (w : world) :
  uint32 (rtc_8md256_period w) <> 0 -> uint32 (hertz (this w)) <> 0 ->
  exists w1, setup_start w = Ret w1.
Proof.
  intros Hp Hh. unfold setup_start. cbv zeta.
  destruct (Z.eqb_spec (uint32 (rtc_8md256_period w)) 0); [contradiction |].
  assert (E : hertz (if negb (stereoOutput (this w))
                     then set_waitingOddSample false (this w) else this w)
              = hertz (this w))
    by (destruct (stereoOutput (this w)); reflexivity).
  rewrite E.
  destruct (Z.eqb_spec (uint32 (hertz (this w))) 0); [contradiction |].
  eexists. reflexivity.
Qed.

(** Four instructions after [ulp_run(0)] the index has been published,
    and the index cell is never zero again. *)
Lemma first_publish (t1 t2 : Z) (m : machine) (k : nat) :
  installed t1 t2 (mem m) -> status (cop m) = Running -> pc (cop m) = 0 ->
  (4 <= k)%nat ->
  mem (ulp_steps k m) indexAddress <> 0.
Proof.
  intros Hinst Hrun Hpc Hk.
  replace k with (4 + (k - 4))%nat by lia. rewrite ulp_steps_add.
  assert (Hloop : looping m) by (split; [assumption | apply at_entry; assumption]).
  destruct (loop_steps t1 t2 4 m Hinst Hloop) as [Hi4 [Hl4 _]].
  destruct (loop_steps t1 t2 (k - 4) _ Hi4 Hl4) as [_ [_ [_ [Hnz _]]]].
  apply Hnz. clear Hnz Hi4 Hl4 Hloop.
  destruct Hinst as [[dt [dt2 Hprog]] _].
  destruct m as [ram [p x0 x1 x2 x3 st e te] d].
  cbn [mem cop pc status] in *. subst p st.
  run 0%nat (I_MOVI R3 0). rewrite exec_MOVI. norm.
  run 1%nat (I_DELAY dt). rewrite exec_DELAY. norm.
  run 2%nat (I_MOVI R0 0). rewrite exec_MOVI. norm.
  run 3%nat (I_ST R0 R3 indexAddress). rewrite exec_ST. norm.
  change (0 mod 2 ^ 16 + indexAddress mod 2 ^ 11 <? RTC_SLOW_MEM_WORDS) with true.
  cbn [ulp_steps mem].
  change (0 mod 2 ^ 16 + indexAddress mod 2 ^ 11) with indexAddress.
  rewrite store_eq. apply st_word_nonzero. lia.
Qed.

Section Timing.
Variable ulp_ticks : Z -> nat.
Hypothesis ulp_advances : (1 <= ulp_ticks 1)%nat.

(** The waiting loop of [setup] ends once the coprocessor has retired
    four instructions. *)
Lemma wait_index_total (t1 t2 : Z) (m : machine) (fuel : nat) :
  installed t1 t2 (mem m) -> status (cop m) = Running -> pc (cop m) = 0 ->
  forall k w,
    hw w = ulp_steps k m -> (4 <= k + fuel)%nat ->
    exists w', wait_index ulp_ticks fuel w = Ret w'.
Proof.
  intros Hinst Hrun Hpc.
  induction fuel as [| fuel IH]; intros k w Hw Hk; cbn [wait_index];
    destruct (Z.eqb_spec (RTC_SLOW_MEM w indexAddress) 0) as [E | E];
    try (eexists; reflexivity).
  - exfalso. unfold RTC_SLOW_MEM in E. rewrite Hw in E.
    apply (first_publish t1 t2 m k Hinst Hrun Hpc); [lia | exact E].
  - apply (IH (k + ulp_ticks 1)%nat); [ | lia].
    unfold delay. cbn [hw set_hw]. rewrite Hw, ulp_steps_add. reflexivity.
Qed.

(** [begin] with a 16-bit sample width returns true once the
    coprocessor runs, given a successful clock calibration and a
    non-zero sample rate. *)
Lemma begin_returns (fuel : nat) (info : AudioInfo) (w : world) :
  bits_per_sample info = 16 ->
  uint32 (rtc_8md256_period w) <> 0 ->
  uint32 (to_int32 (sample_rate info)) <> 0 ->
  (4 <= fuel)%nat ->
  exists w', begin ulp_ticks fuel info w = Ret (true, w').
Proof.
  intros Hbits Hp Hr Hfuel. unfold begin. cbv zeta.
  rewrite Hbits. cbn [Z.eqb Pos.eqb negb]. unfold setup.
  set (w0 := set_this (begin_config info (this w)) w).
  destruct (setup_start_returns w0 Hp Hr) as [w1 Hstart].
  rewrite Hstart.
  destruct (setup_start_ok _ _ Hstart)
    as [_ [_ [_ [[dt [dt2 Hmem]] [Hcop _]]]]].
  pose proof (begin_config_active info (this w)) as Hact.
  assert (Hinst : installed (table_reg (activeDACs (this w0)))
                    (table_reg (activeDACs (this w0))) (mem (hw w1))).
  { unfold RTC_SLOW_MEM in Hmem. rewrite Hmem.
    apply setup_image_installed. exact Hact. }
  destruct (wait_index_total _ _ (hw w1) fuel Hinst
              ltac:(rewrite Hcop; reflexivity) ltac:(rewrite Hcop; reflexivity)
              0%nat w1 eq_refl ltac:(lia)) as [w2 Hwait].
  rewrite Hwait. exists w2. reflexivity.
Qed.

End Timing.

End StartFacts.

(* ====================================================================== *)
(** * The claims *)

Import Bits ULP Platform Driver Invariants Scenario.
Import BitsFacts ULPFacts PlatformFacts LoopFacts SetupFacts HostFacts
  MonoFacts IterationFacts StartFacts.

(** The concrete sessions are what [begin] returns on the fresh driver. *)
Lemma stereo_session_begins :
  begin four_per_ms 4 defaultConfig fresh_world = Ret (true, stereo_session).
Proof. vm_compute. reflexivity. Qed.

Lemma mono_session_begins :
  begin four_per_ms 4 mono_config fresh_world = Ret (true, mono_session).
Proof. vm_compute. reflexivity. Qed.

(* ---------------------------------------------------------------------- *)
(** *** C1 *)

(** C1, as stated, fails: right after a successful stereo [begin] the write
    cursor and the observed read index are both 0, so the claimed value is
    1003 slots times 4 bytes, 4012, while [availableForWrite] returns 1003. *)
Lemma availableForWrite_is_not_slots_times_frame :
  availableForWrite (this stereo_session) = 1003 /\
  spec_availableForWrite stereo_session = 4012 /\
  availableForWrite (this stereo_session) <> spec_availableForWrite stereo_session.
Proof. vm_compute. repeat split; discriminate. Qed.

(** C1, amended: with the write cursor in the ring, [availableForWrite]
    returns the number of words from the write cursor to the end of the ring
    buffer, [totalSampleWords - lastFilledWord], when that number is at least
    the minimum-write threshold, and 0 otherwise.  It depends neither on the
    read index nor on the frame size. *)
Theorem availableForWrite_words_to_ring_end (o : AudioESP32ULP) :
  cursor_ok o ->
  availableForWrite o
  = (if totalSampleWords - lastFilledWord o <? min_write_bytes o
     then 0 else totalSampleWords - lastFilledWord o)
  /\ (availableForWrite o = 0 \/ 1 <= availableForWrite o <= totalSampleWords)
  /\ (forall o', lastFilledWord o' = lastFilledWord o ->
                 min_write_bytes o' = min_write_bytes o ->
                 availableForWrite o' = availableForWrite o).
Proof.
  intros Hc. unfold availableForWrite.
  unfold cursor_ok in Hc.
  rewrite to_int32_small by (consts; lia).
  split; [reflexivity | split].
  - destruct (totalSampleWords - lastFilledWord o <? min_write_bytes o);
      [left; reflexivity | right; consts; lia].
  - intros o' Hl Hm. rewrite Hl, Hm. rewrite to_int32_small by (consts; lia).
    reflexivity.
Qed.

Lemma availableForWrite_words_to_ring_end_witness :
  cursor_ok (this stereo_session) /\
  availableForWrite (this stereo_session) = 1003.
Proof.
  assert (H : cursor_ok (this stereo_session)) by (vm_compute; split; [discriminate | reflexivity]).
  split; [exact H |].
  rewrite (proj1 (availableForWrite_words_to_ring_end (this stereo_session) H)).
  reflexivity.
Defined.

(* ---------------------------------------------------------------------- *)
(** *** C2 *)

Lemma decode_dac_write (r code : Z) :
  is_dac_reg r -> 0 <= code < 256 ->
  decode (create_I_WR_REG r 19 26 code) = Some (I_WR_REG r 19 26 code).
Proof.
  intros Hr Hc. unfold create_I_WR_REG. rewrite decode_ulp_bin.
  destruct Hr as [-> | ->]; unfold I_WR_REG; cbn [truncate];
    rewrite (Z.mod_small code) by lia; reflexivity.
Qed.

(** The pad register both tables of [setup] write to after [begin]. *)
Lemma begin_table_reg (info : AudioInfo) (o : AudioESP32ULP) :
  table_reg (activeDACs (begin_config info o))
  = if channels info =? 2 then RTC_IO_PAD_DAC1_REG
    else mono_reg (selected_mono_dac o).
Proof.
  unfold begin_config. cbn [activeDACs].
  destruct (channels info =? 2); [reflexivity |].
  destruct (selected_mono_dac o); reflexivity.
Qed.

(** C2 (code defect): after a successful [begin], every entry of both
    dispatch tables is a write to one and the same pad register: the
    selected one in mono, and DAC1 in stereo (active-output mask 3).  In
    stereo the table reached from the high byte therefore does not target
    the second output, whose code stays at the idle value 128 however long
    the coprocessor runs. *)
Theorem dispatch_tables_share_one_register
    (ulp_ticks : Z -> nat) (fuel : nat) (info : AudioInfo) (w w' : world) :
  begin ulp_ticks fuel info w = Ret (true, w') ->
  let r := if channels info =? 2 then RTC_IO_PAD_DAC1_REG
           else mono_reg (selected_mono_dac (this w)) in
  (forall code, 0 <= code < 256 ->
     decode (RTC_SLOW_MEM w' (dacTableStart1 + code * 2))
     = Some (I_WR_REG r 19 26 code) /\
     decode (RTC_SLOW_MEM w' (dacTableStart2 + code * 2))
     = Some (I_WR_REG r 19 26 code)) /\
  (channels info = 2 ->
   forall n, dac2_code (dac (ulp_steps n (hw w'))) = 128).
Proof.
  intros Hbegin.
  destruct (begin_true _ _ _ _ _ Hbegin) as [_ [_ [_ [Hinst [Hloop Hdac]]]]].
  cbv zeta in *. rewrite begin_table_reg in *.
  set (r := if channels info =? 2 then RTC_IO_PAD_DAC1_REG
            else mono_reg (selected_mono_dac (this w))) in *.
  split.
  - intros code Hc.
    destruct Hinst as [_ [Htab [Hr _]]].
    destruct (Htab code Hc) as [E1 [_ [E2 _]]].
    rewrite E1, E2. split; apply decode_dac_write; assumption.
  - intros Hch n.
    destruct (loop_steps _ _ n _ Hinst Hloop) as [_ [_ [_ [_ Hd]]]].
    assert (Hr : r = RTC_IO_PAD_DAC1_REG) by (subst r; rewrite Hch; reflexivity).
    destruct Hd as [_ [_ [Hd2 _]]]. destruct Hdac as [_ [_ [Hd2' _]]].
    rewrite (Hd2 Hr Hr), (Hd2' Hr Hr).
    unfold begin_config. cbn [activeDACs]. rewrite Hch. reflexivity.
Qed.

Lemma dispatch_tables_share_one_register_witness :
  decode (RTC_SLOW_MEM stereo_session (dacTableStart2 + 255 * 2))
  = Some (I_WR_REG RTC_IO_PAD_DAC1_REG 19 26 255) /\
  dac2_code (dac (ulp_steps 1000 (hw stereo_session))) = 128.
Proof.
  pose proof (dispatch_tables_share_one_register four_per_ms 4 defaultConfig
                fresh_world stereo_session stereo_session_begins) as [Ht Hd].
  split.
  - exact (proj2 (Ht 255 ltac:(lia))).
  - exact (Hd eq_refl 1000%nat).
Defined.

(* ---------------------------------------------------------------------- *)
(** *** C3 *)

(** C3 (code defect): in one pass of the control program over slot [i], the
    ring word is loaded from [bufferStart + i], but the silence word 0x8080
    is stored at [indexAddress + i], one word lower: the slot just consumed
    keeps its content, and for [i = 0] the store lands on the read-index
    cell. *)
Theorem silence_store_one_word_low
    (t1 t2 : Z) (ram : memory) (d : dacs) (i x1 x2 x3 e : Z) (te : bool) :
  installed t1 t2 ram -> 0 <= i < totalSampleWords ->
  let m := mk_machine ram (mk_ulp 4 i x1 x2 x3 Running e te) d in
  r1 (cop (ulp_step m)) = low_bits 16 (ram (bufferStart + i)) /\
  pc (cop (ulp_steps 16 m)) = 16 /\
  low_bits 16 (mem (ulp_steps 16 m) (indexAddress + i)) = 0x8080 /\
  (forall a, a <> indexAddress + i -> mem (ulp_steps 16 m) a = ram a) /\
  indexAddress + i = bufferStart + i - 1 /\
  mem (ulp_steps 16 m) (bufferStart + i) = ram (bufferStart + i).
Proof.
  intros Hinst Hi m.
  assert (Hload : r1 (cop (ulp_step m)) = low_bits 16 (ram (bufferStart + i))).
  { destruct Hinst as [[dt [dt2 Hprog]] _]. subst m.
    rewrite (step_fetch _ (I_LD R1 R0 bufferStart));
      [ | reflexivity | cbn [cop pc]; consts; lia
        | exact (program_fetch _ _ 4%nat _ Hprog eq_refl) ].
    rewrite exec_LD. norm.
    change (bufferStart mod 2 ^ 11) with bufferStart.
    replace (i + bufferStart <? RTC_SLOW_MEM_WORDS) with true
      by (symmetry; apply Z.ltb_lt; consts; lia).
    cbn [cop r1]. rewrite (Z.add_comm i bufferStart). reflexivity. }
  subst m. rewrite (loop_iteration t1 t2 ram d i x1 x2 x3 e te Hinst Hi) in *.
  cbn [mem cop pc].
  split; [exact Hload | split; [reflexivity | split; [ | split; [ | split]]]].
  - rewrite store_eq. reflexivity.
  - intros a Ha. apply store_neq. exact Ha.
  - consts. lia.
  - apply store_neq. consts. lia.
Qed.

Lemma silence_store_one_word_low_witness :
  installed RTC_IO_PAD_DAC1_REG RTC_IO_PAD_DAC1_REG (RTC_SLOW_MEM stereo_session) /\
  hw stereo_session
  = mk_machine (RTC_SLOW_MEM stereo_session) (mk_ulp 4 0 0 0 0 Running 0 true)
               (dac (hw stereo_session)) /\
  low_bits 16 (mem (ulp_steps 16 (hw stereo_session)) indexAddress) = 0x8080 /\
  mem (ulp_steps 16 (hw stereo_session)) bufferStart
  = RTC_SLOW_MEM stereo_session bufferStart.
Proof.
  assert (Hinst : installed RTC_IO_PAD_DAC1_REG RTC_IO_PAD_DAC1_REG
                    (RTC_SLOW_MEM stereo_session)).
  { exact (proj1 (proj2 (proj2 (proj2
             (begin_true _ _ _ _ _ stereo_session_begins))))). }
  assert (Hhw : hw stereo_session
                = mk_machine (RTC_SLOW_MEM stereo_session)
                    (mk_ulp 4 0 0 0 0 Running 0 true) (dac (hw stereo_session)))
    by (vm_compute; reflexivity).
  split; [exact Hinst | split; [exact Hhw |]].
  rewrite Hhw.
  pose proof (silence_store_one_word_low _ _ (RTC_SLOW_MEM stereo_session)
                (dac (hw stereo_session)) 0 0 0 0 0 true Hinst
                ltac:(consts; lia)) as [_ [_ [Hs [_ [_ Hk]]]]].
  split; [exact Hs | exact Hk].
Defined.

(* ---------------------------------------------------------------------- *)
(** *** C4 *)

(** C4, as stated, fails: the number of frames accepted depends on where
    the write cursor and the read index lie.  Right after [begin], with both
    at 0, no frame is accepted.  With the write cursor at 0 and the
    read-index cell stuck at 10 (observed word index 5), five frames are
    accepted, not 1002, and the write cursor has then advanced to equal the
    observed index. *)
Lemma ring_accepts_distance_not_capacity :
  (lastFilledWord (this stereo_session) = 0 /\
   Z.land (RTC_SLOW_MEM stereo_session indexAddress) 0xffff = 0 /\
   fst (push_until_rejected (repeat (0, 0) 1003) stereo_session) = 0%nat) /\
  (lastFilledWord (this stereo_after_10) = 0 /\
   Z.land (RTC_SLOW_MEM stereo_after_10 indexAddress) 0xffff = 10 /\
   fst (push_until_rejected (repeat (0, 0) 1003) stereo_after_10) = 5%nat /\
   lastFilledWord (this (snd (push_until_rejected (repeat (0, 0) 1003)
                                                  stereo_after_10)))
   = currentWord stereo_after_10) /\
  Z.of_nat (fst (push_until_rejected (repeat (0, 0) 1003) stereo_session))
  <> totalSampleWords - 1 /\
  Z.of_nat (fst (push_until_rejected (repeat (0, 0) 1003) stereo_after_10))
  <> totalSampleWords - 1.
Proof. vm_compute. repeat split; discriminate. Qed.

(** C4, amended: in a stereo session, while the read-index cell does not
    change, a frame is rejected exactly when the write cursor equals the
    word index the host derives from the cell ([currentWord]), and a
    rejected frame changes nothing.  With the cursor at [c] and the observed index at
    [r], exactly [(r - c) mod C] consecutive frames are accepted and the next
    one is rejected; the cursor has then advanced up to the observed index,
    never past it.  That count is at most [C - 1], and it is [C - 1] exactly
    when the cursor starts one past the observed index. *)
Theorem ring_accepts_up_to_observed_index (w : world) (frames : list (Z * Z)) :
  stereoOutput (this w) = true -> waitingOddSample (this w) = true ->
  cursor_ok (this w) -> 0 <= currentWord w < totalSampleWords ->
  let d := (currentWord w - lastFilledWord (this w)) mod totalSampleWords in
  d < Z.of_nat (length frames) ->
  let r := push_until_rejected frames w in
  Z.of_nat (fst r) = d /\
  d <= totalSampleWords - 1 /\
  length (ring_log (snd r)) = (length (ring_log w) + fst r)%nat /\
  lastFilledWord (this (snd r)) = currentWord w /\
  RTC_SLOW_MEM (snd r) indexAddress = RTC_SLOW_MEM w indexAddress /\
  (forall s, writeFrame s (snd r) = (false, snd r)) /\
  (d = totalSampleWords - 1 <->
   lastFilledWord (this w) = (currentWord w + 1) mod totalSampleWords).
Proof.
  intros Hst Hwait Hc Hcw d Hlen r.
  destruct (push_stereo frames w Hst Hwait Hc Hcw)
    as [Hn [Hl [Hs' [Hw' [Hidx Hlog]]]]].
  fold d in Hn. fold r in Hn, Hl, Hs', Hw', Hidx, Hlog.
  assert (Hd : 0 <= d < totalSampleWords)
    by (apply Z.mod_pos_bound; consts; lia).
  assert (Hnd : Z.of_nat (fst r) = d) by lia.
  assert (Hcur : lastFilledWord (this (snd r)) = currentWord w).
  { rewrite Hl, Hnd. unfold d.
    rewrite Zplus_mod_idemp_r.
    replace (lastFilledWord (this w) + (currentWord w - lastFilledWord (this w)))
      with (currentWord w) by lia.
    apply Z.mod_small. assumption. }
  split; [assumption | split; [lia | split; [assumption | split; [assumption |]]]].
  split; [assumption | split].
  - intros s. apply writeFrame_reject; [assumption |].
    rewrite Hcur. unfold currentWord. rewrite Hidx. reflexivity.
  - unfold d. rewrite (ring_distance _ _ _ Hc Hcw).
    unfold cursor_ok in Hc.
    destruct (Z.leb_spec (lastFilledWord (this w)) (currentWord w)) as [Hle | Hgt].
    + split; intros Heq.
      * assert (lastFilledWord (this w) = 0 /\ currentWord w = totalSampleWords - 1)
          as [-> ->] by lia.
        replace (totalSampleWords - 1 + 1) with (1 * totalSampleWords) by lia.
        rewrite Z.mod_mul by (consts; lia). reflexivity.
      * destruct (Z.eq_dec (currentWord w + 1) totalSampleWords) as [E | E].
        -- rewrite E, Z.mod_same in Heq by (consts; lia). lia.
        -- rewrite Z.mod_small in Heq by lia. lia.
    + split; intros Heq.
      * rewrite Z.mod_small by lia. lia.
      * destruct (Z.eq_dec (currentWord w + 1) totalSampleWords) as [E | E].
        -- rewrite E, Z.mod_same in Heq by (consts; lia). lia.
        -- rewrite Z.mod_small in Heq by lia. lia.
Qed.

Lemma ring_accepts_up_to_observed_index_witness :
  fst (push_until_rejected (repeat (0, 0) 1003) stereo_after_10) = 5%nat /\
  forall s,
    writeFrame s (snd (push_until_rejected (repeat (0, 0) 1003) stereo_after_10))
    = (false, snd (push_until_rejected (repeat (0, 0) 1003) stereo_after_10)).
Proof.
  pose proof (ring_accepts_up_to_observed_index stereo_after_10
                (repeat (0, 0) 1003)
                ltac:(vm_compute; reflexivity) ltac:(vm_compute; reflexivity)
                ltac:(vm_compute; split; [discriminate | reflexivity])
                ltac:(vm_compute; split; [discriminate | reflexivity])
                ltac:(vm_compute; reflexivity))
    as [Hn [_ [_ [_ [_ [Hrej _]]]]]].
  split; [ | exact Hrej].
  apply Nat2Z.inj. rewrite Hn. vm_compute. reflexivity.
Defined.

(* ---------------------------------------------------------------------- *)
(** *** C5 *)

(** C5 (code defect): when a stereo [begin] follows a mono session
    ([begin] in mono, then [end]), the awaiting-pairing flag is still false,
    so the first stereo frame is put into the odd-sample stage instead of the
    ring: no ring word is stored, the write cursor and the shared memory do
    not change, and the staging cell and flag are modified. *)
Theorem stereo_after_mono_stages_first_frame
    (ulp_ticks : Z -> nat) (fuel1 fuel2 : nat) (info1 info2 : AudioInfo)
    (w w1 w2 : world) (s : Z * Z) :
  channels info1 <> 2 -> channels info2 = 2 ->
  begin ulp_ticks fuel1 info1 w = Ret (true, w1) ->
  begin ulp_ticks fuel2 info2 (end_ w1) = Ret (true, w2) ->
  stereoOutput (this w2) = true /\
  waitingOddSample (this w2) = false /\
  exists w3,
    writeFrame s w2 = (true, w3) /\
    ring_log w3 = ring_log w2 /\
    hw w3 = hw w2 /\
    lastFilledWord (this w3) = lastFilledWord (this w2) /\
    waitingOddSample (this w3) = true /\
    bufferedOddSample (this w3) = sample_code (fst s).
Proof.
  intros Hm Hs H1 H2.
  destruct (begin_true _ _ _ _ _ H1) as [_ [Ht1 _]].
  destruct (begin_true _ _ _ _ _ H2) as [_ [Ht2 _]].
  cbv zeta in *.
  assert (Hst1 : stereoOutput (begin_config info1 (this w)) = false).
  { unfold begin_config. cbn [stereoOutput].
    destruct (Z.eqb_spec (channels info1) 2); [contradiction | reflexivity]. }
  rewrite Hst1 in Ht1. cbn [negb] in Ht1.
  assert (Hst2 : stereoOutput (begin_config info2 (this (end_ w1))) = true).
  { unfold begin_config. cbn [stereoOutput]. rewrite Hs. reflexivity. }
  rewrite Hst2 in Ht2. cbn [negb] in Ht2.
  assert (Hw2 : waitingOddSample (this w2) = false).
  { rewrite Ht2. unfold begin_config, end_. cbn [waitingOddSample this set_hw].
    rewrite Ht1. reflexivity. }
  assert (Hs2 : stereoOutput (this w2) = true) by (rewrite Ht2; exact Hst2).
  split; [exact Hs2 | split; [exact Hw2 |]].
  eexists. split; [apply writeFrame_stage; exact Hw2 |].
  rewrite Hs2. cbn [negb].
  cbn [ring_log hw this set_this lastFilledWord waitingOddSample
       bufferedOddSample].
  repeat split.
  pose proof (sample_code_range (fst s)). apply Z.mod_small. lia.
Qed.

Lemma stereo_after_mono_stages_first_frame_witness :
  exists w2 w3,
    begin four_per_ms 4 defaultConfig (end_ mono_session) = Ret (true, w2) /\
    writeFrame (32767, -32768) w2 = (true, w3) /\
    ring_log w3 = [] /\ bufferedOddSample (this w3) = 255.
Proof.
  destruct (begin_returns four_per_ms ltac:(vm_compute; repeat constructor) 4
              defaultConfig (end_ mono_session) eq_refl
              ltac:(vm_compute; discriminate) ltac:(vm_compute; discriminate)
              (le_n 4)) as [w2 H2].
  destruct (stereo_after_mono_stages_first_frame four_per_ms 4 4 mono_config
              defaultConfig fresh_world mono_session w2 (32767, -32768)
              ltac:(vm_compute; discriminate) eq_refl mono_session_begins H2)
    as [_ [_ [w3 [Hw [Hlog [_ [_ [_ Hb]]]]]]]].
  exists w2, w3. split; [exact H2 | split; [exact Hw | split]].
  - rewrite Hlog.
    destruct (begin_true _ _ _ _ _ H2) as [_ [_ [Hl _]]]. rewrite Hl.
    reflexivity.
  - rewrite Hb. reflexivity.
Defined.

(* ---------------------------------------------------------------------- *)
(** *** C6 *)

(** C6, as stated, fails: after a mono session on the first output (the
    default), [end] leaves the second output at its power-on code 0, not at
    the mid-scale code 128. *)
Lemma end_leaves_inactive_output :
  dac1_code (dac (hw (end_ mono_session))) = 128 /\
  dac2_code (dac (hw (end_ mono_session))) = 0 /\
  dac2_code (dac (hw (end_ mono_session))) <> 128.
Proof. vm_compute. repeat split; discriminate. Qed.

Import Session.

Module TeardownFacts.

(** The host's calls and the coprocessor leave the active-output mask
    alone: only [begin] assigns it. *)
Lemma session_step_active (w w' : world) :
  session_step w w' -> activeDACs (this w') = activeDACs (this w).
Proof.
  intros [s w0 | bytes w0 | d w0 | n w0]; try reflexivity.
  unfold writeFrame. cbv zeta.
  destruct (waitingOddSample (this w0));
    [destruct (negb (lastFilledWord (this w0)
                     =? Z.shiftr (Z.land (RTC_SLOW_MEM w0 indexAddress) 0xffff) 1))
    |]; reflexivity.
Qed.

Lemma session_run_active (w w' : world) :
  session_run w w' -> activeDACs (this w') = activeDACs (this w).
Proof.
  intros Hrun. induction Hrun as [w | w1 w2 w3 _ IH Hstep]; [reflexivity |].
  rewrite (session_step_active _ _ Hstep). exact IH.
Qed.

End TeardownFacts.
Import TeardownFacts.

(** C6, amended: at any point of a session that a successful [begin] has
    started (after any interleaving of frames pushed by the host, setting
    changes and coprocessor instructions, whatever the outputs hold by
    then), [end] puts every active output at the mid-scale code 128 (both
    outputs in stereo, the selected one in mono) and leaves an inactive
    output at the code it had; the coprocessor executes the two instructions
    of the halt program and stays halted, and from [end] on it stores
    nothing to shared memory (the read-index cell keeps the value it had
    when [end] was called) and writes to no output. *)
Theorem end_resets_active_outputs_and_halts
    (ulp_ticks : Z -> nat) (fuel : nat) (info : AudioInfo) (w w1 w2 : world) :
  begin ulp_ticks fuel info w = Ret (true, w1) ->
  session_run w1 w2 ->
  (channels info = 2 ->
   dac1_code (dac (hw (end_ w2))) = 128 /\ dac2_code (dac (hw (end_ w2))) = 128) /\
  (channels info <> 2 -> selected_mono_dac (this w) = ULP_DAC1 ->
   dac1_code (dac (hw (end_ w2))) = 128 /\
   dac2_code (dac (hw (end_ w2))) = dac2_code (dac (hw w2))) /\
  (channels info <> 2 -> selected_mono_dac (this w) = ULP_DAC2 ->
   dac2_code (dac (hw (end_ w2))) = 128 /\
   dac1_code (dac (hw (end_ w2))) = dac1_code (dac (hw w2))) /\
  RTC_SLOW_MEM (end_ w2) indexAddress = RTC_SLOW_MEM w2 indexAddress /\
  (forall n,
     (forall a, mem (ulp_steps n (hw (end_ w2))) a = mem (hw (end_ w2)) a) /\
     dac (ulp_steps n (hw (end_ w2))) = dac (hw (end_ w2)) /\
     ((2 <= n)%nat -> status (cop (ulp_steps n (hw (end_ w2)))) = Halted)).
Proof.
  intros Hbegin Hrun.
  destruct (begin_true _ _ _ _ _ Hbegin) as [_ [Ht _]].
  cbv zeta in Ht.
  assert (Hact : activeDACs (this w2)
                 = if channels info =? 2 then 3
                   else UlpDac_value (selected_mono_dac (this w))).
  { rewrite (session_run_active _ _ Hrun), Ht.
    destruct (negb (stereoOutput (begin_config info (this w))));
      reflexivity. }
  pose proof (on_active_dacs_voltage (activeDACs (this w2)) 128
                (ulp_run 0 (ulp_process_macros_and_load 0 stopulp (hw w2))))
    as [Hd1 [Hd2 _]].
  cbv zeta in Hd1, Hd2.
  change (dac (ulp_run 0 (ulp_process_macros_and_load 0 stopulp (hw w2))))
    with (dac (hw w2)) in Hd1, Hd2.
  assert (Hidx : RTC_SLOW_MEM (end_ w2) indexAddress
                 = RTC_SLOW_MEM w2 indexAddress).
  { unfold end_, RTC_SLOW_MEM. cbn [hw set_hw].
    rewrite on_active_dacs_mem by (intros [] m0; reflexivity).
    cbn [ulp_run mem ulp_process_macros_and_load stopulp map load_words].
    rewrite !store_neq by (consts; lia). reflexivity. }
  revert Hidx.
  unfold end_. cbn [hw set_hw]. fold (end_ w2). intros Hidx.
  split; [ | split; [ | split; [ | split; [exact Hidx |]]]].
  - intros Hch. rewrite Hd1, Hd2, Hact, Hch. split; reflexivity.
  - intros Hch Hsel. rewrite Hd1, Hd2, Hact, Hsel.
    destruct (Z.eqb_spec (channels info) 2); [contradiction |].
    split; reflexivity.
  - intros Hch Hsel. rewrite Hd1, Hd2, Hact, Hsel.
    destruct (Z.eqb_spec (channels info) 2); [contradiction |].
    split; reflexivity.
  - intros n. destruct (end_halts w2 n) as [Hm [Hd Hs]].
    cbv zeta in *. unfold end_ in Hm, Hd, Hs. cbn [hw set_hw] in Hm, Hd, Hs.
    split; [intros a; rewrite Hm; reflexivity | split; [exact Hd |]].
    intros Hn. apply Hs. exact Hn.
Qed.

Lemma second_session_begins :
  begin four_per_ms 4 defaultConfig (end_ five_pushed)
  = Ret (true, second_session).
Proof.
  destruct (begin_returns four_per_ms ltac:(vm_compute; repeat constructor) 4
              defaultConfig (end_ five_pushed) eq_refl
              ltac:(vm_compute; discriminate) ltac:(vm_compute; discriminate)
              (le_n 4)) as [w' H].
  unfold second_session. rewrite H. reflexivity.
Qed.

Lemma end_resets_active_outputs_and_halts_witness :
  dac1_code (dac (hw loud_frame_played)) = 255 /\
  dac1_code (dac (hw (end_ loud_frame_played))) = 128 /\
  dac2_code (dac (hw (end_ loud_frame_played))) = 128 /\
  status (cop (ulp_steps 5 (hw (end_ loud_frame_played)))) = Halted.
Proof.
  assert (Hrun : session_run second_session loud_frame_played).
  { apply (run_step _ (snd (writeFrame (32767, 32767) second_session)));
      [ | apply (cop_runs (four_per_ms 28))].
    apply (run_step _ second_session); [apply run_done | apply host_writes]. }
  pose proof (end_resets_active_outputs_and_halts four_per_ms 4 defaultConfig
                (end_ five_pushed) second_session loud_frame_played
                second_session_begins Hrun)
    as [Hst [_ [_ [_ Hhalt]]]].
  destruct (Hst eq_refl) as [H1 H2].
  split; [vm_compute; reflexivity |].
  split; [exact H1 | split; [exact H2 |]].
  apply (proj2 (proj2 (Hhalt 5%nat))). repeat constructor.
Defined.

(* ---------------------------------------------------------------------- *)
(** ** Ring words in shared memory *)

Module StoreFacts.

(** The slot [k] places after the cursor, around the ring. *)
Lemma ring_slot (c k n : Z) :
  0 <= c < n -> 0 <= k < n ->
  (c + k) mod n = if c + k <? n then c + k else c + k - n.
Proof.
  intros Hc Hk. destruct (Z.ltb_spec (c + k) n).
  - apply Z.mod_small. lia.
  - symmetry. apply Z.mod_unique with 1; lia.
Qed.

Lemma ring_slot_inj (c a b n : Z) :
  0 <= c < n -> 0 <= a < n -> 0 <= b < n ->
  (c + a) mod n = (c + b) mod n -> a = b.
Proof.
  intros Hc Ha Hb. rewrite !ring_slot by assumption.
  destruct (Z.ltb_spec (c + a) n), (Z.ltb_spec (c + b) n); lia.
Qed.

(** The observed index is [d] places after the cursor when [d] is their
    distance around the ring; nearer slots are free. *)
Lemma ring_slot_free (c cw k n : Z) :
  0 <= c < n -> 0 <= cw < n -> 0 <= k < (cw - c) mod n ->
  (c + k) mod n <> cw.
Proof.
  intros Hc Hcw Hk E.
  pose proof (Z.mod_pos_bound (cw - c) n ltac:(lia)) as Hd.
  assert (Hcw' : (c + (cw - c) mod n) mod n = cw).
  { rewrite Zplus_mod_idemp_r. replace (c + (cw - c)) with cw by lia.
    apply Z.mod_small. assumption. }
  assert (E' : (c + k) mod n = (c + (cw - c) mod n) mod n) by congruence.
  apply ring_slot_inj in E'; lia.
Qed.

Section Timing.
Variable ulp_ticks : Z -> nat.

(** The frame loop over [n1 + n2] frames is the loop over the first [n1]
    followed by the loop over the other [n2]. *)
Lemma write_frames_app (fuel : nat) (data : list Z) (frameSize : Z)
    (n1 n2 : nat) :
  forall j result w,
    write_frames ulp_ticks fuel data frameSize (n1 + n2) j result w
    = match write_frames ulp_ticks fuel data frameSize n1 j result w with
      | Ret (r1, w1) =>
          write_frames ulp_ticks fuel data frameSize n2 (j + Z.of_nat n1) r1 w1
      | Crash => Crash
      | OutOfFuel => OutOfFuel
      end.
Proof.
  induction n1 as [| n1 IH]; intros j result w.
  - cbn [Nat.add write_frames Z.of_nat]. rewrite Z.add_0_r. reflexivity.
  - cbn [Nat.add write_frames].
    destruct (write_blocking ulp_ticks fuel _ w) as [w1 | |]; try reflexivity.
    rewrite IH. rewrite Nat2Z.inj_succ.
    replace (j + 1 + Z.of_nat n1) with (j + Z.succ (Z.of_nat n1)) by lia.
    reflexivity.
Qed.

(** A blocking write of a frame that completes a ring word: when it
    returns, the word is in shared memory in the slot that was under the
    cursor, and the cursor has moved on. *)
Lemma write_blocking_stores (fuel : nat) (s : Z * Z) (w w' : world) :
  waitingOddSample (this w) = true -> cursor_ok (this w) ->
  write_blocking ulp_ticks fuel s w = Ret w' ->
  RTC_SLOW_MEM w' (bufferStart + lastFilledWord (this w))
  = (if stereoOutput (this w)
     then uint32 (Z.lor (sample_code (fst s)) (Z.shiftl (sample_code (snd s)) 8))
     else uint32 (Z.lor (bufferedOddSample (this w))
            (Z.shiftl (to_int16 (mix (sample_code (fst s))
                                     (sample_code (snd s)))) 8))) /\
  lastFilledWord (this w')
  = (lastFilledWord (this w) + 1) mod totalSampleWords /\
  stereoOutput (this w') = stereoOutput (this w) /\
  cfg (this w') = cfg (this w) /\
  waitingOddSample (this w') = stereoOutput (this w).
Proof.
  intros Hw Hc H.
  destruct (write_blocking_ret _ _ _ _ _ H) as [w0 [Ht [_ Hwf]]].
  destruct (Z.eq_dec (lastFilledWord (this w0)) (currentWord w0)) as [E | E].
  - rewrite writeFrame_reject in Hwf by first [exact E | rewrite Ht; exact Hw].
    discriminate.
  - destruct (writeFrame_accepts s w0 ltac:(rewrite Ht; exact Hw) E)
      as [w1 [H1 [Hl [Hs1 [Hc1 [Hw1 [_ [Hm [_ [_ Hlog]]]]]]]]]].
    rewrite H1 in Hwf. injection Hwf as <-.
    rewrite Ht in *.
    split; [rewrite Hm, store_eq, Hlog, last_last; reflexivity |].
    split; [ | auto].
    rewrite Hl. unfold cursor_ok in Hc.
    destruct (Z.eqb_spec (lastFilledWord (this w) + 1) totalSampleWords)
      as [E1 | E1].
    + rewrite E1, Z_mod_same_full. reflexivity.
    + rewrite Z.mod_small by lia. reflexivity.
Qed.

(** The same frame when the cursor is off the observed index: it is
    stored at once, and nothing but that slot changes. *)
Lemma write_blocking_stores_now (fuel : nat) (s : Z * Z) (w : world) :
  waitingOddSample (this w) = true ->
  lastFilledWord (this w) <> currentWord w ->
  exists w',
    write_blocking ulp_ticks fuel s w = Ret w' /\
    (forall a, a <> bufferStart + lastFilledWord (this w) ->
               RTC_SLOW_MEM w' a = RTC_SLOW_MEM w a) /\
    cop (hw w') = cop (hw w) /\ dac (hw w') = dac (hw w).
Proof.
  intros Hw E.
  destruct (writeFrame_accepts s w Hw E)
    as [w1 [H1 [_ [_ [_ [_ [_ [Hm [Hcop [Hdac _]]]]]]]]]].
  exists w1. split; [apply write_blocking_now; exact H1 |].
  split; [ | auto].
  intros a Ha. rewrite Hm. apply store_neq. exact Ha.
Qed.

(** A blocking write of a frame that is only staged returns at once and
    leaves the hardware and the cursor alone. *)
Lemma write_blocking_stages (fuel : nat) (s : Z * Z) (w : world) :
  waitingOddSample (this w) = false ->
  exists w',
    write_blocking ulp_ticks fuel s w = Ret w' /\
    hw w' = hw w /\ ring_log w' = ring_log w /\
    lastFilledWord (this w') = lastFilledWord (this w) /\
    stereoOutput (this w') = stereoOutput (this w) /\
    cfg (this w') = cfg (this w) /\
    waitingOddSample (this w') = true /\
    bufferedOddSample (this w')
    = (if negb (stereoOutput (this w))
       then to_int16 (mix (sample_code (fst s)) (sample_code (snd s)))
       else sample_code (fst s)) mod 256.
Proof.
  intros Hw. eexists.
  split; [apply write_blocking_now, writeFrame_stage; exact Hw |].
  repeat split.
Qed.

(** *** Mono: two frames make one ring word *)

(** The word that a pairing mono frame stores: the staged code in the low
    byte, the code of the frame in the high byte. *)
Lemma mono_pair_word (b s : Z) :
  0 <= b < 256 ->
  uint32 (Z.lor b (Z.shiftl (to_int16 (mix (sample_code s) (sample_code s))) 8))
  = ring_word b (sample_code s).
Proof.
  intros Hb. rewrite mix_same by apply sample_code_range.
  apply lor_bytes; [assumption | apply sample_code_range].
Qed.

(** The frame loop over [2 * M] mono frames, starting with nothing
    staged: whenever it returns, nothing is staged, the cursor is [M] slots
    further, and the last of the [M] words is in shared memory in the slot
    before the cursor. *)
Lemma write_pairs_mono (fuel : nat) (data : list Z) (frameSize : Z) (M : nat) :
  forall j result w r w',
    stereoOutput (this w) = false -> channels (cfg (this w)) = 1 ->
    waitingOddSample (this w) = false -> cursor_ok (this w) ->
    write_frames ulp_ticks fuel data frameSize (2 * M) j result w = Ret (r, w') ->
    stereoOutput (this w') = false /\ channels (cfg (this w')) = 1 /\
    waitingOddSample (this w') = false /\
    lastFilledWord (this w')
    = (lastFilledWord (this w) + Z.of_nat M) mod totalSampleWords /\
    ((1 <= M)%nat ->
     RTC_SLOW_MEM w'
       (bufferStart
        + (lastFilledWord (this w) + (Z.of_nat M - 1)) mod totalSampleWords)
     = ring_word (sample_code (data_16 data (j + 2 * (Z.of_nat M - 1))))
                 (sample_code (data_16 data (j + 2 * (Z.of_nat M - 1) + 1)))).
Proof.
  induction M as [| M IH]; intros j result w r w' Hst Hch Hw Hc H.
  - cbn [Nat.mul write_frames] in H. apply Ret_inj in H. injection H as _ <-.
    rewrite Z.add_0_r, Z.mod_small by exact Hc.
    repeat split; try assumption. lia.
  - replace (2 * S M)%nat with (2 * M + 2)%nat in H by lia.
    rewrite write_frames_app in H.
    destruct (write_frames ulp_ticks fuel data frameSize (2 * M) j result w)
      as [[r1 w1] | |] eqn:H1; try discriminate.
    destruct (IH _ _ _ _ _ Hst Hch Hw Hc H1) as [Hst1 [Hch1 [Hw1 [Hl1 _]]]].
    cbn [write_frames] in H.
    rewrite Hst1, Hch1, Z.mul_1_r in H.
    destruct (write_blocking_stages fuel
                (data_16 data (j + Z.of_nat (2 * M)),
                 data_16 data (j + Z.of_nat (2 * M))) w1 Hw1)
      as [w2 [H2 [Hhw2 [_ [Hl2 [Hst2 [Hcfg2 [Hw2 Hb2]]]]]]]].
    rewrite H2 in H.
    rewrite Hst2, Hst1, Hcfg2, Hch1, Z.mul_1_r in H.
    destruct (write_blocking ulp_ticks fuel _ w2) as [w3 | |] eqn:H3;
      try discriminate.
    apply Ret_inj in H. injection H as _ <-.
    assert (Hc1 : cursor_ok (this w1)).
    { unfold cursor_ok. rewrite Hl1. apply Z.mod_pos_bound. consts. lia. }
    destruct (write_blocking_stores fuel _ w2 w3 Hw2
                ltac:(unfold cursor_ok; rewrite Hl2; exact Hc1) H3)
      as [Hmem [Hl3 [Hst3 [Hcfg3 Hw3]]]].
    rewrite Hst2, Hst1 in Hmem, Hst3, Hw3.
    rewrite Hl2 in Hmem, Hl3. rewrite Hl1 in Hmem, Hl3.
    cbn [fst snd] in Hmem.
    rewrite Hb2, Hst1 in Hmem. cbn [negb fst snd] in Hmem.
    rewrite mix_same in Hmem by apply sample_code_range.
    rewrite (Z.mod_small (sample_code _) 256) in Hmem
      by apply sample_code_range.
    rewrite mono_pair_word in Hmem by apply sample_code_range.
    split; [assumption |].
    split; [rewrite Hcfg3, Hcfg2; assumption |].
    split; [assumption |].
    split.
    + rewrite Hl3, Zplus_mod_idemp_l. f_equal. lia.
    + intros _.
      replace (Z.of_nat (S M) - 1) with (Z.of_nat M) by lia.
      rewrite Hmem. f_equal; f_equal; f_equal; lia.
Qed.

(** With room in the ring for [M] words, the loop over [2 * M] mono
    frames returns without waiting; the [M] words are then in shared memory
    in consecutive slots from the cursor on, no other word of shared memory
    has changed, and the coprocessor has not moved. *)
Lemma write_pairs_mono_now (fuel : nat) (data : list Z) (frameSize : Z)
    (M : nat) :
  forall j result w,
    stereoOutput (this w) = false -> channels (cfg (this w)) = 1 ->
    waitingOddSample (this w) = false -> cursor_ok (this w) ->
    0 <= currentWord w < totalSampleWords ->
    Z.of_nat M <= (currentWord w - lastFilledWord (this w)) mod totalSampleWords ->
    exists r w',
      write_frames ulp_ticks fuel data frameSize (2 * M) j result w
      = Ret (r, w') /\
      (forall k, 0 <= k < Z.of_nat M ->
         RTC_SLOW_MEM w'
           (bufferStart + (lastFilledWord (this w) + k) mod totalSampleWords)
         = ring_word (sample_code (data_16 data (j + 2 * k)))
                     (sample_code (data_16 data (j + 2 * k + 1)))) /\
      (forall a,
         (forall k, 0 <= k < Z.of_nat M ->
            a <> bufferStart
                 + (lastFilledWord (this w) + k) mod totalSampleWords) ->
         RTC_SLOW_MEM w' a = RTC_SLOW_MEM w a) /\
      cop (hw w') = cop (hw w) /\ dac (hw w') = dac (hw w).
Proof.
  induction M as [| M IH]; intros j result w Hst Hch Hw Hc Hcw Hroom.
  - cbn [Nat.mul write_frames]. eexists. eexists.
    split; [reflexivity |].
    split; [intros k Hk; lia | auto].
  - pose proof (Z.mod_pos_bound (currentWord w - lastFilledWord (this w))
                  totalSampleWords ltac:(consts; lia)) as Hd.
    destruct (IH j result w Hst Hch Hw Hc Hcw ltac:(lia))
      as [r1 [w1 [H1 [Hwords [Hframe [Hcop1 Hdac1]]]]]].
    destruct (write_pairs_mono _ _ _ _ _ _ _ _ _ Hst Hch Hw Hc H1)
      as [Hst1 [Hch1 [Hw1 [Hl1 _]]]].
    replace (2 * S M)%nat with (2 * M + 2)%nat by lia.
    rewrite write_frames_app, H1.
    cbn [write_frames].
    rewrite Hst1, Hch1, Z.mul_1_r.
    destruct (write_blocking_stages fuel
                (data_16 data (j + Z.of_nat (2 * M)),
                 data_16 data (j + Z.of_nat (2 * M))) w1 Hw1)
      as [w2 [H2 [Hhw2 [_ [Hl2 [Hst2 [Hcfg2 [Hw2 Hb2]]]]]]]].
    rewrite H2.
    rewrite Hst2, Hst1, Hcfg2, Hch1, Z.mul_1_r.
    assert (Hidx : RTC_SLOW_MEM w2 indexAddress = RTC_SLOW_MEM w indexAddress).
    { unfold RTC_SLOW_MEM at 1. rewrite Hhw2. fold (RTC_SLOW_MEM w1).
      apply Hframe. intros k Hk.
      pose proof (Z.mod_pos_bound (lastFilledWord (this w) + k)
                    totalSampleWords ltac:(consts; lia)).
      consts. lia. }
    assert (E : lastFilledWord (this w2) <> currentWord w2).
    { unfold currentWord at 1. rewrite Hidx. fold (currentWord w).
      rewrite Hl2, Hl1. apply ring_slot_free; try assumption. lia. }
    set (s := (data_16 data (j + Z.of_nat (2 * M) + 1),
               data_16 data (j + Z.of_nat (2 * M) + 1))).
    destruct (write_blocking_stores_now fuel s w2 Hw2 E)
      as [w3 [H3 [Hframe3 [Hcop3 Hdac3]]]].
    rewrite H3.
    assert (Hc1 : cursor_ok (this w1)).
    { unfold cursor_ok. rewrite Hl1. apply Z.mod_pos_bound. consts. lia. }
    destruct (write_blocking_stores fuel s w2 w3 Hw2
                ltac:(unfold cursor_ok; rewrite Hl2; exact Hc1) H3)
      as [Hmem _].
    rewrite Hst2, Hst1, Hl2, Hl1 in Hmem. unfold s in Hmem.
    cbn [fst snd] in Hmem.
    rewrite Hb2, Hst1 in Hmem. cbn [negb fst snd] in Hmem.
    rewrite mix_same in Hmem by apply sample_code_range.
    rewrite (Z.mod_small (sample_code _) 256) in Hmem
      by apply sample_code_range.
    rewrite mono_pair_word in Hmem by apply sample_code_range.
    assert (HM : Z.of_nat M < totalSampleWords) by lia.
    eexists. eexists. split; [reflexivity |].
    assert (Hmem2 : forall a, RTC_SLOW_MEM w2 a = RTC_SLOW_MEM w1 a)
      by (intros a; unfold RTC_SLOW_MEM; rewrite Hhw2; reflexivity).
    split; [ | split].
    + intros k Hk.
      destruct (Z.eq_dec k (Z.of_nat M)) as [-> | Hne].
      * rewrite Hmem. f_equal; f_equal; f_equal; lia.
      * rewrite Hframe3, Hmem2; [apply Hwords; lia |].
        rewrite Hl2, Hl1. intros Heq.
        apply Z.add_reg_l, ring_slot_inj in Heq; try assumption; lia.
    + intros a Ha.
      rewrite Hframe3, Hmem2; [apply Hframe; intros k Hk; apply Ha; lia |].
      rewrite Hl2, Hl1. apply Ha. lia.
    + rewrite Hcop3, Hdac3, Hhw2. auto.
Qed.

(** After the pairs, an odd last mono frame is only staged: the loop
    over [2 * M + 1] frames ends on the hardware state and the cursor that
    the loop over the first [2 * M] frames leaves. *)
Lemma write_frames_mono_tail (fuel : nat) (data : list Z) (frameSize : Z)
    (M b : nat) (j result : Z) (w : world) (r1 : Z) (w1 : world) :
  (b <= 1)%nat ->
  write_frames ulp_ticks fuel data frameSize (2 * M) j result w
  = Ret (r1, w1) ->
  waitingOddSample (this w1) = false ->
  exists r w',
    write_frames ulp_ticks fuel data frameSize (2 * M + b) j result w
    = Ret (r, w') /\
    hw w' = hw w1 /\
    lastFilledWord (this w') = lastFilledWord (this w1) /\
    stereoOutput (this w') = stereoOutput (this w1).
Proof.
  intros Hb H1 Hw1.
  rewrite write_frames_app, H1.
  destruct b as [| [| b]]; [ | | lia].
  - cbn [write_frames]. eexists. eexists. split; [reflexivity | auto].
  - cbn [write_frames].
    match goal with
    | |- context [write_blocking _ _ ?s0 w1] =>
        destruct (write_blocking_stages fuel s0 w1 Hw1)
          as [w2 [H2 [Hhw2 [_ [Hl2 [Hst2 _]]]]]]
    end.
    rewrite H2. eexists. eexists. split; [reflexivity | auto].
Qed.

(** The loop over the first [n1] frames returns if the loop over more
    frames does. *)
Lemma write_frames_prefix (fuel : nat) (data : list Z) (frameSize : Z)
    (n1 n : nat) (j result : Z) (w : world) (r : Z) (w' : world) :
  (n1 <= n)%nat ->
  write_frames ulp_ticks fuel data frameSize n j result w = Ret (r, w') ->
  exists r1 w1,
    write_frames ulp_ticks fuel data frameSize n1 j result w = Ret (r1, w1).
Proof.
  intros Hn H.
  replace n with (n1 + (n - n1))%nat in H by lia.
  rewrite write_frames_app in H.
  destruct (write_frames ulp_ticks fuel data frameSize n1 j result w)
    as [[r1 w1] | |]; try discriminate.
  eexists. eexists. reflexivity.
Qed.

(** *** Stereo: every frame makes one ring word *)

(** The frame loop over [n] stereo frames: whenever it returns, the
    cursor is [n] slots further and the last of the [n] words is in shared
    memory in the slot before the cursor. *)
Lemma write_frames_stereo_stores (fuel : nat) (data : list Z) (frameSize : Z)
    (n : nat) :
  forall j result w r w',
    stereoOutput (this w) = true -> channels (cfg (this w)) = 2 ->
    waitingOddSample (this w) = true -> cursor_ok (this w) ->
    write_frames ulp_ticks fuel data frameSize n j result w = Ret (r, w') ->
    stereoOutput (this w') = true /\ channels (cfg (this w')) = 2 /\
    waitingOddSample (this w') = true /\
    lastFilledWord (this w')
    = (lastFilledWord (this w) + Z.of_nat n) mod totalSampleWords /\
    ((1 <= n)%nat ->
     RTC_SLOW_MEM w'
       (bufferStart
        + (lastFilledWord (this w) + (Z.of_nat n - 1)) mod totalSampleWords)
     = ring_word
         (sample_code (data_16 data ((j + (Z.of_nat n - 1)) * 2)))
         (sample_code (data_16 data ((j + (Z.of_nat n - 1)) * 2 + 1)))).
Proof.
  induction n as [| n IH]; intros j result w r w' Hst Hch Hw Hc H.
  - cbn [write_frames] in H. apply Ret_inj in H. injection H as _ <-.
    rewrite Z.add_0_r, Z.mod_small by exact Hc.
    repeat split; try assumption. lia.
  - replace (S n) with (n + 1)%nat in H by lia.
    rewrite write_frames_app in H.
    destruct (write_frames ulp_ticks fuel data frameSize n j result w)
      as [[r1 w1] | |] eqn:H1; try discriminate.
    destruct (IH _ _ _ _ _ Hst Hch Hw Hc H1) as [Hst1 [Hch1 [Hw1 [Hl1 _]]]].
    cbn [write_frames] in H. rewrite Hst1, Hch1 in H.
    destruct (write_blocking ulp_ticks fuel _ w1) as [w2 | |] eqn:H2;
      try discriminate.
    apply Ret_inj in H. injection H as _ <-.
    assert (Hc1 : cursor_ok (this w1)).
    { unfold cursor_ok. rewrite Hl1. apply Z.mod_pos_bound. consts. lia. }
    destruct (write_blocking_stores fuel _ w1 w2 Hw1 Hc1 H2)
      as [Hmem [Hl2 [Hst2 [Hcfg2 Hw2]]]].
    rewrite Hst1 in Hmem, Hst2, Hw2. rewrite Hl1 in Hmem, Hl2.
    cbn [fst snd] in Hmem.
    rewrite lor_bytes in Hmem by apply sample_code_range.
    split; [assumption |].
    split; [rewrite Hcfg2; assumption |].
    split; [assumption |].
    split.
    + rewrite Hl2, Zplus_mod_idemp_l. f_equal. lia.
    + intros _.
      replace (Z.of_nat (S n) - 1) with (Z.of_nat n) by lia.
      exact Hmem.
Qed.

(** With room in the ring for [n] words, the loop over [n] stereo frames
    returns without waiting; the [n] words are then in shared memory in
    consecutive slots from the cursor on, no other word of shared memory has
    changed, and the coprocessor has not moved. *)
Lemma write_frames_stereo_now (fuel : nat) (data : list Z) (frameSize : Z)
    (n : nat) :
  forall j result w,
    stereoOutput (this w) = true -> channels (cfg (this w)) = 2 ->
    waitingOddSample (this w) = true -> cursor_ok (this w) ->
    0 <= currentWord w < totalSampleWords ->
    Z.of_nat n <= (currentWord w - lastFilledWord (this w)) mod totalSampleWords ->
    exists r w',
      write_frames ulp_ticks fuel data frameSize n j result w = Ret (r, w') /\
      (forall k, 0 <= k < Z.of_nat n ->
         RTC_SLOW_MEM w'
           (bufferStart + (lastFilledWord (this w) + k) mod totalSampleWords)
         = ring_word (sample_code (data_16 data ((j + k) * 2)))
                     (sample_code (data_16 data ((j + k) * 2 + 1)))) /\
      (forall a,
         (forall k, 0 <= k < Z.of_nat n ->
            a <> bufferStart
                 + (lastFilledWord (this w) + k) mod totalSampleWords) ->
         RTC_SLOW_MEM w' a = RTC_SLOW_MEM w a) /\
      cop (hw w') = cop (hw w) /\ dac (hw w') = dac (hw w).
Proof.
  induction n as [| n IH]; intros j result w Hst Hch Hw Hc Hcw Hroom.
  - cbn [write_frames]. eexists. eexists.
    split; [reflexivity |].
    split; [intros k Hk; lia | auto].
  - pose proof (Z.mod_pos_bound (currentWord w - lastFilledWord (this w))
                  totalSampleWords ltac:(consts; lia)) as Hd.
    destruct (IH j result w Hst Hch Hw Hc Hcw ltac:(lia))
      as [r1 [w1 [H1 [Hwords [Hframe [Hcop1 Hdac1]]]]]].
    destruct (write_frames_stereo_stores _ _ _ _ _ _ _ _ _ Hst Hch Hw Hc H1)
      as [Hst1 [Hch1 [Hw1 [Hl1 _]]]].
    replace (S n) with (n + 1)%nat by lia.
    rewrite write_frames_app, H1.
    cbn [write_frames]. rewrite Hst1, Hch1.
    assert (Hidx : RTC_SLOW_MEM w1 indexAddress = RTC_SLOW_MEM w indexAddress).
    { apply Hframe. intros k Hk.
      pose proof (Z.mod_pos_bound (lastFilledWord (this w) + k)
                    totalSampleWords ltac:(consts; lia)).
      consts. lia. }
    assert (E : lastFilledWord (this w1) <> currentWord w1).
    { unfold currentWord at 1. rewrite Hidx. fold (currentWord w).
      rewrite Hl1. apply ring_slot_free; try assumption. lia. }
    match goal with
    | |- context [write_blocking _ _ ?s0 w1] => set (s := s0)
    end.
    destruct (write_blocking_stores_now fuel s w1 Hw1 E)
      as [w2 [H2 [Hframe2 [Hcop2 Hdac2]]]].
    rewrite H2.
    assert (Hc1 : cursor_ok (this w1)).
    { unfold cursor_ok. rewrite Hl1. apply Z.mod_pos_bound. consts. lia. }
    destruct (write_blocking_stores fuel s w1 w2 Hw1 Hc1 H2) as [Hmem _].
    rewrite Hst1, Hl1 in Hmem. unfold s in Hmem. cbn [fst snd] in Hmem.
    rewrite lor_bytes in Hmem by apply sample_code_range.
    assert (Hn : Z.of_nat n < totalSampleWords) by lia.
    eexists. eexists. split; [reflexivity |].
    split; [ | split].
    + intros k Hk.
      destruct (Z.eq_dec k (Z.of_nat n)) as [-> | Hne].
      * exact Hmem.
      * rewrite Hframe2; [apply Hwords; lia |].
        rewrite Hl1. intros Heq.
        apply Z.add_reg_l, ring_slot_inj in Heq; try assumption; lia.
    + intros a Ha.
      rewrite Hframe2; [apply Hframe; intros k Hk; apply Ha; lia |].
      rewrite Hl1. apply Ha. lia.
    + rewrite Hcop2, Hdac2. auto.
Qed.

End Timing.

End StoreFacts.

Import StoreFacts.

(* ---------------------------------------------------------------------- *)
(** *** C7 *)

Lemma last_is_nth (l : list Z) (d : Z) : last l d = nth (length l - 1) l d.
Proof.
  induction l as [| x [| y l] IH]; try reflexivity.
  change (last (x :: y :: l) d) with (last (y :: l) d). rewrite IH.
  cbn [length]. replace (S (S (length l)) - 1)%nat with (S (length l)) by lia.
  cbn [nth]. replace (S (length l) - 1)%nat with (length l) by lia.
  reflexivity.
Qed.

(** [write] on [N] mono frames runs the frame loop [N] times. *)
Lemma write_mono_unfold (ulp_ticks : Z -> nat) (fuel : nat) (data : list Z)
    (N : nat) (w : world) :
  channels (cfg (this w)) = 1 -> Z.of_nat N < 2 ^ 30 ->
  write ulp_ticks fuel data (2 * Z.of_nat N) w
  = write_frames ulp_ticks fuel data 2 N 0 0 w.
Proof.
  intros Hch HN. unfold write. cbv zeta. rewrite Hch.
  change (to_int32 (1 * 2)) with 2. change (uint32 2) with 2.
  change (2 =? 0) with false. cbv iota.
  unfold uint32 at 1. rewrite Z.mod_small by lia.
  rewrite (Z.mul_comm 2), Z.div_mul by lia.
  rewrite to_int32_small by lia. rewrite Nat2Z.id. reflexivity.
Qed.

(** A successful mono [begin] starts with nothing staged. *)
Lemma begin_mono_state
    (ulp_ticks : Z -> nat) (fuel : nat) (info : AudioInfo) (w w' : world) :
  channels info = 1 -> begin ulp_ticks fuel info w = Ret (true, w') ->
  stereoOutput (this w') = false /\ channels (cfg (this w')) = 1 /\
  waitingOddSample (this w') = false.
Proof.
  intros Hch Hbegin.
  destruct (begin_true _ _ _ _ _ Hbegin) as [_ [Ht _]]. cbv zeta in Ht.
  rewrite Ht. unfold begin_config. rewrite Hch.
  cbn [stereoOutput Z.eqb Pos.eqb negb set_waitingOddSample cfg
       waitingOddSample channels].
  repeat split; assumption.
Qed.

(** C7: in a mono session with nothing staged (the state a mono [begin]
    leaves), whenever [write] returns from [N] frames it has stored exactly
    [N / 2] ring words, word [k] with the code of frame [2k] in its low byte
    and the code of frame [2k + 1] in its high byte; for even [N] nothing is
    left staged, for odd [N] the code of the last frame is held in the stage
    and is in no ring word.

    The words are stored in shared memory: the write cursor ends [N / 2]
    slots further (wrapping at the end of the ring); word [k] is in
    [RTC_SLOW_MEM] in slot [(cursor + k) mod 1003] when the call has consumed
    frames [0 .. 2k + 1], that is, in the state in which [write] of those
    frames returns; and the last word is still there when [write] returns.
    A staged last frame goes to shared memory with the next frame: the
    blocking write of a frame [s] after the call stores the word with the
    staged code in its low byte and the code of [s] in its high byte.

    [write] does return, without waiting, when the ring has room for the
    words; all [N / 2] words are then in [RTC_SLOW_MEM] in consecutive slots
    from the cursor on, no other word of shared memory has changed, and the
    coprocessor and the outputs are as they were. *)
Theorem mono_frames_are_paired
    (ulp_ticks : Z -> nat) (data : list Z) (N : nat) (w : world) :
  stereoOutput (this w) = false -> channels (cfg (this w)) = 1 ->
  waitingOddSample (this w) = false -> Z.of_nat N < 2 ^ 30 ->
  let slot k := bufferStart
                + (lastFilledWord (this w) + Z.of_nat k) mod totalSampleWords in
  let word k := ring_word (sample_code (data_16 data (Z.of_nat (2 * k))))
                          (sample_code (data_16 data (Z.of_nat (2 * k + 1)))) in
  (forall fuel r w',
     write ulp_ticks fuel data (2 * Z.of_nat N) w = Ret (r, w') ->
     (exists new,
        ring_words w' = ring_words w ++ new /\
        length new = (N / 2)%nat /\
        (forall k, (k < N / 2)%nat -> nth k new 0 = word k) /\
        (Nat.even N = true -> waitingOddSample (this w') = false) /\
        (Nat.odd N = true ->
         waitingOddSample (this w') = true /\
         bufferedOddSample (this w')
         = sample_code (data_16 data (Z.of_nat (N - 1))))) /\
     (cursor_ok (this w) ->
      lastFilledWord (this w')
      = (lastFilledWord (this w) + Z.of_nat (N / 2)) mod totalSampleWords /\
      (forall k, (k < N / 2)%nat ->
         exists rk wk,
           write ulp_ticks fuel data (2 * Z.of_nat (2 * (k + 1))) w
           = Ret (rk, wk) /\
           RTC_SLOW_MEM wk (slot k) = word k) /\
      ((1 <= N / 2)%nat ->
       RTC_SLOW_MEM w' (slot (N / 2 - 1)%nat) = word (N / 2 - 1)%nat) /\
      (Nat.odd N = true ->
       forall fuel' s w'',
         write_blocking ulp_ticks fuel' (s, s) w' = Ret w'' ->
         RTC_SLOW_MEM w'' (slot (N / 2)%nat)
         = ring_word (sample_code (data_16 data (Z.of_nat (N - 1))))
                     (sample_code s)))) /\
  (cursor_ok (this w) -> 0 <= currentWord w < totalSampleWords ->
   Z.of_nat (N / 2)
   <= (currentWord w - lastFilledWord (this w)) mod totalSampleWords ->
   forall fuel, exists r w',
     write ulp_ticks fuel data (2 * Z.of_nat N) w = Ret (r, w') /\
     (forall k, (k < N / 2)%nat -> RTC_SLOW_MEM w' (slot k) = word k) /\
     (forall a, (forall k, (k < N / 2)%nat -> a <> slot k) ->
                RTC_SLOW_MEM w' a = RTC_SLOW_MEM w a) /\
     cop (hw w') = cop (hw w) /\ dac (hw w') = dac (hw w)).
Proof.
  intros Hst Hch Hwait HN slot word.
  assert (Hpend : pending (this w) = [])
    by (unfold pending; rewrite Hwait; reflexivity).
  assert (Hhalf : (2 * (N / 2) <= N)%nat) by (apply Nat.Div0.mul_div_le).
  split.
  - intros fuel r w' H. split.
    + rewrite write_mono_unfold in H by assumption.
      destruct (write_frames_mono ulp_ticks fuel data 2 N 0 0 w r w' Hst Hch
                  ltac:(unfold staged_ok; congruence) H) as [Hwords Hleft].
      rewrite Hpend in Hwords, Hleft. cbn [app] in Hwords, Hleft.
      rewrite left_over_odd, mono_codes_length in Hleft.
      exists (pair_words (mono_codes data 0 N)).
      split; [exact Hwords | split; [ | split; [ | split]]].
      * rewrite pair_words_length, mono_codes_length. reflexivity.
      * intros k Hk.
        rewrite pair_words_nth by (rewrite mono_codes_length; exact Hk).
        rewrite !mono_codes_nth by lia. reflexivity.
      * intros Hev. rewrite <- Nat.negb_even, Hev in Hleft. cbn in Hleft.
        unfold pending in Hleft.
        destruct (waitingOddSample (this w')); [discriminate | reflexivity].
      * intros Hodd. rewrite Hodd in Hleft. cbn [opt_list] in Hleft.
        unfold pending in Hleft.
        destruct (waitingOddSample (this w')); [ | discriminate].
        split; [reflexivity |].
        injection Hleft as ->.
        rewrite last_is_nth, mono_codes_length.
        assert (N <> 0)%nat by (intros ->; discriminate).
        rewrite mono_codes_nth by lia. f_equal.
    + intros Hc.
      pose proof H as H'. rewrite write_mono_unfold in H' by assumption.
      destruct (write_frames_prefix ulp_ticks fuel data 2 (2 * (N / 2)) N 0 0
                  w r w' Hhalf H') as [r1 [w1 H1]].
      destruct (write_pairs_mono _ _ _ _ _ _ _ _ _ _ Hst Hch Hwait Hc H1)
        as [Hst1 [Hch1 [Hw1 [Hl1 Hlast]]]].
      destruct (write_frames_mono_tail ulp_ticks fuel data 2 (N / 2)
                  (N mod 2) 0 0 w r1 w1
                  ltac:(pose proof (Nat.mod_upper_bound N 2); lia) H1 Hw1)
        as [r' [w'' [H'' [Hhw [Hl Hst']]]]].
      rewrite <- Nat.div_mod_eq in H''.
      rewrite H' in H''. apply Ret_inj in H''. injection H'' as _ <-.
      split; [rewrite Hl; exact Hl1 |].
      split; [ | split].
      * intros k Hk.
        assert (Hk2 : (2 * (k + 1) <= N)%nat) by lia.
        destruct (write_frames_prefix ulp_ticks fuel data 2 (2 * (k + 1)) N
                    0 0 w r w' Hk2 H') as [rk [wk Hwk]].
        exists rk, wk.
        split; [rewrite write_mono_unfold by (try assumption; lia);
                exact Hwk |].
        destruct (write_pairs_mono _ _ _ _ _ _ _ _ _ _ Hst Hch Hwait Hc Hwk)
          as [_ [_ [_ [_ Hmem]]]].
        specialize (Hmem ltac:(lia)).
        unfold slot, word.
        replace (Z.of_nat k) with (Z.of_nat (k + 1) - 1) by lia.
        rewrite Hmem. f_equal; f_equal; f_equal; lia.
      * intros HM. specialize (Hlast HM).
        unfold slot, word. unfold RTC_SLOW_MEM. rewrite Hhw.
        fold (RTC_SLOW_MEM w1).
        replace (Z.of_nat (N / 2 - 1)) with (Z.of_nat (N / 2) - 1) by lia.
        rewrite Hlast. f_equal; f_equal; f_equal; lia.
      * intros Hodd fuel' s w'' Hs.
        destruct (write_frames_mono ulp_ticks fuel data 2 N 0 0 w r w' Hst Hch
                    ltac:(unfold staged_ok; congruence) H') as [_ Hleft].
        rewrite Hpend in Hleft. cbn [app] in Hleft.
        rewrite left_over_odd, mono_codes_length, Hodd in Hleft.
        cbn [opt_list] in Hleft. unfold pending in Hleft.
        destruct (waitingOddSample (this w')) eqn:Hw'; [ | discriminate].
        injection Hleft as Hb.
        rewrite last_is_nth, mono_codes_length in Hb.
        assert (N <> 0)%nat by (intros ->; discriminate).
        rewrite mono_codes_nth in Hb by lia.
        assert (Hc' : cursor_ok (this w')).
        { unfold cursor_ok. rewrite Hl, Hl1. apply Z.mod_pos_bound.
          consts. lia. }
        destruct (write_blocking_stores ulp_ticks fuel' (s, s) w' w'' Hw' Hc' Hs)
          as [Hmem _].
        rewrite Hst', Hst1, Hl, Hl1, Hb in Hmem. cbn [fst snd] in Hmem.
        rewrite mono_pair_word in Hmem by apply sample_code_range.
        unfold slot. rewrite Hmem. f_equal; f_equal; f_equal; lia.
  - intros Hc Hcw Hroom fuel.
    destruct (write_pairs_mono_now ulp_ticks fuel data 2 (N / 2) 0 0 w
                Hst Hch Hwait Hc Hcw Hroom)
      as [r1 [w1 [H1 [Hwords [Hframe [Hcop Hdac]]]]]].
    destruct (write_pairs_mono _ _ _ _ _ _ _ _ _ _ Hst Hch Hwait Hc H1)
      as [_ [_ [Hw1 _]]].
    destruct (write_frames_mono_tail ulp_ticks fuel data 2 (N / 2)
                (N mod 2) 0 0 w r1 w1
                ltac:(pose proof (Nat.mod_upper_bound N 2); lia) H1 Hw1)
      as [r [w' [H [Hhw _]]]].
    rewrite <- Nat.div_mod_eq in H.
    exists r, w'.
    split; [rewrite write_mono_unfold by assumption; exact H |].
    unfold RTC_SLOW_MEM. rewrite Hhw. fold (RTC_SLOW_MEM w1).
    split; [ | split; [ | split; assumption]].
    + intros k Hk. unfold slot, word. rewrite Hwords by lia.
      f_equal; f_equal; f_equal; lia.
    + intros a Ha. apply Hframe. intros k Hk.
      replace k with (Z.of_nat (Z.to_nat k)) by lia.
      apply Ha. lia.
Qed.

Lemma mono_frames_are_paired_witness :
  exists r w' new,
    write four_per_ms 0 three_mono_frames 6 mono_after_10 = Ret (r, w') /\
    ring_words w' = ring_words mono_after_10 ++ new /\
    length new = 1%nat /\
    nth 0 new 0 = ring_word 128 255 /\
    waitingOddSample (this w') = true /\
    bufferedOddSample (this w') = 0 /\
    RTC_SLOW_MEM w' bufferStart = ring_word 128 255 /\
    RTC_SLOW_MEM w' (bufferStart + 1)
    = RTC_SLOW_MEM mono_after_10 (bufferStart + 1).
Proof.
  pose proof (mono_frames_are_paired four_per_ms three_mono_frames 3
                mono_after_10
                ltac:(vm_compute; reflexivity) ltac:(vm_compute; reflexivity)
                ltac:(vm_compute; reflexivity) ltac:(vm_compute; reflexivity))
    as H.
  cbv zeta in H. destruct H as [Hpairs Hroom].
  destruct (Hroom ltac:(vm_compute; split; [discriminate | reflexivity])
                  ltac:(vm_compute; split; [discriminate | reflexivity])
                  ltac:(vm_compute; discriminate) 0%nat)
    as [r [w' [Hw [Hmem [Hframe _]]]]].
  destruct (Hpairs _ _ _ Hw) as [[new [Hwords [Hlen [Hnth [_ Hodd]]]]] _].
  assert (Hslot : forall k,
            bufferStart
            + (lastFilledWord (this mono_after_10) + Z.of_nat k)
              mod totalSampleWords
            = bufferStart + Z.of_nat k mod totalSampleWords).
  { intros k.
    replace (lastFilledWord (this mono_after_10)) with 0
      by (vm_compute; reflexivity).
    reflexivity. }
  exists r, w', new.
  split; [exact Hw | split; [exact Hwords | split; [exact Hlen | split]]].
  - exact (Hnth 0%nat ltac:(vm_compute; repeat constructor)).
  - split; [exact (proj1 (Hodd eq_refl)) |].
    split; [exact (proj2 (Hodd eq_refl)) |].
    split.
    + pose proof (Hmem 0%nat ltac:(vm_compute; repeat constructor)) as H0.
      rewrite Hslot in H0. exact H0.
    + apply Hframe. intros k Hk. rewrite Hslot.
      assert (k = 0%nat) by (change (3 / 2)%nat with 1%nat in Hk; lia).
      subst k. vm_compute. discriminate.
Defined.

(* ---------------------------------------------------------------------- *)
(** *** C8 *)

(** C8: for every 16-bit signed sample [s], the output code is the top
    eight bits of [s] offset into the unsigned range,
    [((s >> 8) + 128) mod 256], which is [s / 256 + 128]; the extremes map to
    0, 128 and 255.  These are the codes [writeFrame] packs into the ring
    word of a stereo frame, and the code it stages for a mono frame. *)
Theorem sample_code_is_offset_top_byte (s : Z) :
  -32768 <= s <= 32767 ->
  sample_code s = (Z.shiftr s 8 + 128) mod 256 /\
  sample_code s = s / 256 + 128 /\
  0 <= sample_code s <= 255 /\
  (sample_code (-32768) = 0 /\ sample_code 0 = 128 /\ sample_code 32767 = 255) /\
  (forall w t,
     stereoOutput (this w) = true -> waitingOddSample (this w) = true ->
     lastFilledWord (this w) <> currentWord w ->
     ring_log (snd (writeFrame (s, t) w))
     = ring_log w
         ++ [(lastFilledWord (this w),
              ring_word ((Z.shiftr s 8 + 128) mod 256)
                        ((Z.shiftr t 8 + 128) mod 256))]) /\
  (forall w,
     stereoOutput (this w) = false -> waitingOddSample (this w) = false ->
     bufferedOddSample (this (snd (writeFrame (s, s) w)))
     = (Z.shiftr s 8 + 128) mod 256).
Proof.
  intros Hs.
  assert (Hmod : forall x, sample_code x = (Z.shiftr x 8 + 128) mod 256)
    by (intros x; unfold sample_code; apply land_ff).
  assert (Hdiv : -128 <= s / 256 <= 127).
  { split; [apply Z.div_le_lower_bound; lia |].
    assert (s / 256 < 128) by (apply Z.div_lt_upper_bound; lia). lia. }
  assert (Hval : sample_code s = s / 256 + 128).
  { rewrite Hmod, Z.shiftr_div_pow2 by lia. change (2 ^ 8) with 256.
    apply Z.mod_small. lia. }
  split; [apply Hmod | split; [exact Hval | split; [lia | split; [ | split]]]].
  - repeat split; reflexivity.
  - intros w t Hst Hw Hne.
    destruct (writeFrame_accepts (s, t) w Hw Hne)
      as [w' [-> [_ [_ [_ [_ [_ [_ [_ [_ Hlog]]]]]]]]]].
    cbn [snd fst] in *. rewrite Hlog, Hst.
    rewrite lor_bytes by apply sample_code_range.
    rewrite !Hmod. reflexivity.
  - intros w Hst Hw. rewrite writeFrame_stage by assumption.
    cbn [snd fst this set_this bufferedOddSample]. rewrite Hst. cbn [negb].
    rewrite mix_same by apply sample_code_range.
    rewrite Z.mod_small by (pose proof (sample_code_range s); lia).
    apply Hmod.
Qed.

Lemma sample_code_is_offset_top_byte_witness :
  sample_code (-32768) = (Z.shiftr (-32768) 8 + 128) mod 256 /\
  sample_code (-32768) = 0.
Proof.
  destruct (sample_code_is_offset_top_byte (-32768) ltac:(lia))
    as [H1 [_ [_ [[H2 _] _]]]].
  split; [exact H1 | exact H2].
Defined.

(* ---------------------------------------------------------------------- *)
(** *** C9 *)

(** C9: [begin] with a sample width other than 16 bits returns false at
    once (no fuel is needed: it does not wait), and leaves the hardware as
    it was: shared memory, coprocessor and outputs are untouched, so no
    program or table is built and the coprocessor is not started; of the
    object only the configuration members assigned before the check change.
    With a 16-bit sample width [begin] is [setup] on the object so
    configured. *)
Theorem begin_checks_sample_width
    (ulp_ticks : Z -> nat) (fuel : nat) (info : AudioInfo) (w : world) :
  (bits_per_sample info <> 16 ->
   exists w',
     begin ulp_ticks fuel info w = Ret (false, w') /\
     hw w' = hw w /\ ring_log w' = ring_log w /\
     this w' = begin_config info (this w) /\
     lastFilledWord (this w') = lastFilledWord (this w) /\
     waitingOddSample (this w') = waitingOddSample (this w) /\
     bufferedOddSample (this w') = bufferedOddSample (this w) /\
     min_write_bytes (this w') = min_write_bytes (this w) /\
     selected_mono_dac (this w') = selected_mono_dac (this w)) /\
  (bits_per_sample info = 16 ->
   begin ulp_ticks fuel info w
   = setup ulp_ticks fuel (set_this (begin_config info (this w)) w)).
Proof.
  unfold begin. cbv zeta. split; intros Hbits.
  - destruct (Z.eqb_spec (bits_per_sample info) 16); [contradiction |].
    cbn [negb]. eexists. split; [reflexivity |]. repeat split.
  - rewrite Hbits. reflexivity.
Qed.

Lemma begin_checks_sample_width_witness :
  (exists w',
     begin four_per_ms 0 (mk_info 44100 2 8) stereo_after_10 = Ret (false, w') /\
     hw w' = hw stereo_after_10) /\
  begin four_per_ms 4 defaultConfig fresh_world
  = setup four_per_ms 4 (set_this (begin_config defaultConfig (this fresh_world))
                                  fresh_world).
Proof.
  destruct (begin_checks_sample_width four_per_ms 0 (mk_info 44100 2 8)
              stereo_after_10) as [Hbad _].
  destruct (begin_checks_sample_width four_per_ms 4 defaultConfig fresh_world)
    as [_ Hgood].
  split.
  - destruct (Hbad ltac:(vm_compute; discriminate)) as [w' [Hb [Hh _]]].
    exists w'. split; [exact Hb | exact Hh].
  - exact (Hgood eq_refl).
Defined.

(* ---------------------------------------------------------------------- *)
(** *** C10 *)

(** C10: the regions of the 2048-word shared memory are laid out back to
    back and do not overlap: the 20 program words at [0, 20), the index cell
    at 20, the ring buffer of 1003 words at [21, 1024), the second table at
    [1024, 1536) and the first table at [1536, 2048).  With the write cursor
    in the ring, the only word [writeFrame] can change is the slot
    [bufferStart + lastFilledWord], which lies in the ring buffer: the index
    cell keeps its value, the program and both tables stay in place, and the
    cursor stays in the ring. *)
Theorem shared_memory_layout_is_disjoint (w : world) (s : Z * Z) :
  cursor_ok (this w) ->
  (forall dt dt2, Z.of_nat (length (stereo dt dt2)) = opcodeCount) /\
  (opcodeCount = 20 /\ indexAddress = 20 /\ bufferStart = 21 /\
   totalSampleWords = 1003 /\
   bufferStart + totalSampleWords = dacTableStart2 /\ dacTableStart2 = 1024 /\
   dacTableStart2 + 256 * 2 = dacTableStart1 /\ dacTableStart1 = 1536 /\
   dacTableStart1 + 256 * 2 = RTC_SLOW_MEM_WORDS /\ RTC_SLOW_MEM_WORDS = 2048) /\
  (opcodeCount <= indexAddress < bufferStart /\
   bufferStart <= bufferStart + lastFilledWord (this w) < dacTableStart2) /\
  (forall a, RTC_SLOW_MEM (snd (writeFrame s w)) a <> RTC_SLOW_MEM w a ->
             a = bufferStart + lastFilledWord (this w) /\ in_buffer a) /\
  RTC_SLOW_MEM (snd (writeFrame s w)) indexAddress = RTC_SLOW_MEM w indexAddress /\
  (forall t1 t2, installed t1 t2 (RTC_SLOW_MEM w) ->
                 installed t1 t2 (RTC_SLOW_MEM (snd (writeFrame s w)))) /\
  cursor_ok (this (snd (writeFrame s w))).
Proof.
  intros Hc.
  split; [intros; reflexivity |].
  split; [repeat split; reflexivity |].
  split; [unfold cursor_ok in Hc; consts; lia |].
  destruct (writeFrame_frame s w Hc) as [Hc' [Hframe _]].
  split; [ | split; [ | split; [ | exact Hc']]];
    [ | apply Hframe; consts; lia
      | intros t1 t2 Hinst; apply (installed_frame _ _ _ _ Hinst);
        intros a Ha; apply Hframe; consts; lia ].
  intros a Ha.
  assert (Hin : in_buffer a).
  { destruct (Z.le_gt_cases bufferStart a);
      destruct (Z.lt_ge_cases a (bufferStart + totalSampleWords));
      try (unfold in_buffer; lia);
      exfalso; apply Ha, Hframe; unfold in_buffer; lia. }
  split; [ | exact Hin].
  destruct (Z.eq_dec a (bufferStart + lastFilledWord (this w))) as [E | E];
    [exact E | exfalso; apply Ha].
  destruct (waitingOddSample (this w)) eqn:Hw.
  - destruct (Z.eq_dec (lastFilledWord (this w)) (currentWord w)) as [E' | E'].
    + rewrite writeFrame_reject by assumption. reflexivity.
    + destruct (writeFrame_accepts s w Hw E')
        as [w' [-> [_ [_ [_ [_ [_ [Hm _]]]]]]]].
      cbn [snd]. rewrite Hm. apply store_neq. exact E.
  - rewrite writeFrame_stage by assumption. reflexivity.
Qed.

Lemma shared_memory_layout_is_disjoint_witness :
  cursor_ok (this stereo_after_10) /\
  cursor_ok (this (snd (writeFrame (0, 0) stereo_after_10))) /\
  bufferStart <= bufferStart + lastFilledWord (this stereo_after_10)
  < dacTableStart2.
Proof.
  assert (H : cursor_ok (this stereo_after_10))
    by (vm_compute; split; [discriminate | reflexivity]).
  destruct (shared_memory_layout_is_disjoint stereo_after_10 (0, 0) H)
    as [_ [_ [[_ Hslot] [_ [_ [_ Hc]]]]]].
  split; [exact H | split; [exact Hc | exact Hslot]].
Defined.

(* ====================================================================== *)
(** * Further properties of the driver and of the player sketch *)

Import Session.

(* ---------------------------------------------------------------------- *)
(** ** The words of the dispatch tables and of the program *)

Module EncodingFacts.

(** A property of the bytes that holds for each of the 256 values holds
    for every byte. *)
Lemma forall_bytes (P : Z -> bool) :
  forallb P (map Z.of_nat (seq 0 256)) = true ->
  forall i, 0 <= i < 256 -> P i = true.
Proof.
  intros H i Hi. rewrite forallb_forall in H. apply H.
  apply in_map_iff. exists (Z.to_nat i). split; [lia |].
  apply in_seq. lia.
Qed.

Lemma create_I_WR_REG_truncates (r low high v : Z) :
  create_I_WR_REG r low high v = create_I_WR_REG r low high (v mod 256).
Proof.
  unfold create_I_WR_REG, I_WR_REG, ulp_bin. cbn [pack].
  change (2 ^ 8) with 256. rewrite Z.mod_mod by lia. reflexivity.
Qed.

End EncodingFacts.

Import EncodingFacts.

(** X1: for every code [i] in 0..255, the word [create_I_WR_REG] builds for
    a write of [i] to bits 19..26 of a DAC pad register is the literal quoted
    in the comments of [setup]: [0x1D4C0121 | (i << 10)] for the first pad
    register and [0x1D4C0122 | (i << 10)] for the second.  A value outside
    0..255 is reduced modulo 256 by the 8-bit data field, so it yields the
    word of its low byte. *)
Theorem create_I_WR_REG_quoted_opcodes (i : Z) :
  0 <= i < 256 ->
  create_I_WR_REG RTC_IO_PAD_DAC1_REG 19 26 i = Z.lor 0x1D4C0121 (Z.shiftl i 10) /\
  create_I_WR_REG RTC_IO_PAD_DAC2_REG 19 26 i = Z.lor 0x1D4C0122 (Z.shiftl i 10) /\
  (forall v, v mod 256 = i ->
     create_I_WR_REG RTC_IO_PAD_DAC1_REG 19 26 v
     = create_I_WR_REG RTC_IO_PAD_DAC1_REG 19 26 i).
Proof.
  intros Hi. split; [ | split].
  - apply Z.eqb_eq.
    apply (forall_bytes
             (fun i => create_I_WR_REG RTC_IO_PAD_DAC1_REG 19 26 i
                       =? Z.lor 0x1D4C0121 (Z.shiftl i 10))); [ | exact Hi].
    vm_compute. reflexivity.
  - apply Z.eqb_eq.
    apply (forall_bytes
             (fun i => create_I_WR_REG RTC_IO_PAD_DAC2_REG 19 26 i
                       =? Z.lor 0x1D4C0122 (Z.shiftl i 10))); [ | exact Hi].
    vm_compute. reflexivity.
  - intros v <-. apply create_I_WR_REG_truncates.
Qed.

Lemma create_I_WR_REG_quoted_opcodes_witness :
  create_I_WR_REG RTC_IO_PAD_DAC1_REG 19 26 128 = Z.lor 0x1D4C0121 (Z.shiftl 128 10).
Proof.
  destruct (create_I_WR_REG_quoted_opcodes 128 ltac:(lia)) as [H _].
  exact H.
Defined.

(** X2: for every address below 2048, the word [create_I_BXI] builds is the
    literal quoted in the comments of [setup],
    [0x80000000 + imm_pc * 4], and the coprocessor decodes it as the jump to
    that address. *)
Theorem create_I_BXI_quoted_opcode (imm_pc : Z) :
  0 <= imm_pc < 2048 ->
  create_I_BXI imm_pc = 0x80000000 + imm_pc * 4 /\
  decode (create_I_BXI imm_pc) = Some (I_BXI imm_pc).
Proof.
  intros H. split.
  - unfold create_I_BXI, I_BXI, ulp_bin. cbn [pack reg_num bit].
    rewrite (Z.mod_small imm_pc) by lia.
    change (0 mod 2 ^ 2) with 0. change (0 mod 2 ^ 8) with 0.
    change (0 mod 2 ^ 1) with 0.
    change (BX_JUMP_TYPE_DIRECT mod 2 ^ 3) with 0.
    change (SUB_OPCODE_BX mod 2 ^ 3) with 0.
    change (OPCODE_BRANCH mod 2 ^ 4) with 8. lia.
  - unfold create_I_BXI. rewrite decode_ulp_bin. unfold I_BXI, truncate.
    rewrite (Z.mod_small imm_pc) by lia. reflexivity.
Qed.

Lemma create_I_BXI_quoted_opcode_witness :
  create_I_BXI 9 = 0x80000000 + 9 * 4 /\
  decode (create_I_BXI 9) = Some (I_BXI 9).
Proof. apply (create_I_BXI_quoted_opcode 9). lia. Defined.

(** X3: assembling the control program of [setup] loses nothing: when the
    two delays fit the 16-bit cycle field ([dt] below 65534, because the last
    delay is [dt + 2], and [dt2] below 65536), every one of the 20 words
    decodes to the very instruction the driver wrote, operands included (the
    backward branch of 16, the silence word, the table bases, the addresses
    of the index cell and the buffer).  The same holds for the two words of
    the halt program of [end]. *)
Theorem control_program_round_trips (dt dt2 : Z) :
  0 <= dt < 65534 -> 0 <= dt2 < 65536 ->
  map decode (map ulp_bin (stereo dt dt2)) = map Some (stereo dt dt2) /\
  map decode (map ulp_bin stopulp) = map Some stopulp.
Proof.
  intros Hdt Hdt2. split; [ | vm_compute; reflexivity ].
  unfold stereo. cbn [map]. rewrite !decode_ulp_bin.
  unfold I_DELAY, truncate at 2 10 19.
  rewrite (Z.mod_small dt) by lia. rewrite (Z.mod_small dt2) by lia.
  unfold uint32. rewrite (Z.mod_small (dt + 2) (2 ^ 32)) by lia.
  rewrite (Z.mod_small (dt + 2) (2 ^ 16)) by lia.
  reflexivity.
Qed.

Lemma control_program_round_trips_witness :
  map decode (map ulp_bin (stereo 58 0)) = map Some (stereo 58 0).
Proof.
  exact (proj1 (control_program_round_trips 58 0 ltac:(lia) ltac:(lia))).
Defined.

(* ---------------------------------------------------------------------- *)
(** ** [write] *)

Module WriteFacts.

(** [writeFrame] never touches the configuration. *)
Lemma writeFrame_cfg (s : Z * Z) (w : world) :
  cfg (this (snd (writeFrame s w))) = cfg (this w) /\
  stereoOutput (this (snd (writeFrame s w))) = stereoOutput (this w) /\
  min_write_bytes (this (snd (writeFrame s w))) = min_write_bytes (this w) /\
  activeDACs (this (snd (writeFrame s w))) = activeDACs (this w).
Proof.
  unfold writeFrame. cbv zeta.
  destruct (waitingOddSample (this w));
    [destruct (negb (lastFilledWord (this w)
                     =? Z.shiftr (Z.land (RTC_SLOW_MEM w indexAddress) 0xffff) 1)) |];
    cbn [snd this set_this cfg stereoOutput min_write_bytes activeDACs];
    auto.
Qed.

Section Timing.
Variable ulp_ticks : Z -> nat.

(** The byte count the frame loop of [write] returns. *)
Lemma write_frames_result (fuel : nat) (data : list Z) (frameSize : Z) (n : nat) :
  forall j result w r w',
    0 <= result < 2 ^ 32 ->
    write_frames ulp_ticks fuel data frameSize n j result w = Ret (r, w') ->
    r = uint32 (result + Z.of_nat n * frameSize) /\
    cfg (this w') = cfg (this w).
Proof.
  induction n as [| n IH]; intros j result w r w' Hres H;
    cbn [write_frames] in H.
  - apply Ret_inj in H. injection H as <- <-.
    split; [ | reflexivity].
    unfold uint32. rewrite Z.mod_small; lia.
  - destruct (write_blocking ulp_ticks fuel _ w) as [w1 | |] eqn:Hb;
      try discriminate.
    destruct (write_blocking_ret _ _ _ _ _ Hb) as [w0 [Ht [_ Hw]]].
    pose proof (writeFrame_cfg
                  (data_16 data (j * channels (cfg (this w))),
                   if stereoOutput (this w)
                   then data_16 data (j * channels (cfg (this w)) + 1)
                   else data_16 data (j * channels (cfg (this w)))) w0)
      as [Hcfg _].
    rewrite Hw in Hcfg. cbn [snd] in Hcfg.
    destruct (IH _ _ _ _ _ ltac:(unfold uint32; apply Z.mod_pos_bound; lia) H)
      as [Hr Hc].
    split; [ | congruence].
    rewrite Hr. unfold uint32. rewrite Z.add_mod_idemp_l by lia.
    f_equal. lia.
Qed.

End Timing.

End WriteFacts.

Import WriteFacts.

(** X4: [write] consumes whole frames only.  With a frame size of
    [channels * 2] bytes, whenever [write] returns, the byte count it returns
    is [len / frameSize * frameSize]: at most [len], and short of it by less
    than one frame (trailing bytes that do not fill a frame are not
    consumed).  With fewer bytes than one frame, which includes an empty
    buffer, [write] returns 0 at once, without waiting, and changes
    nothing. *)
Theorem write_consumes_whole_frames
    (ulp_ticks : Z -> nat) (data : list Z) (len : Z) (w : world) :
  1 <= channels (cfg (this w)) < 2 ^ 15 -> 0 <= len < 2 ^ 31 ->
  let frameSize := channels (cfg (this w)) * 2 in
  (forall fuel r w',
     write ulp_ticks fuel data len w = Ret (r, w') ->
     r = len / frameSize * frameSize /\ r <= len /\ len - r < frameSize) /\
  (len < frameSize -> forall fuel, write ulp_ticks fuel data len w = Ret (0, w)).
Proof.
  intros Hch Hlen frameSize.
  assert (Hfs : 2 <= frameSize < 2 ^ 16) by (subst frameSize; lia).
  assert (Hq : 0 <= len / frameSize <= len).
  { split; [apply Z.div_pos; lia |].
    apply Z.div_le_upper_bound; [lia |].
    pose proof (Z.mul_le_mono_nonneg_r 1 frameSize len ltac:(lia) ltac:(lia)).
    lia. }
  assert (Hunf : forall fuel,
             write ulp_ticks fuel data len w
             = write_frames ulp_ticks fuel data frameSize
                 (Z.to_nat (len / frameSize)) 0 0 w).
  { intros fuel. unfold write. cbv zeta. fold frameSize.
    rewrite (to_int32_small frameSize) by lia.
    unfold uint32 at 1. rewrite (Z.mod_small frameSize) by lia.
    destruct (Z.eqb_spec frameSize 0); [lia |].
    unfold uint32. rewrite (Z.mod_small len), (Z.mod_small frameSize) by lia.
    rewrite to_int32_small by lia. reflexivity. }
  split.
  - intros fuel r w' H. rewrite Hunf in H.
    destruct (write_frames_result ulp_ticks fuel data frameSize _ 0 0 w r w'
                ltac:(lia) H) as [Hr _].
    rewrite Z2Nat.id in Hr by lia. cbn [Z.add] in Hr.
    pose proof (Z.mul_div_le len frameSize ltac:(lia)) as Hle.
    pose proof (Z.mod_pos_bound len frameSize ltac:(lia)) as Hmod.
    pose proof (Z.div_mod len frameSize ltac:(lia)) as Hdm.
    assert (Hr' : r = len / frameSize * frameSize).
    { rewrite Hr. unfold uint32. apply Z.mod_small. lia. }
    rewrite Hr'. split; [reflexivity | lia].
  - intros Hshort fuel. rewrite Hunf.
    rewrite Z.div_small by lia. reflexivity.
Qed.

Lemma write_consumes_whole_frames_witness :
  (forall fuel r w',
     write four_per_ms fuel three_mono_frames 5 mono_after_10 = Ret (r, w') ->
     r = 4) /\
  write four_per_ms 0 three_mono_frames 1 mono_after_10 = Ret (0, mono_after_10).
Proof.
  destruct (write_consumes_whole_frames four_per_ms three_mono_frames 5 mono_after_10
              ltac:(vm_compute; split; [discriminate | reflexivity]) ltac:(lia))
    as [H _].
  destruct (write_consumes_whole_frames four_per_ms three_mono_frames 1 mono_after_10
              ltac:(vm_compute; split; [discriminate | reflexivity]) ltac:(lia))
    as [_ H0].
  split.
  - intros fuel r w' Hw. exact (proj1 (H fuel r w' Hw)).
  - exact (H0 ltac:(vm_compute; reflexivity) 0%nat).
Defined.

(** X5: [begin] does not check the channel count.  When it succeeds with 0
    channels, the driver is configured as mono, and every later [write] then
    divides by a frame size of 0 and traps, whatever the buffer. *)
Theorem write_traps_without_channels
    (ulp_ticks : Z -> nat) (fuel1 : nat) (info : AudioInfo) (w w1 : world) :
  channels info = 0 ->
  begin ulp_ticks fuel1 info w = Ret (true, w1) ->
  stereoOutput (this w1) = false /\
  forall fuel data len, write ulp_ticks fuel data len w1 = Crash.
Proof.
  intros Hch Hb.
  destruct (begin_true _ _ _ _ _ Hb) as [_ [Hthis _]]. cbv zeta in Hthis.
  assert (Hcfg : cfg (this w1) = info).
  { rewrite Hthis. unfold begin_config.
    destruct (negb _); reflexivity. }
  assert (Hst : stereoOutput (this w1) = false).
  { rewrite Hthis. unfold begin_config. rewrite Hch.
    reflexivity. }
  split; [exact Hst |].
  intros fuel data len. unfold write. cbv zeta.
  rewrite Hcfg, Hch. reflexivity.
Qed.

Lemma write_traps_without_channels_witness :
  write four_per_ms 0 [0; 0; 0; 0] 4 (session (mk_info 44100 0 16)) = Crash.
Proof.
  assert (Hb : begin four_per_ms 4 (mk_info 44100 0 16) fresh_world
               = Ret (true, session (mk_info 44100 0 16)))
    by (vm_compute; reflexivity).
  exact (proj2 (write_traps_without_channels four_per_ms 4 (mk_info 44100 0 16)
                  fresh_world _ eq_refl Hb) 0%nat [0; 0; 0; 0] 4).
Defined.

Import WriteFacts.

Module StereoFacts.

Lemma next_slot_ok (c : Z) :
  0 <= c < totalSampleWords ->
  0 <= next_slot c < totalSampleWords /\
  forall k, 0 <= k -> (next_slot c + k) mod totalSampleWords
                      = (c + (1 + k)) mod totalSampleWords.
Proof.
  intros Hc. unfold next_slot. split.
  - destruct (Z.eqb_spec (c + 1) totalSampleWords); consts; lia.
  - intros k Hk. apply ring_advance; assumption.
Qed.

(** An accepted stereo frame: its ring word goes to the slot under the
    cursor and the cursor moves on. *)
Lemma writeFrame_true_stereo (s : Z * Z) (w w' : world) :
  stereoOutput (this w) = true -> waitingOddSample (this w) = true ->
  cursor_ok (this w) ->
  writeFrame s w = (true, w') ->
  ring_log w'
  = ring_log w ++ [(lastFilledWord (this w),
                    ring_word (sample_code (fst s)) (sample_code (snd s)))] /\
  lastFilledWord (this w') = next_slot (lastFilledWord (this w)) /\
  stereoOutput (this w') = true /\ waitingOddSample (this w') = true /\
  cfg (this w') = cfg (this w) /\
  RTC_SLOW_MEM w' indexAddress = RTC_SLOW_MEM w indexAddress /\
  lastFilledWord (this w) <> currentWord w.
Proof.
  intros Hst Hw Hc H.
  destruct (Z.eq_dec (lastFilledWord (this w)) (currentWord w)) as [E | E].
  - rewrite writeFrame_reject in H by assumption. discriminate.
  - destruct (writeFrame_accepts s w Hw E)
      as [w1 [H1 [Hl [Hs1 [Hc1 [Hw1 [_ [Hm [_ [_ Hlog]]]]]]]]]].
    rewrite H1 in H. injection H as <-.
    rewrite Hst in *.
    rewrite lor_bytes in Hlog by apply sample_code_range.
    repeat split; try assumption.
    rewrite Hm. apply store_neq. consts. lia.
Qed.

Lemma stereo_log_length (data : list Z) (n : nat) :
  forall c j, length (stereo_log data c j n) = n.
Proof.
  induction n as [| n IH]; intros c j; cbn [stereo_log length];
    [reflexivity | rewrite IH; reflexivity].
Qed.

Lemma stereo_log_nth (data : list Z) (n : nat) :
  forall c j k, 0 <= c < totalSampleWords -> (k < n)%nat ->
    nth k (stereo_log data c j n) (0, 0)
    = ((c + Z.of_nat k) mod totalSampleWords,
       ring_word (sample_code (data_16 data ((j + Z.of_nat k) * 2)))
                 (sample_code (data_16 data ((j + Z.of_nat k) * 2 + 1)))).
Proof.
  induction n as [| n IH]; intros c j k Hc Hk; [lia |].
  cbn [stereo_log]. destruct k as [| k]; cbn [nth].
  - rewrite !Z.add_0_r. rewrite Z.mod_small by assumption. reflexivity.
  - destruct (next_slot_ok c Hc) as [Hn Hadv].
    rewrite IH by (try assumption; lia).
    rewrite Hadv by lia.
    rewrite Nat2Z.inj_succ. unfold Z.succ.
    replace (j + 1 + Z.of_nat k) with (j + (Z.of_nat k + 1)) by lia.
    replace (c + (1 + Z.of_nat k)) with (c + (Z.of_nat k + 1)) by lia.
    reflexivity.
Qed.

Section Timing.
Variable ulp_ticks : Z -> nat.

(** The frame loop of [write] in stereo mode stores one ring word per
    frame, in consecutive slots. *)
Lemma write_frames_stereo (fuel : nat) (data : list Z) (frameSize : Z) (n : nat) :
  forall j result w r w',
    stereoOutput (this w) = true -> channels (cfg (this w)) = 2 ->
    waitingOddSample (this w) = true -> cursor_ok (this w) ->
    write_frames ulp_ticks fuel data frameSize n j result w = Ret (r, w') ->
    ring_log w'
    = ring_log w ++ stereo_log data (lastFilledWord (this w)) j n /\
    lastFilledWord (this w')
    = (lastFilledWord (this w) + Z.of_nat n) mod totalSampleWords /\
    waitingOddSample (this w') = true /\ stereoOutput (this w') = true.
Proof.
  induction n as [| n IH]; intros j result w r w' Hst Hch Hw Hc H;
    cbn [write_frames stereo_log] in *.
  - apply Ret_inj in H. injection H as _ <-.
    rewrite app_nil_r, Z.add_0_r, Z.mod_small by assumption. auto.
  - rewrite Hst, Hch in H.
    destruct (write_blocking ulp_ticks fuel _ w) as [w1 | |] eqn:Hb;
      try discriminate.
    destruct (write_blocking_ret _ _ _ _ _ Hb) as [w0 [Ht [Hl Hwf]]].
    destruct (writeFrame_true_stereo _ _ _
                ltac:(rewrite Ht; exact Hst) ltac:(rewrite Ht; exact Hw)
                ltac:(rewrite Ht; exact Hc) Hwf)
      as [Hlog [Hcur [Hst1 [Hw1 [Hcfg1 _]]]]].
    cbn [fst snd] in Hlog. rewrite Ht in Hlog, Hcur, Hcfg1. rewrite Hl in Hlog.
    destruct (next_slot_ok _ Hc) as [Hc1 Hadv].
    destruct (IH _ _ _ _ _ Hst1 ltac:(congruence) Hw1
                ltac:(unfold cursor_ok; rewrite Hcur; exact Hc1) H)
      as [IH1 [IH2 [IH3 IH4]]].
    rewrite IH1, IH2, Hlog, Hcur, <- app_assoc. cbn [app].
    rewrite Hadv by lia.
    repeat split; try assumption. f_equal. lia.
Qed.

(** With room in the ring for every frame, the frame loop returns without
    waiting. *)
Lemma write_frames_stereo_room (fuel : nat) (data : list Z) (frameSize : Z)
    (n : nat) :
  forall j result w,
    stereoOutput (this w) = true -> waitingOddSample (this w) = true ->
    cursor_ok (this w) -> 0 <= currentWord w < totalSampleWords ->
    Z.of_nat n <= (currentWord w - lastFilledWord (this w)) mod totalSampleWords ->
    exists r w',
      write_frames ulp_ticks fuel data frameSize n j result w = Ret (r, w').
Proof.
  induction n as [| n IH]; intros j result w Hst Hw Hc Hcw Hroom;
    cbn [write_frames] in *.
  - eexists. eexists. reflexivity.
  - rewrite (ring_distance _ _ _ Hc Hcw) in Hroom.
    assert (E : lastFilledWord (this w) <> currentWord w).
    { intros E. rewrite E, Z.leb_refl in Hroom. lia. }
    match goal with
    | |- context [write_blocking _ _ ?s w] =>
        destruct (writeFrame_accepts s w Hw E)
          as [w1 [H1 [Hl [Hs1 [Hc1 [Hw1 [_ [Hm [_ [_ _]]]]]]]]]];
        rewrite (write_blocking_now _ _ _ _ _ H1)
    end.
    assert (Hidx : RTC_SLOW_MEM w1 indexAddress = RTC_SLOW_MEM w indexAddress).
    { rewrite Hm. apply store_neq. unfold cursor_ok in Hc. consts. lia. }
    assert (Hcw1 : currentWord w1 = currentWord w)
      by (unfold currentWord; rewrite Hidx; reflexivity).
    assert (Hc' : cursor_ok (this w1)).
    { unfold cursor_ok in *. rewrite Hl.
      destruct (Z.eqb_spec (lastFilledWord (this w) + 1) totalSampleWords);
        consts; lia. }
    assert (Hcwr : 0 <= currentWord w1 < totalSampleWords)
      by (rewrite Hcw1; assumption).
    apply IH; try congruence.
    rewrite (ring_distance _ _ _ Hc' Hcwr).
    rewrite Hcw1, Hl. unfold cursor_ok in Hc.
    destruct (Z.eqb_spec (lastFilledWord (this w) + 1) totalSampleWords);
      destruct (Z.leb_spec (lastFilledWord (this w)) (currentWord w));
      match goal with
      | |- context [?a <=? ?c] => destruct (Z.leb_spec a c)
      end; lia.
Qed.

End Timing.

End StereoFacts.

Import StereoFacts.

(** X6: in a stereo session, whenever [write] returns from [N] frames it
    reports [4 * N] bytes and has stored exactly [N] ring words, one per
    frame and in frame order, in consecutive slots from the write cursor on
    (wrapping at the end of the ring): frame [k] goes to slot
    [(cursor + k) mod 1003] with the code of its left sample in the low byte
    and the code of its right sample in the high byte; the cursor ends [N]
    slots further.

    The words are stored in shared memory: word [k] is in [RTC_SLOW_MEM] in
    its slot when the call has consumed frames [0 .. k], that is, in the
    state in which [write] of those frames returns; in particular the last
    word is there when [write] returns.

    [write] does return, without waiting, when the distance to the observed
    index leaves room for the [N] words; all [N] words are then in
    [RTC_SLOW_MEM] in their slots, no other word of shared memory has
    changed, and the coprocessor and the outputs are as they were. *)
Theorem stereo_frames_are_stored_in_order
    (ulp_ticks : Z -> nat) (data : list Z) (N : nat) (w : world) :
  stereoOutput (this w) = true -> channels (cfg (this w)) = 2 ->
  waitingOddSample (this w) = true -> cursor_ok (this w) ->
  Z.of_nat N < 2 ^ 29 ->
  let slot k := bufferStart
                + (lastFilledWord (this w) + Z.of_nat k) mod totalSampleWords in
  let word k := ring_word (sample_code (data_16 data (Z.of_nat (2 * k))))
                          (sample_code (data_16 data (Z.of_nat (2 * k + 1)))) in
  (forall fuel r w',
     write ulp_ticks fuel data (4 * Z.of_nat N) w = Ret (r, w') ->
     r = 4 * Z.of_nat N /\
     lastFilledWord (this w')
     = (lastFilledWord (this w) + Z.of_nat N) mod totalSampleWords /\
     (exists new,
        ring_log w' = ring_log w ++ new /\
        length new = N /\
        forall k, (k < N)%nat ->
          nth k new (0, 0)
          = ((lastFilledWord (this w) + Z.of_nat k) mod totalSampleWords,
             word k)) /\
     (forall k, (k < N)%nat ->
        exists rk wk,
          write ulp_ticks fuel data (4 * Z.of_nat (k + 1)) w = Ret (rk, wk) /\
          RTC_SLOW_MEM wk (slot k) = word k) /\
     ((1 <= N)%nat -> RTC_SLOW_MEM w' (slot (N - 1)%nat) = word (N - 1)%nat)) /\
  (0 <= currentWord w < totalSampleWords ->
   Z.of_nat N <= (currentWord w - lastFilledWord (this w)) mod totalSampleWords ->
   forall fuel, exists r w',
     write ulp_ticks fuel data (4 * Z.of_nat N) w = Ret (r, w') /\
     (forall k, (k < N)%nat -> RTC_SLOW_MEM w' (slot k) = word k) /\
     (forall a, (forall k, (k < N)%nat -> a <> slot k) ->
                RTC_SLOW_MEM w' a = RTC_SLOW_MEM w a) /\
     cop (hw w') = cop (hw w) /\ dac (hw w') = dac (hw w)).
Proof.
  intros Hst Hch Hw Hc HN slot word.
  assert (Hunf : forall n fuel, (n <= N)%nat ->
             write ulp_ticks fuel data (4 * Z.of_nat n) w
             = write_frames ulp_ticks fuel data 4 n 0 0 w).
  { intros n fuel Hn. unfold write. cbv zeta. rewrite Hch.
    change (to_int32 (2 * 2)) with 4. change (uint32 4) with 4.
    cbn [Z.eqb].
    unfold uint32. rewrite Z.mod_small by lia.
    replace (4 * Z.of_nat n / 4) with (Z.of_nat n)
      by (rewrite Z.mul_comm, Z.div_mul; lia).
    rewrite to_int32_small by lia. rewrite Nat2Z.id. reflexivity. }
  assert (Hword : forall j k,
            j = Z.of_nat k ->
            ring_word (sample_code (data_16 data ((0 + j) * 2)))
                      (sample_code (data_16 data ((0 + j) * 2 + 1)))
            = word k).
  { intros j k ->. unfold word. f_equal; f_equal; f_equal; lia. }
  split.
  - intros fuel r w' H. rewrite Hunf in H by lia.
    destruct (write_frames_result ulp_ticks fuel data 4 N 0 0 w r w'
                ltac:(lia) H) as [Hr _].
    destruct (write_frames_stereo _ _ _ _ _ _ _ _ _ _ Hst Hch Hw Hc H)
      as [Hlog [Hcur _]].
    split; [ | split; [exact Hcur | split; [ | split]]].
    + rewrite Hr. unfold uint32. rewrite Z.mod_small; lia.
    + exists (stereo_log data (lastFilledWord (this w)) 0 N).
      split; [exact Hlog | split; [apply stereo_log_length |]].
      intros k Hk. rewrite stereo_log_nth by assumption.
      rewrite Z.add_0_l. unfold word.
      replace (Z.of_nat (2 * k)) with (Z.of_nat k * 2) by lia.
      replace (Z.of_nat (2 * k + 1)) with (Z.of_nat k * 2 + 1) by lia.
      reflexivity.
    + intros k Hk.
      destruct (write_frames_prefix ulp_ticks fuel data 4 (k + 1) N 0 0
                  w r w' ltac:(lia) H) as [rk [wk Hwk]].
      exists rk, wk. split; [rewrite Hunf by lia; exact Hwk |].
      destruct (write_frames_stereo_stores _ _ _ _ _ _ _ _ _ _
                  Hst Hch Hw Hc Hwk) as [_ [_ [_ [_ Hmem]]]].
      specialize (Hmem ltac:(lia)).
      unfold slot. replace (Z.of_nat k) with (Z.of_nat (k + 1) - 1) at 1 by lia.
      rewrite Hmem. apply Hword. lia.
    + intros HN1.
      destruct (write_frames_stereo_stores _ _ _ _ _ _ _ _ _ _
                  Hst Hch Hw Hc H) as [_ [_ [_ [_ Hmem]]]].
      specialize (Hmem HN1).
      unfold slot. replace (Z.of_nat (N - 1)) with (Z.of_nat N - 1) at 1 by lia.
      rewrite Hmem. apply Hword. lia.
  - intros Hcw Hroom fuel.
    destruct (write_frames_stereo_now ulp_ticks fuel data 4 N 0 0 w
                Hst Hch Hw Hc Hcw Hroom)
      as [r [w' [H [Hwords [Hframe [Hcop Hdac]]]]]].
    exists r, w'. split; [rewrite Hunf by lia; exact H |].
    split; [ | split; [ | split; assumption]].
    + intros k Hk. unfold slot. rewrite Hwords by lia. apply Hword.
      reflexivity.
    + intros a Ha. apply Hframe. intros k Hk.
      replace k with (Z.of_nat (Z.to_nat k)) by lia.
      apply Ha. lia.
Qed.

Lemma stereo_frames_are_stored_in_order_witness :
  exists r w' new,
    write four_per_ms 0 [0; 0; 255; 127; 0; 128; 0; 64] 8 stereo_after_10
    = Ret (r, w') /\
    r = 8 /\
    ring_log w' = ring_log stereo_after_10 ++ new /\
    length new = 2%nat /\
    nth 1 new (0, 0) = (1, ring_word 0 192) /\
    RTC_SLOW_MEM w' bufferStart = ring_word 128 255 /\
    RTC_SLOW_MEM w' (bufferStart + 1) = ring_word 0 192 /\
    RTC_SLOW_MEM w' (bufferStart + 2)
    = RTC_SLOW_MEM stereo_after_10 (bufferStart + 2).
Proof.
  pose proof (stereo_frames_are_stored_in_order four_per_ms
                [0; 0; 255; 127; 0; 128; 0; 64] 2 stereo_after_10
                ltac:(vm_compute; reflexivity) ltac:(vm_compute; reflexivity)
                ltac:(vm_compute; reflexivity)
                ltac:(vm_compute; split; [discriminate | reflexivity])
                ltac:(vm_compute; reflexivity))
    as H.
  cbv zeta in H. destruct H as [Hret Hroom].
  destruct (Hroom ltac:(vm_compute; split; [discriminate | reflexivity])
                  ltac:(vm_compute; discriminate) 0%nat)
    as [r [w' [Hw [Hmem [Hframe _]]]]].
  destruct (Hret _ _ _ Hw) as [Hr [_ [[new [Hlog [Hlen Hnth]]] _]]].
  assert (Hslot : forall k,
            bufferStart
            + (lastFilledWord (this stereo_after_10) + Z.of_nat k)
              mod totalSampleWords
            = bufferStart + Z.of_nat k mod totalSampleWords).
  { intros k.
    replace (lastFilledWord (this stereo_after_10)) with 0
      by (vm_compute; reflexivity).
    reflexivity. }
  exists r, w', new.
  split; [exact Hw | split; [exact Hr | split; [exact Hlog |]]].
  split; [exact Hlen | split; [ | split; [ | split]]].
  - rewrite (Hnth 1%nat ltac:(repeat constructor)).
    vm_compute. reflexivity.
  - pose proof (Hmem 0%nat ltac:(repeat constructor)) as H0.
    rewrite Hslot in H0. exact H0.
  - pose proof (Hmem 1%nat ltac:(repeat constructor)) as H1.
    rewrite Hslot in H1. exact H1.
  - apply Hframe. intros k Hk. rewrite Hslot.
    assert (Hk' : (k = 0 \/ k = 1)%nat) by lia.
    destruct Hk' as [-> | ->]; vm_compute; discriminate.
Defined.

(* ---------------------------------------------------------------------- *)
(** ** [write] after [end], and [availableForWrite] *)

Module EndFacts.


Section Timing.
Variable ulp_ticks : Z -> nat.


End Timing.

End EndFacts.

Import EndFacts.





(* ---------------------------------------------------------------------- *)
(** ** The running session *)

Module PlayFacts.

Lemma st_word_low (p v : Z) (r : reg) :
  0 <= v < 65536 -> low_bits 16 (st_word p r v) = v.
Proof.
  intros Hv. unfold st_word, low_bits. cbn [pack].
  rewrite (Z.mod_small v) by lia.
  match goal with
  | |- (?a + ?b * ?x) mod ?b = _ => rewrite (Z.mul_comm b x), Z_mod_plus_full
  end.
  apply Z.mod_small. lia.
Qed.

Ltac dead := intros; exfalso; consts; lia.

(** Splits the effect of a step into its parts and closes the ones that
    hold because the program counter is elsewhere or nothing changed. *)
Ltac settle Hword :=
  project;
  match goal with
  | Hprog : program_at _ _ |- _ => clear Hprog
  end;
  repeat match goal with
    | |- _ /\ _ => split
    end;
  try first [ assumption
            | left; reflexivity
            | dead
            | intros; apply Hword; consts; lia ].

Lemma loop_step_effect (P : Z -> Prop) (t1 t2 : Z) (m : machine) :
  P 0x8080 ->
  installed t1 t2 (mem m) -> looping m ->
  silence_ready (cop m) -> dispatch_ok (cop m) ->
  word_inv P (cop m) -> ring_all P (mem m) ->
  silence_ready (cop (ulp_step m)) /\
  dispatch_ok (cop (ulp_step m)) /\
  word_inv P (cop (ulp_step m)) /\
  ring_all P (mem (ulp_step m)) /\
  (mem (ulp_step m) indexAddress = mem m indexAddress \/
   index_cell_ok (mem (ulp_step m) indexAddress)) /\
  (dac (ulp_step m) = dac m \/
   exists v, P v /\ 0 <= v < 65536 /\
     (dac (ulp_step m) = pad_write t1 (v mod 256) (dac m) \/
      dac (ulp_step m) = pad_write t2 (v / 256) (dac m))).
Proof.
  intros HP [[dt [dt2 Hprog]] [Htab [Ht1 Ht2]]] [Hrun Hinv] Hsil Hdis Hword Hring.
  unfold silence_ready, dispatch_ok, word_inv in *.
  destruct Hdis as [D6 [D7 [D8 [DT1 [D12 [D13 DT2]]]]]].
  destruct Hinv.
  - (* 0 *)
    rename H into Hpc.
    fetch 0%nat (I_MOVI R3 0). rewrite exec_MOVI.
    settle Hword. 
  - destruct Hpc as [Hpc | Hpc].
    + fetch 1%nat (I_DELAY dt). rewrite exec_DELAY.
      settle Hword. 
    + fetch 2%nat (I_MOVI R0 0). rewrite exec_MOVI.
      settle Hword. 
  - destruct Hpc as [Hpc | [Hpc | [Hpc | [Hpc | [Hpc | [Hpc | Hpc]]]]]].
    + fetch 3%nat (I_ST R0 R3 indexAddress). rewrite exec_ST.
      project. rewrite H3.
      change (0 + indexAddress mod 2 ^ 11 <? RTC_SLOW_MEM_WORDS) with true.
      cbv iota. change (0 + indexAddress mod 2 ^ 11) with indexAddress.
      settle Hword. 
      * intros a Ha. rewrite store_neq by (consts; lia). apply Hring, Ha.
      * right. rewrite store_eq. right. left.
        exists (r0 (cop m)). rewrite Hpc. auto.
    + fetch 4%nat (I_LD R1 R0 bufferStart). rewrite exec_LD.
      project. change (bufferStart mod 2 ^ 11) with 21.
      assert (Hlt : (r0 (cop m) + 21 <? RTC_SLOW_MEM_WORDS) = true)
        by (apply Z.ltb_lt; consts; lia).
      rewrite Hlt.
      settle Hword. 
      intros _. apply Hring. consts. lia.
    + fetch 14%nat (I_MOVI R1 0x8080). rewrite exec_MOVI.
      settle Hword. 
      * reflexivity.
      * intros _. exact HP.
    + fetch 15%nat (I_ST R1 R0 indexAddress). rewrite exec_ST.
      project. change (indexAddress mod 2 ^ 11) with 20.
      assert (Hlt : (r0 (cop m) + 20 <? RTC_SLOW_MEM_WORDS) = true)
        by (apply Z.ltb_lt; consts; lia).
      rewrite Hlt.
      settle Hword. 
      * intros a Ha. unfold store.
        destruct (Z.eqb_spec a (r0 (cop m) + 20)); [ | apply Hring, Ha].
        rewrite (Hsil Hpc), st_word_low by lia. exact HP.
      * destruct (Z.eq_dec (r0 (cop m)) 0) as [E | E].
        -- right. rewrite E. change (0 + 20) with indexAddress.
           rewrite store_eq, Hpc, (Hsil Hpc). right. right. reflexivity.
        -- left. apply store_neq. consts. lia.
    + fetch 16%nat (I_ADDI R0 R0 1). rewrite exec_ADDI.
      settle Hword. 
    + fetch 18%nat (I_DELAY (uint32 (dt + 2))). rewrite exec_DELAY.
      settle Hword. 
    + fetch 19%nat (I_BXI 3). rewrite exec_BXI.
      change (3 mod 2 ^ 11) with 3.
      settle Hword. 
  - destruct Hpc as [Hpc | [Hpc | Hpc]].
    + fetch 5%nat (I_ANDI R2 R1 0x00ff). rewrite exec_ANDI.
      project. change (0x00ff mod 2 ^ 16) with 0xff. rewrite land_ff.
      settle Hword. 
      reflexivity.
    + fetch 9%nat (I_DELAY dt2). rewrite exec_DELAY.
      settle Hword. 
    + fetch 10%nat (I_ANDI R2 R1 0xff00). rewrite exec_ANDI.
      settle Hword. 
  - fetch 6%nat (I_LSHI R2 R2 1). rewrite exec_LSHI.
    project. change (1 mod 2 ^ 16) with 1.
    rewrite Z.shiftl_mul_pow2 by lia. rewrite uint16_small by lia.
    settle Hword. 
      intros _. rewrite (D6 Hpc). change (2 ^ 1) with 2. lia.
  - fetch 11%nat (I_RSHI R2 R2 (8 - 1)). rewrite exec_RSHI.
    project. change ((8 - 1) mod 2 ^ 16) with 7.
    rewrite H2, high_byte_table_offset by assumption.
    settle Hword. 
      reflexivity.
  - destruct (Htab k Hk) as [Hw1 [Hb1 [Hw2 Hb2]]].
    destruct Hpc as [[Hpc Hr] | [[Hpc Hr] | [Hpc | [Hpc | [[Hpc Hr] | [[Hpc Hr] | [Hpc | Hpc]]]]]]].
    + fetch 7%nat (I_ADDI R2 R2 dacTableStart1). rewrite exec_ADDI.
      project. rewrite Hr. change (dacTableStart1 mod 2 ^ 16) with dacTableStart1.
      rewrite uint16_small by (consts; lia).
      settle Hword. 
      intros _. pose proof (D7 Hpc). lia.
    + fetch 8%nat (I_BXR R2). rewrite exec_BXR.
      settle Hword. 
      intros _. left. pose proof (D8 Hpc). lia.
    + rewrite (step_fetch m (I_WR_REG t1 19 26 k) Hrun);
        [ | consts; lia | rewrite Hpc; exact Hw1 ].
      rewrite exec_WR_DAC by assumption.
      change (2 ^ 8) with 256. rewrite (Z.mod_small k) by lia.
      settle Hword. 
      * intros _. destruct (DT1 ltac:(consts; lia)); [right | exfalso]; lia.
      * right. exists (r1 (cop m)).
        split; [apply Hword; consts; lia | split; [assumption | left]].
        f_equal. destruct (DT1 ltac:(consts; lia)); lia.
    + rewrite (step_fetch m (I_BXI 9) Hrun);
        [ | consts; lia | rewrite Hpc; exact Hb1 ].
      rewrite exec_BXI. change (9 mod 2 ^ 11) with 9.
      settle Hword. 
    + fetch 12%nat (I_ADDI R2 R2 dacTableStart2). rewrite exec_ADDI.
      project. rewrite Hr. change (dacTableStart2 mod 2 ^ 16) with dacTableStart2.
      rewrite uint16_small by (consts; lia).
      settle Hword. 
      intros _. pose proof (D12 Hpc). lia.
    + fetch 13%nat (I_BXR R2). rewrite exec_BXR.
      settle Hword. 
      intros _. left. pose proof (D13 Hpc). lia.
    + rewrite (step_fetch m (I_WR_REG t2 19 26 k) Hrun);
        [ | consts; lia | rewrite Hpc; exact Hw2 ].
      rewrite exec_WR_DAC by assumption.
      change (2 ^ 8) with 256. rewrite (Z.mod_small k) by lia.
      settle Hword. 
      * intros _. destruct (DT2 ltac:(consts; lia)); [right | exfalso]; lia.
      * right. exists (r1 (cop m)).
        split; [apply Hword; consts; lia | split; [assumption | right]].
        f_equal. destruct (DT2 ltac:(consts; lia)); lia.
    + rewrite (step_fetch m (I_BXI 14) Hrun);
        [ | consts; lia | rewrite Hpc; exact Hb2 ].
      rewrite exec_BXI. change (14 mod 2 ^ 11) with 14.
      settle Hword. 
  - fetch 17%nat (I_BGE (-16) totalSampleWords).
    rewrite exec_BGE_back by lia.
    change (totalSampleWords mod 2 ^ 16) with totalSampleWords.
    change (Z.abs (-16) mod 2 ^ 7) with 16. rewrite Hpc.
    destruct (Z.leb_spec totalSampleWords (r0 (cop m))) as [Hge | Hlt].
    + settle Hword. 
    + settle Hword. 
Qed.

End PlayFacts.

Import PlayFacts.

Module SessionFacts.

Lemma index_cell_keeps (v v' : Z) :
  index_cell_ok v -> v' = v \/ index_cell_ok v' -> index_cell_ok v'.
Proof. intros H [-> | H']; assumption. Qed.

(** Any number of steps of the control program: what [loop_step_effect]
    gives for one step, with an invariant [Q] of the outputs that every
    write of a byte of a [P] word keeps. *)
Lemma loop_steps_effect (P : Z -> Prop) (Q : dacs -> Prop) (t1 t2 : Z) (n : nat) :
  P 0x8080 ->
  (forall v d, P v -> 0 <= v < 65536 -> Q d ->
               Q (pad_write t1 (v mod 256) d) /\ Q (pad_write t2 (v / 256) d)) ->
  forall m,
    installed t1 t2 (mem m) -> looping m ->
    silence_ready (cop m) -> dispatch_ok (cop m) ->
    word_inv P (cop m) -> ring_all P (mem m) ->
    index_cell_ok (mem m indexAddress) -> Q (dac m) ->
    silence_ready (cop (ulp_steps n m)) /\
    dispatch_ok (cop (ulp_steps n m)) /\
    word_inv P (cop (ulp_steps n m)) /\
    ring_all P (mem (ulp_steps n m)) /\
    index_cell_ok (mem (ulp_steps n m) indexAddress) /\
    Q (dac (ulp_steps n m)).
Proof.
  intros HP HQ.
  induction n as [| n IH]; intros m Hinst Hloop Hs Hd Hw Hr Hi Hq;
    cbn [ulp_steps]; [auto 10 |].
  destruct (loop_step t1 t2 m Hinst Hloop) as [Hloop' [Hmem _]].
  destruct (loop_step_effect P t1 t2 m HP Hinst Hloop Hs Hd Hw Hr)
    as [Hs' [Hd' [Hw' [Hr' [Hi' Hq']]]]].
  apply IH; try assumption.
  - apply (installed_frame _ _ (mem m)); [assumption |].
    intros a Ha. apply Hmem. consts. lia.
  - apply (index_cell_keeps _ _ Hi Hi').
  - destruct Hq' as [-> | [v [Hv [Hrange [-> | ->]]]]];
      [assumption | apply HQ | apply HQ]; assumption.
Qed.

(** The coprocessor is in the program or in a dispatch table. *)
Lemma loop_inv_pc (u : ulp_state) :
  loop_inv u ->
  0 <= pc u < opcodeCount \/ dacTableStart2 <= pc u < RTC_SLOW_MEM_WORDS.
Proof.
  intros []; consts; try lia.
Qed.

(** The index the host derives from a value of the index cell. *)
Lemma observed_index (v : Z) :
  index_cell_ok v ->
  let cw := Z.shiftr (Z.land v 0xffff) 1 in
  0 <= cw <= 501 \/ cw = 16448.
Proof.
  intros [-> | [[i [Hi ->]] | ->]]; cbv zeta.
  - left. cbn. lia.
  - left. rewrite land_ffff.
    change 65536 with (2 ^ 16).
    fold (low_bits 16 (st_word 3 R3 i)).
    rewrite st_word_low by (consts; lia).
    rewrite Z.shiftr_div_pow2 by lia. change (2 ^ 1) with 2.
    split; [apply Z.div_pos; lia |].
    assert (i / 2 < 502) by (apply Z.div_lt_upper_bound; consts; lia). lia.
  - right. vm_compute. reflexivity.
Qed.

Lemma session_inv_step (t : Z) (w w' : world) :
  session_inv t w -> session_step w w' ->
  session_inv t w' /\
  activeDACs (this w') = activeDACs (this w) /\
  stereoOutput (this w') = stereoOutput (this w) /\
  cfg (this w') = cfg (this w) /\
  dac_frame t t (dac (hw w)) (dac (hw w')).
Proof.
  intros [Hinst [Hloop [Hs [Hd [Hi Hc]]]]] Hstep.
  destruct Hstep as [s w | bytes w | d w | n w].
  - destruct (writeFrame_frame s w Hc) as [Hc' [Hmem [Hcop Hdac]]].
    pose proof (writeFrame_cfg s w) as [Hcfg [Hst [_ Hact]]].
    assert (Hinst' : installed t t (RTC_SLOW_MEM (snd (writeFrame s w)))).
    { apply (installed_frame _ _ (RTC_SLOW_MEM w)); [assumption |].
      intros a Ha. apply Hmem. consts. lia. }
    assert (Hloop' : looping (hw (snd (writeFrame s w))))
      by (unfold looping; rewrite Hcop; exact Hloop).
    assert (Hi' : index_cell_ok (RTC_SLOW_MEM (snd (writeFrame s w)) indexAddress))
      by (rewrite Hmem by (consts; lia); assumption).
    unfold session_inv. rewrite Hcop, Hdac.
    split; [auto 10 |].
    split; [assumption | split; [assumption | split; [assumption |]]].
    apply dac_frame_refl.
  - unfold session_inv. cbn [this set_this hw].
    split; [auto 10 |].
    split; [reflexivity | split; [reflexivity | split; [reflexivity |]]].
    apply dac_frame_refl.
  - unfold session_inv. cbn [this set_this hw].
    split; [auto 10 |].
    split; [reflexivity | split; [reflexivity | split; [reflexivity |]]].
    apply dac_frame_refl.
  - destruct (loop_steps t t n (hw w) Hinst Hloop) as [Hi' [Hl' [_ [_ Hfr]]]].
    destruct (loop_steps_effect (fun _ => True) (fun _ => True) t t n I
                ltac:(auto) (hw w) Hinst Hloop Hs Hd
                ltac:(intros _; exact I) ltac:(intros a _; exact I) Hi I)
      as [Hs' [Hd' [_ [_ [Hidx _]]]]].
    unfold session_inv, RTC_SLOW_MEM. cbn [this set_hw hw].
    split; [auto 10 |].
    split; [reflexivity | split; [reflexivity | split; [reflexivity |]]].
    exact Hfr.
Qed.

Lemma session_inv_run (t : Z) (w w' : world) :
  session_run w w' -> session_inv t w ->
  session_inv t w' /\
  activeDACs (this w') = activeDACs (this w) /\
  stereoOutput (this w') = stereoOutput (this w) /\
  cfg (this w') = cfg (this w) /\
  dac_frame t t (dac (hw w)) (dac (hw w')).
Proof.
  intros Hrun. induction Hrun as [w | w1 w2 w3 Hrun IH Hstep]; intros Hinv.
  - split; [assumption |].
    split; [reflexivity | split; [reflexivity | split; [reflexivity |]]].
    apply dac_frame_refl.
  - destruct (IH Hinv) as [Hinv2 [Ha [Hst [Hcfg Hfr]]]].
    destruct (session_inv_step t _ _ Hinv2 Hstep) as [Hinv3 [Ha3 [Hst3 [Hcfg3 Hfr3]]]].
    split; [assumption |].
    split; [congruence |]. split; [congruence |]. split; [congruence |].
    apply (dac_frame_trans _ _ _ _ _ Hfr Hfr3).
Qed.

Lemma session_run_trans (w1 w2 w3 : world) :
  session_run w1 w2 -> session_run w2 w3 -> session_run w1 w3.
Proof.
  intros H12 H23. induction H23 as [| w2 w3 w4 _ IH Hstep]; [assumption |].
  apply (run_step _ w3); [apply IH; assumption | assumption].
Qed.

Section Timing.
Variable ulp_ticks : Z -> nat.

Lemma write_blocking_run (fuel : nat) (s : Z * Z) :
  forall w w', write_blocking ulp_ticks fuel s w = Ret w' -> session_run w w'.
Proof.
  induction fuel as [| fuel IH]; intros w w' H; cbn [write_blocking] in H.
  - destruct (writeFrame s w) as [[] w1] eqn:E; [ | discriminate].
    apply Ret_inj in H. subst w1.
    apply (run_step _ w); [apply run_done |].
    replace w' with (snd (writeFrame s w)) by (rewrite E; reflexivity).
    apply host_writes.
  - destruct (writeFrame s w) as [[] w1] eqn:E.
    + apply Ret_inj in H. subst w1.
      apply (run_step _ w); [apply run_done |].
      replace w' with (snd (writeFrame s w)) by (rewrite E; reflexivity).
      apply host_writes.
    + apply writeFrame_rejected_same in E. destruct E as [-> _].
      apply (session_run_trans _ (delay ulp_ticks 20 w)); [ | apply IH, H].
      apply (run_step _ w); [apply run_done | apply cop_runs].
Qed.

Lemma write_frames_run (fuel : nat) (data : list Z) (frameSize : Z) (n : nat) :
  forall j result w r w',
    write_frames ulp_ticks fuel data frameSize n j result w = Ret (r, w') ->
    session_run w w'.
Proof.
  induction n as [| n IH]; intros j result w r w' H; cbn [write_frames] in H.
  - apply Ret_inj in H. injection H as _ <-. apply run_done.
  - destruct (write_blocking ulp_ticks fuel _ w) as [w1 | |] eqn:Hb;
      try discriminate.
    apply (session_run_trans _ w1);
      [exact (write_blocking_run _ _ _ _ Hb) | exact (IH _ _ _ _ _ H)].
Qed.

Lemma write_run (fuel : nat) (data : list Z) (len : Z) (w : world)
    (r : Z) (w' : world) :
  write ulp_ticks fuel data len w = Ret (r, w') -> session_run w w'.
Proof.
  unfold write. cbv zeta.
  destruct (uint32 (to_int32 (channels (cfg (this w)) * 2)) =? 0);
    [discriminate |].
  apply write_frames_run.
Qed.

(** [begin] is [setup_start] followed by some steps of the coprocessor. *)
Lemma begin_split (fuel : nat) (info : AudioInfo) (w w' : world) :
  begin ulp_ticks fuel info w = Ret (true, w') ->
  exists w1 n,
    setup_start (set_this (begin_config info (this w)) w) = Ret w1 /\
    hw w' = ulp_steps n (hw w1) /\ this w' = this w1 /\
    ring_log w' = ring_log w1.
Proof.
  unfold begin. cbv zeta.
  destruct (Z.eqb_spec (bits_per_sample info) 16) as [Hbits | Hbits];
    cbn [negb]; [ | discriminate].
  unfold setup.
  destruct (setup_start _) as [w1 | |] eqn:Hstart; try discriminate.
  destruct (wait_index ulp_ticks fuel w1) as [w2 | |] eqn:Hwait;
    try discriminate.
  intros H. injection H as <-.
  destruct (wait_index_ret _ _ _ _ Hwait) as [[n Hn] [Ht [Hl _]]].
  exists w1, n. auto.
Qed.

(** A successful [begin] establishes the session invariant. *)
Lemma begin_session_inv (fuel : nat) (info : AudioInfo) (w w' : world) :
  begin ulp_ticks fuel info w = Ret (true, w') ->
  cursor_ok (this w) ->
  session_inv (table_reg (activeDACs (begin_config info (this w)))) w'.
Proof.
  intros Hb Hc.
  destruct (begin_split _ _ _ _ Hb) as [w1 [n [Hstart [Hhw [Hthis _]]]]].
  destruct (setup_start_ok _ _ Hstart)
    as [Ho [_ [_ [[dt [dt2 Hmem]] [Hcop _]]]]].
  cbv zeta in Ho. cbn [this set_this] in Ho, Hmem.
  pose proof (begin_config_active info (this w)) as Hact.
  set (o := begin_config info (this w)) in *.
  set (t := table_reg (activeDACs o)).
  assert (Hinst1 : installed t t (mem (hw w1))).
  { unfold RTC_SLOW_MEM in Hmem. rewrite Hmem.
    apply setup_image_installed. assumption. }
  assert (Hloop1 : looping (hw w1)).
  { split; rewrite Hcop; [reflexivity | apply at_entry; reflexivity]. }
  destruct (loop_steps t t n (hw w1) Hinst1 Hloop1) as [Hi' [Hl' _]].
  destruct (loop_steps_effect (fun _ => True) (fun _ => True) t t n I
              ltac:(auto) (hw w1) Hinst1 Hloop1)
    as [Hs' [Hd' [_ [_ [Hidx _]]]]]; try exact I.
  - unfold silence_ready. rewrite Hcop. cbn [pc]. discriminate.
  - unfold dispatch_ok. rewrite Hcop. cbn [pc].
    repeat split; intros; exfalso; consts; lia.
  - intros _. exact I.
  - intros a _. exact I.
  - unfold RTC_SLOW_MEM in Hmem. rewrite Hmem, setup_image_index. left.
    reflexivity.
  - assert (Hc' : cursor_ok (this w')).
    { unfold cursor_ok. rewrite Hthis, Ho. unfold o, begin_config.
      destruct (negb _); cbn [lastFilledWord set_waitingOddSample]; apply Hc. }
    unfold session_inv, RTC_SLOW_MEM. rewrite Hhw. auto 10.
Qed.

End Timing.

End SessionFacts.

Import SessionFacts.

(** X9: a session keeps the coprocessor in its program.  From a successful
    [begin] (on an object whose write cursor is in the ring) on, through any
    interleaving of frames pushed by the host, changes of the threshold or of
    the mono selection, and instructions retired by the coprocessor: the
    coprocessor is running (never halted, never stuck), its program counter
    is in the 20 program words or in a dispatch table (it never executes the
    index cell or ring data), the program and both tables are intact, the
    write cursor is in the ring, and the output enables are as [begin] left
    them.  Everything [write] does is such an interleaving, so all this holds
    again when [write] returns. *)
Theorem session_keeps_the_coprocessor_in_its_program
    (ulp_ticks : Z -> nat) (fuel : nat) (info : AudioInfo) (w w1 w2 : world) :
  begin ulp_ticks fuel info w = Ret (true, w1) ->
  cursor_ok (this w) ->
  session_run w1 w2 ->
  let t := if channels info =? 2 then RTC_IO_PAD_DAC1_REG
           else mono_reg (selected_mono_dac (this w)) in
  status (cop (hw w2)) = Running /\
  (0 <= pc (cop (hw w2)) < opcodeCount \/
   dacTableStart2 <= pc (cop (hw w2)) < RTC_SLOW_MEM_WORDS) /\
  installed t t (RTC_SLOW_MEM w2) /\
  cursor_ok (this w2) /\
  dac1_enabled (dac (hw w2)) = dac1_enabled (dac (hw w1)) /\
  dac2_enabled (dac (hw w2)) = dac2_enabled (dac (hw w1)) /\
  (forall fuel' data len r w3,
     write ulp_ticks fuel' data len w2 = Ret (r, w3) -> session_run w1 w3).
Proof.
  intros Hb Hc Hrun t.
  pose proof (begin_session_inv _ _ _ _ _ Hb Hc) as Hinv.
  rewrite begin_table_reg in Hinv. fold t in Hinv.
  destruct (session_inv_run t _ _ Hrun Hinv)
    as [[Hinst [[Hst Hloop] [_ [_ [_ Hcur]]]]] [_ [_ [_ [He1 [He2 _]]]]]].
  split; [assumption |].
  split; [apply loop_inv_pc; assumption |].
  split; [assumption |].
  split; [assumption |].
  split; [assumption |].
  split; [assumption |].
  intros fuel' data len r w3 Hw.
  apply (session_run_trans _ w2); [assumption |].
  exact (write_run _ _ _ _ _ _ _ Hw).
Qed.

Lemma session_keeps_the_coprocessor_in_its_program_witness :
  status (cop (hw (snd (writeFrame (0, 0) stereo_after_10)))) = Running /\
  cursor_ok (this (snd (writeFrame (0, 0) stereo_after_10))).
Proof.
  assert (Hrun : session_run stereo_session
                   (snd (writeFrame (0, 0) stereo_after_10))).
  { apply (run_step _ stereo_after_10); [ | apply host_writes].
    apply (run_step _ stereo_session); [apply run_done |].
    apply (cop_runs (four_per_ms 53)). }
  destruct (session_keeps_the_coprocessor_in_its_program four_per_ms 4
              defaultConfig fresh_world stereo_session _
              stereo_session_begins
              ltac:(vm_compute; split; [discriminate | reflexivity]) Hrun)
    as [H1 [_ [_ [H4 _]]]].
  split; [exact H1 | exact H4].
Defined.

(** X10: the host halves the index the coprocessor publishes.  Throughout
    a session the word index [writeFrame] derives from the index cell is at
    most 501 (half of a published index below 1003), or 16448 while the cell
    holds the silence word that the pass over slot 0 stores there.  So no
    frame is rejected while the write cursor is in the upper half of the ring
    (502 or above). *)
Theorem observed_index_stays_in_lower_half
    (ulp_ticks : Z -> nat) (fuel : nat) (info : AudioInfo) (w w1 w2 : world) :
  begin ulp_ticks fuel info w = Ret (true, w1) ->
  cursor_ok (this w) ->
  session_run w1 w2 ->
  (0 <= currentWord w2 <= 501 \/ currentWord w2 = 16448) /\
  (502 <= lastFilledWord (this w2) ->
   forall s, fst (writeFrame s w2) = true).
Proof.
  intros Hb Hc Hrun.
  pose proof (begin_session_inv _ _ _ _ _ Hb Hc) as Hinv.
  destruct (session_inv_run _ _ _ Hrun Hinv)
    as [[_ [_ [_ [_ [Hidx Hcur]]]]] _].
  pose proof (observed_index _ Hidx) as Hobs. cbv zeta in Hobs.
  fold (currentWord w2) in Hobs.
  split; [exact Hobs |].
  intros Hhigh s.
  assert (E : lastFilledWord (this w2) <> currentWord w2).
  { unfold cursor_ok in Hcur. consts. lia. }
  destruct (waitingOddSample (this w2)) eqn:Hwait.
  - destruct (writeFrame_accepts s w2 Hwait E) as [w' [-> _]]. reflexivity.
  - rewrite writeFrame_stage by assumption. reflexivity.
Qed.

Lemma observed_index_stays_in_lower_half_witness :
  0 <= currentWord stereo_after_10 <= 501 \/ currentWord stereo_after_10 = 16448.
Proof.
  assert (Hrun : session_run stereo_session stereo_after_10).
  { apply (run_step _ stereo_session); [apply run_done |].
    apply (cop_runs (four_per_ms 53)). }
  exact (proj1 (observed_index_stays_in_lower_half four_per_ms 4
                  defaultConfig fresh_world stereo_session _
                  stereo_session_begins
                  ltac:(vm_compute; split; [discriminate | reflexivity]) Hrun)).
Defined.

Module IdleFacts.

Lemma dac_init_idle (active : Z) (m : machine) :
  outputs_idle active (dac (on_active_dacs active dac_init m)).
Proof.
  unfold outputs_idle, on_active_dacs, dac_init.
  destruct (Z.eqb_spec (Z.land active 1) 0), (Z.eqb_spec (Z.land active 2) 0);
    split; intros; try contradiction; reflexivity.
Qed.

Lemma idle_kept (active : Z) (d : dacs) :
  1 <= active <= 3 -> outputs_idle active d ->
  outputs_idle active (pad_write (table_reg active) 128 d).
Proof.
  intros Ha [H1 H2]. unfold outputs_idle, table_reg, pad_write.
  assert (Hc : active = 1 \/ active = 2 \/ active = 3) by lia.
  destruct Hc as [-> | [-> | ->]]; cbn in *; split; intros; auto;
    contradiction.
Qed.

End IdleFacts.

Import IdleFacts.

(** X11: without writes a session plays silence.  After a successful
    [begin], however many instructions the coprocessor retires, every ring
    slot reads as the silence word 0x8080 and every active output holds the
    idle code 128: both outputs in stereo, the selected output in mono. *)
Theorem idle_session_plays_silence
    (ulp_ticks : Z -> nat) (fuel : nat) (info : AudioInfo) (w w1 : world)
    (n : nat) :
  begin ulp_ticks fuel info w = Ret (true, w1) ->
  let m := ulp_steps n (hw w1) in
  (forall a, in_buffer a -> low_bits 16 (mem m a) = 0x8080) /\
  (channels info = 2 -> dac1_code (dac m) = 128 /\ dac2_code (dac m) = 128) /\
  (channels info <> 2 -> selected_mono_dac (this w) = ULP_DAC1 ->
   dac1_code (dac m) = 128) /\
  (channels info <> 2 -> selected_mono_dac (this w) = ULP_DAC2 ->
   dac2_code (dac m) = 128).
Proof.
  intros Hb m.
  destruct (begin_split _ _ _ _ _ Hb) as [ws [n0 [Hstart [Hhw _]]]].
  destruct (setup_start_ok _ _ Hstart)
    as [_ [_ [_ [[dt [dt2 Hmem]] [Hcop Hdac]]]]].
  cbn [this set_this hw] in Hmem, Hdac.
  pose proof (begin_config_active info (this w)) as Hact.
  set (o := begin_config info (this w)) in *.
  set (t := table_reg (activeDACs o)).
  assert (Hinst1 : installed t t (mem (hw ws))).
  { unfold RTC_SLOW_MEM in Hmem. rewrite Hmem.
    apply setup_image_installed. assumption. }
  assert (Hloop1 : looping (hw ws)).
  { split; rewrite Hcop; [reflexivity | apply at_entry; reflexivity]. }
  assert (Hm : m = ulp_steps (n0 + n) (hw ws))
    by (unfold m; rewrite Hhw, ulp_steps_add; reflexivity).
  destruct (loop_steps_effect (fun v => v = 0x8080)
              (outputs_idle (activeDACs o)) t t (n0 + n) eq_refl)
    with (m := hw ws) as [_ [_ [_ [Hring [_ [Hq1 Hq2]]]]]]; try assumption.
  - intros v d -> _ Hq. change (32896 mod 256) with 128.
    change (32896 / 256) with 128.
    split; apply idle_kept; assumption.
  - unfold silence_ready. rewrite Hcop. cbn [pc]. discriminate.
  - unfold dispatch_ok. rewrite Hcop. cbn [pc].
    repeat split; intros; exfalso; consts; lia.
  - unfold word_inv. rewrite Hcop. cbn [pc]. lia.
  - intros a Ha. unfold RTC_SLOW_MEM in Hmem.
    rewrite Hmem. rewrite (setup_image_silence _ _ _ _ a Ha). reflexivity.
  - unfold RTC_SLOW_MEM in Hmem. rewrite Hmem, setup_image_index. left.
    reflexivity.
  - rewrite Hdac. apply dac_init_idle.
  - rewrite <- Hm in *.
    split; [exact Hring |].
    unfold o, begin_config in Hq1, Hq2. cbn [activeDACs] in Hq1, Hq2.
    split; [ | split].
    + intros Hch. rewrite Hch in *. cbn [Z.eqb Pos.eqb] in *.
      split; [apply Hq1 | apply Hq2]; discriminate.
    + intros Hch Hsel. destruct (Z.eqb_spec (channels info) 2); [contradiction |].
      rewrite Hsel in *. apply Hq1. discriminate.
    + intros Hch Hsel. destruct (Z.eqb_spec (channels info) 2); [contradiction |].
      rewrite Hsel in *. apply Hq2. discriminate.
Qed.

Lemma idle_session_plays_silence_witness :
  dac1_code (dac (ulp_steps 1000 (hw stereo_session))) = 128 /\
  low_bits 16 (mem (ulp_steps 1000 (hw stereo_session)) bufferStart) = 0x8080.
Proof.
  destruct (idle_session_plays_silence four_per_ms 4 defaultConfig fresh_world
              stereo_session 1000 stereo_session_begins)
    as [Hring [Hst _]].
  split.
  - exact (proj1 (Hst eq_refl)).
  - exact (Hring bufferStart
             ltac:(vm_compute; split; [discriminate | reflexivity])).
Defined.

(* ---------------------------------------------------------------------- *)
(** ** One pass of the control program *)

Module PassFacts.

(** The first six instructions of a pass over slot [i]: the low byte of
    the ring word is written to the pad of the first table. *)
Lemma pass_low_byte (t1 t2 : Z) (ram : memory) (d : dacs)
    (i x1 x2 x3 e : Z) (te : bool) :
  installed t1 t2 ram -> 0 <= i < totalSampleWords ->
  let word := low_bits 16 (ram (bufferStart + i)) in
  ulp_steps 6 (mk_machine ram (mk_ulp 4 i x1 x2 x3 Running e te) d)
  = mk_machine ram
      (mk_ulp (dacTableStart1 + word mod 256 * 2 + 1) i word
              (dacTableStart1 + word mod 256 * 2) x3 Running e te)
      (pad_write t1 (word mod 256) d).
Proof.
  intros [[dt [dt2 Hprog]] [Htab [Ht1 Ht2]]] Hi word.
  assert (Hword : 0 <= word < 65536)
    by (unfold word, low_bits; apply Z.mod_pos_bound; lia).
  assert (Hlo : 0 <= word mod 256 < 256) by (apply Z.mod_pos_bound; lia).
  destruct (Htab _ Hlo) as [Hw1 [Hb1 _]].
  run 4%nat (I_LD R1 R0 bufferStart). rewrite exec_LD. norm.
  change (bufferStart mod 2 ^ 11) with bufferStart.
  replace (i + bufferStart <? RTC_SLOW_MEM_WORDS) with true
    by (symmetry; apply Z.ltb_lt; consts; lia).
  rewrite (Z.add_comm i bufferStart). fold word.
  run 5%nat (I_ANDI R2 R1 0x00ff). rewrite exec_ANDI. norm.
  change (0x00ff mod 2 ^ 16) with 0xff. rewrite land_ff.
  run 6%nat (I_LSHI R2 R2 1). rewrite exec_LSHI. norm.
  change (1 mod 2 ^ 16) with 1.
  rewrite Z.shiftl_mul_pow2 by lia. rewrite uint16_small by lia.
  run 7%nat (I_ADDI R2 R2 dacTableStart1). rewrite exec_ADDI. norm.
  change (dacTableStart1 mod 2 ^ 16) with dacTableStart1.
  rewrite uint16_small by (consts; lia).
  replace (word mod 256 * 2 ^ 1 + dacTableStart1)
    with (dacTableStart1 + word mod 256 * 2) by lia.
  run 8%nat (I_BXR R2). rewrite exec_BXR. norm.
  run_table (I_WR_REG t1 19 26 (word mod 256)) Hw1.
  rewrite exec_WR_DAC by assumption. norm.
  rewrite (Z.mod_small (word mod 256)) by lia.
  reflexivity.
Qed.

(** The next seven: the high byte is written to the pad of the second
    table. *)
Lemma pass_high_byte (t1 t2 : Z) (ram : memory) (d : dacs)
    (i word x3 e : Z) (te : bool) :
  installed t1 t2 ram -> 0 <= word < 65536 ->
  ulp_steps 7
    (mk_machine ram
       (mk_ulp (dacTableStart1 + word mod 256 * 2 + 1) i word
               (dacTableStart1 + word mod 256 * 2) x3 Running e te) d)
  = mk_machine ram
      (mk_ulp (dacTableStart2 + word / 256 * 2 + 1) i word
              (dacTableStart2 + word / 256 * 2) x3 Running e te)
      (pad_write t2 (word / 256) d).
Proof.
  intros [[dt [dt2 Hprog]] [Htab [Ht1 Ht2]]] Hword.
  assert (Hlo : 0 <= word mod 256 < 256) by (apply Z.mod_pos_bound; lia).
  assert (Hhi : 0 <= word / 256 < 256)
    by (split; [apply Z.div_pos; lia | apply Z.div_lt_upper_bound; lia]).
  destruct (Htab _ Hlo) as [_ [Hb1 _]].
  destruct (Htab _ Hhi) as [_ [_ [Hw2 Hb2]]].
  run_table (I_BXI 9) Hb1.
  rewrite exec_BXI. norm. change (9 mod 2 ^ 11) with 9.
  run 9%nat (I_DELAY dt2). rewrite exec_DELAY. norm.
  run 10%nat (I_ANDI R2 R1 0xff00). rewrite exec_ANDI. norm.
  change (0xff00 mod 2 ^ 16) with 0xff00.
  run 11%nat (I_RSHI R2 R2 (8 - 1)). rewrite exec_RSHI. norm.
  change ((8 - 1) mod 2 ^ 16) with 7.
  rewrite high_byte_table_offset by assumption.
  run 12%nat (I_ADDI R2 R2 dacTableStart2). rewrite exec_ADDI. norm.
  change (dacTableStart2 mod 2 ^ 16) with dacTableStart2.
  rewrite uint16_small by (consts; lia).
  replace (2 * (word / 256) + dacTableStart2)
    with (dacTableStart2 + word / 256 * 2) by lia.
  run 13%nat (I_BXR R2). rewrite exec_BXR. norm.
  run_table (I_WR_REG t2 19 26 (word / 256)) Hw2.
  rewrite exec_WR_DAC by assumption. norm.
  rewrite (Z.mod_small (word / 256)) by lia.
  reflexivity.
Qed.

Lemma ring_word_bytes (lo hi : Z) :
  0 <= lo < 256 -> 0 <= hi < 256 ->
  low_bits 16 (ring_word lo hi) = ring_word lo hi /\
  ring_word lo hi mod 256 = lo /\ ring_word lo hi / 256 = hi.
Proof.
  intros Hlo Hhi. unfold ring_word, low_bits.
  split; [apply Z.mod_small; lia |].
  replace (lo + 256 * hi) with (lo + hi * 256) by lia.
  split.
  - rewrite Z.mod_add by lia. apply Z.mod_small. lia.
  - rewrite Z.div_add by lia. rewrite (Z.div_small lo) by lia. lia.
Qed.

(** A whole pass over slot [i]: 21 instructions, at the end of which the
    next index has been published. *)
Lemma loop_pass (t1 t2 : Z) (ram : memory) (d : dacs)
    (i x1 x2 e : Z) (te : bool) :
  installed t1 t2 ram -> 0 <= i < totalSampleWords ->
  let word := low_bits 16 (ram (bufferStart + i)) in
  let i' := (i + 1) mod totalSampleWords in
  ulp_steps 21 (mk_machine ram (mk_ulp 4 i x1 x2 0 Running e te) d)
  = mk_machine
      (store indexAddress (st_word 3 R3 i')
         (store (indexAddress + i) (st_word 15 R0 0x8080) ram))
      (mk_ulp 4 i' 0x8080 (dacTableStart2 + word / 256 * 2) 0 Running e te)
      (pad_write t2 (word / 256) (pad_write t1 (word mod 256) d)).
Proof.
  intros Hinst Hi word i'.
  change 21%nat with (16 + 5)%nat. rewrite ulp_steps_add.
  rewrite (loop_iteration t1 t2) by assumption. fold word.
  assert (Hinst' : installed t1 t2
                     (store (indexAddress + i) (st_word 15 R0 0x8080) ram)).
  { apply (installed_frame _ _ ram); [assumption |].
    intros a Ha. apply store_neq. consts. lia. }
  clear Hinst. destruct Hinst' as [[dt [dt2 Hprog]] _].
  run 16%nat (I_ADDI R0 R0 1). rewrite exec_ADDI. norm.
  change (1 mod 2 ^ 16) with 1. rewrite uint16_small by (consts; lia).
  run 17%nat (I_BGE (-16) totalSampleWords).
  rewrite exec_BGE_back by lia. norm.
  change (totalSampleWords mod 2 ^ 16) with totalSampleWords.
  change (Z.abs (-16) mod 2 ^ 7) with 16.
  destruct (Z.leb_spec totalSampleWords (i + 1)) as [Hwrap | Hgo].
  - (* end of the buffer: back to the index reset *)
    assert (Ei : i' = 0).
    { unfold i'. replace (i + 1) with totalSampleWords by lia.
      apply Z.mod_same. consts. lia. }
    change (17 - 16) with 1.
    run 1%nat (I_DELAY dt). rewrite exec_DELAY. norm.
    run 2%nat (I_MOVI R0 0). rewrite exec_MOVI. norm.
    change (0 mod 2 ^ 16) with 0.
    run 3%nat (I_ST R0 R3 indexAddress). rewrite exec_ST. norm.
    change (0 + indexAddress mod 2 ^ 11 <? RTC_SLOW_MEM_WORDS) with true.
    cbv iota. change (0 + indexAddress mod 2 ^ 11) with indexAddress.
    rewrite Ei. reflexivity.
  - assert (Ei : i' = i + 1) by (unfold i'; apply Z.mod_small; lia).
    change (17 + 1) with 18.
    run 18%nat (I_DELAY (uint32 (dt + 2))). rewrite exec_DELAY. norm.
    run 19%nat (I_BXI 3). rewrite exec_BXI. norm.
    change (3 mod 2 ^ 11) with 3.
    run 3%nat (I_ST R0 R3 indexAddress). rewrite exec_ST. norm.
    change (0 + indexAddress mod 2 ^ 11 <? RTC_SLOW_MEM_WORDS) with true.
    cbv iota. change (0 + indexAddress mod 2 ^ 11) with indexAddress.
    rewrite Ei. reflexivity.
Qed.

End PassFacts.

Import PassFacts.

Module PassTheory.

(** Mixing two codes for mono output gives their mean, rounded down. *)
Lemma mix_average (a c : Z) :
  0 <= a < 256 -> 0 <= c < 256 -> to_int16 (mix a c) = (a + c) / 2.
Proof.
  intros Ha Hc. unfold mix, uint32.
  rewrite Z.mod_small by lia.
  rewrite Z.shiftr_div_pow2 by lia. change (2 ^ 1) with 2.
  assert (0 <= (a + c) / 2 < 256)
    by (split; [apply Z.div_pos; lia | apply Z.div_lt_upper_bound; lia]).
  rewrite land_ff, Z.mod_small by lia.
  rewrite uint16_small by lia. apply to_int16_small. lia.
Qed.

(** A pass over a slot that holds a ring word plays its low byte on the
    first table's pad and then its high byte on the second table's. *)
Lemma pass_plays_word (t1 t2 : Z) (ram : memory) (d : dacs)
    (i lo hi x1 x2 x3 e : Z) (te : bool) :
  installed t1 t2 ram -> 0 <= i < totalSampleWords ->
  ram (bufferStart + i) = ring_word lo hi ->
  0 <= lo < 256 -> 0 <= hi < 256 ->
  let m := mk_machine ram (mk_ulp 4 i x1 x2 x3 Running e te) d in
  dac (ulp_steps 6 m) = pad_write t1 lo d /\
  dac (ulp_steps 13 m) = pad_write t2 hi (pad_write t1 lo d).
Proof.
  intros Hinst Hi Hram Hlo Hhi m.
  destruct (ring_word_bytes lo hi Hlo Hhi) as [Hw [Hl Hh]].
  pose proof (pass_low_byte t1 t2 ram d i x1 x2 x3 e te Hinst Hi) as H6.
  cbv zeta in H6. rewrite Hram, Hw, Hl in H6.
  split.
  - unfold m. rewrite H6. reflexivity.
  - unfold m. change 13%nat with (6 + 7)%nat.
    rewrite ulp_steps_add, H6.
    pose proof (pass_high_byte t1 t2 ram (pad_write t1 lo d) i
                  (ring_word lo hi) x3 e te Hinst) as H7.
    rewrite Hl, Hh in H7. rewrite H7; [reflexivity |].
    unfold ring_word. lia.
Qed.

Lemma loop_passes (t1 t2 e : Z) (te : bool) (n : nat) :
  forall ram d i x1 x2,
    installed t1 t2 ram -> 0 <= i < totalSampleWords ->
    exists ram' d' x1' x2',
      ulp_steps (21 * n) (mk_machine ram (mk_ulp 4 i x1 x2 0 Running e te) d)
      = mk_machine ram'
          (mk_ulp 4 ((i + Z.of_nat n) mod totalSampleWords) x1' x2' 0
                  Running e te) d' /\
      installed t1 t2 ram' /\
      ((1 <= n)%nat ->
       ram' indexAddress
       = st_word 3 R3 ((i + Z.of_nat n) mod totalSampleWords)).
Proof.
  induction n as [| n IH]; intros ram d i x1 x2 Hinst Hi.
  - exists ram, d, x1, x2. cbn [Nat.mul ulp_steps].
    rewrite Z.add_0_r, Z.mod_small by assumption.
    split; [reflexivity | split; [assumption | lia]].
  - replace (21 * S n)%nat with (21 + 21 * n)%nat by lia.
    rewrite ulp_steps_add, (loop_pass t1 t2) by assumption.
    set (ram1 := store indexAddress _ _).
    assert (Hinst1 : installed t1 t2 ram1).
    { apply (installed_frame _ _ ram); [assumption |].
      intros a Ha. unfold ram1. rewrite !store_neq by (consts; lia).
      reflexivity. }
    assert (Hi1 : 0 <= (i + 1) mod totalSampleWords < totalSampleWords)
      by (apply Z.mod_pos_bound; consts; lia).
    destruct (IH ram1 (pad_write t2 (low_bits 16 (ram (bufferStart + i)) / 256)
                         (pad_write t1 (low_bits 16 (ram (bufferStart + i)) mod 256) d))
                ((i + 1) mod totalSampleWords) 0x8080
                (dacTableStart2 + low_bits 16 (ram (bufferStart + i)) / 256 * 2)
                Hinst1 Hi1)
      as [ram' [d' [x1' [x2' [Hsteps [Hinst' Hidx]]]]]].
    assert (E : ((i + 1) mod totalSampleWords + Z.of_nat n) mod totalSampleWords
                = (i + Z.of_nat (S n)) mod totalSampleWords).
    { rewrite Z.add_mod_idemp_l by (consts; lia). f_equal. lia. }
    rewrite E in *.
    destruct n as [| n].
    + exists ram1, (pad_write t2 (low_bits 16 (ram (bufferStart + i)) / 256)
                      (pad_write t1 (low_bits 16 (ram (bufferStart + i)) mod 256) d)),
             0x8080, (dacTableStart2 + low_bits 16 (ram (bufferStart + i)) / 256 * 2).
      cbn [Nat.mul ulp_steps] in *.
      change (Z.of_nat 1) with 1.
      split; [reflexivity | split; [assumption |]].
      intros _. unfold ram1. apply store_eq.
    + exists ram', d', x1', x2'.
      split; [exact Hsteps | split; [assumption |]].
      intros _. apply Hidx. lia.
Qed.

End PassTheory.

Import PassTheory.

Module ScenarioFacts.

Lemma RTC_SLOW_MEM_hw (w : world) : RTC_SLOW_MEM w = mem (hw w).
Proof. reflexivity. Qed.

(** The host's sleep keeps a running session running. *)
Lemma delay_runs (ulp_ticks : Z -> nat) (ms t : Z) (w : world) :
  installed t t (RTC_SLOW_MEM w) -> looping (hw w) ->
  installed t t (RTC_SLOW_MEM (delay ulp_ticks ms w)) /\
  looping (hw (delay ulp_ticks ms w)).
Proof.
  intros Hinst Hloop.
  destruct (loop_steps _ _ (ulp_ticks ms) (hw w) Hinst Hloop) as [Hi [Hl _]].
  split; [exact Hi | exact Hl].
Qed.

Lemma stereo_session_runs :
  installed RTC_IO_PAD_DAC1_REG RTC_IO_PAD_DAC1_REG (RTC_SLOW_MEM stereo_session) /\
  looping (hw stereo_session).
Proof.
  pose proof (begin_true _ _ _ _ _ stereo_session_begins) as H.
  cbv zeta in H. destruct H as [_ [_ [_ [Hinst [Hloop _]]]]].
  split; [exact Hinst | exact Hloop].
Qed.

Lemma stereo_after_10_runs :
  installed RTC_IO_PAD_DAC1_REG RTC_IO_PAD_DAC1_REG (RTC_SLOW_MEM stereo_after_10) /\
  looping (hw stereo_after_10).
Proof.
  destruct stereo_session_runs as [Hinst Hloop].
  exact (delay_runs four_per_ms 53 _ stereo_session Hinst Hloop).
Qed.

End ScenarioFacts.
Import ScenarioFacts.

(** X12: a frame accepted by [writeFrame] is played as written.  The ring
    word stored under the cursor has the first code in its low byte and the
    second in its high byte: the codes of the left and right samples in
    stereo; the staged code and the code of the new frame (the mean of its
    two channel codes, rounded down) in mono.  When the coprocessor then
    passes over that slot, after 6 instructions it has written the first code
    to the pad of the first table, and after 13 the second code to the pad of
    the second table. *)
Theorem written_frame_reaches_the_pads
    (t1 t2 : Z) (w : world) (s : Z * Z) (x1 x2 x3 e : Z) (te : bool) (d : dacs) :
  installed t1 t2 (RTC_SLOW_MEM w) ->
  waitingOddSample (this w) = true -> cursor_ok (this w) ->
  lastFilledWord (this w) <> currentWord w ->
  0 <= bufferedOddSample (this w) < 256 ->
  let w' := snd (writeFrame s w) in
  let m := mk_machine (RTC_SLOW_MEM w')
             (mk_ulp 4 (lastFilledWord (this w)) x1 x2 x3 Running e te) d in
  let lo := if stereoOutput (this w) then sample_code (fst s)
            else bufferedOddSample (this w) in
  let hi := if stereoOutput (this w) then sample_code (snd s)
            else (sample_code (fst s) + sample_code (snd s)) / 2 in
  fst (writeFrame s w) = true /\
  RTC_SLOW_MEM w' (bufferStart + lastFilledWord (this w)) = ring_word lo hi /\
  dac (ulp_steps 6 m) = pad_write t1 lo d /\
  dac (ulp_steps 13 m) = pad_write t2 hi (pad_write t1 lo d).
Proof.
  intros Hinst Hwait Hc Hne Hb w' m lo hi.
  pose proof (sample_code_range (fst s)) as H0.
  pose proof (sample_code_range (snd s)) as H1.
  destruct (writeFrame_accepts s w Hwait Hne)
    as [w1 [Hw1 [_ [_ [_ [_ [_ [Hmem [_ [_ Hlog]]]]]]]]]].
  assert (Ew : w' = w1) by (unfold w'; rewrite Hw1; reflexivity).
  assert (Hlo : 0 <= lo < 256) by (unfold lo; destruct (stereoOutput (this w)); lia).
  assert (Hhi : 0 <= hi < 256).
  { unfold hi. destruct (stereoOutput (this w)); [lia |].
    split; [apply Z.div_pos; lia | apply Z.div_lt_upper_bound; lia]. }
  assert (Hword : RTC_SLOW_MEM w' (bufferStart + lastFilledWord (this w))
                  = ring_word lo hi).
  { rewrite Ew, Hmem, store_eq, Hlog, last_last. cbn [snd].
    unfold lo, hi. destruct (stereoOutput (this w)).
    - apply lor_bytes; assumption.
    - rewrite mix_average by assumption. apply lor_bytes; [assumption |].
      split; [apply Z.div_pos; lia | apply Z.div_lt_upper_bound; lia]. }
  assert (Hinst' : installed t1 t2 (RTC_SLOW_MEM w')).
  { apply (installed_frame _ _ (RTC_SLOW_MEM w)); [assumption |].
    intros a Ha. rewrite Ew, Hmem. apply store_neq.
    unfold cursor_ok in Hc. consts. lia. }
  split; [rewrite Hw1; reflexivity |].
  split; [exact Hword |].
  apply (pass_plays_word t1 t2 _ d _ lo hi); assumption.
Qed.

Lemma written_frame_reaches_the_pads_witness :
  fst (writeFrame (32767, -32768) stereo_after_10) = true /\
  RTC_SLOW_MEM (snd (writeFrame (32767, -32768) stereo_after_10))
    (bufferStart + lastFilledWord (this stereo_after_10))
  = ring_word 255 0.
Proof.
  destruct (written_frame_reaches_the_pads _ _ stereo_after_10 (32767, -32768)
              0 0 0 0 true (dac (hw stereo_after_10))
              (proj1 stereo_after_10_runs)
              ltac:(vm_compute; reflexivity)
              ltac:(vm_compute; split; [discriminate | reflexivity])
              ltac:(vm_compute; discriminate)
              ltac:(vm_compute; split; [discriminate | reflexivity]))
    as [Hacc [Hword _]].
  split; [exact Hacc |].
  rewrite Hword. vm_compute. reflexivity.
Defined.

(** X13: the coprocessor consumes one slot every 21 instructions.  From the
    load of slot [i] (instruction 4), after [21 * n] instructions ([n] at
    least 1) it is at the load of slot [(i + n) mod 1003]: the index wraps to
    0 after slot 1002.
    The low 16 bits of the index cell then hold that slot number, and the
    word index the host derives from the cell is half of it, rounded down. *)
Theorem coprocessor_consumes_one_slot_per_pass
    (t1 t2 : Z) (m : machine) (n : nat) :
  installed t1 t2 (mem m) ->
  status (cop m) = Running -> pc (cop m) = 4 -> r3 (cop m) = 0 ->
  0 <= r0 (cop m) < totalSampleWords -> (1 <= n)%nat ->
  let m' := ulp_steps (21 * n) m in
  let i' := (r0 (cop m) + Z.of_nat n) mod totalSampleWords in
  status (cop m') = Running /\ pc (cop m') = 4 /\ r0 (cop m') = i' /\
  Z.land (mem m' indexAddress) 0xffff = i' /\
  Z.shiftr (Z.land (mem m' indexAddress) 0xffff) 1 = i' / 2 /\
  installed t1 t2 (mem m').
Proof.
  intros Hinst Hst Hpc H3 H0 Hn m' i'.
  destruct m as [ram [p x0 x1 x2 x3 st e te] d].
  cbn [mem cop pc r0 r3 status] in *. subst p x3 st.
  destruct (loop_passes t1 t2 e te n ram d x0 x1 x2 Hinst H0)
    as [ram' [d' [x1' [x2' [Hsteps [Hinst' Hidx]]]]]].
  unfold m'. rewrite Hsteps. cbn [mem cop pc r0 status].
  fold i' in Hidx |- *.
  assert (Hi' : 0 <= i' < totalSampleWords)
    by (apply Z.mod_pos_bound; consts; lia).
  assert (Hland : Z.land (ram' indexAddress) 0xffff = i').
  { rewrite (Hidx Hn), land_ffff. change 65536 with (2 ^ 16).
    fold (low_bits 16 (st_word 3 R3 i')). apply st_word_low. consts. lia. }
  rewrite Hland, Z.shiftr_div_pow2 by lia.
  split; [reflexivity | split; [reflexivity | split; [reflexivity |]]].
  split; [reflexivity | split; [reflexivity | assumption]].
Qed.

Lemma coprocessor_consumes_one_slot_per_pass_witness :
  r0 (cop (ulp_steps (21 * 1003) (hw stereo_session))) = 0 /\
  Z.land (mem (ulp_steps (21 * 5) (hw stereo_session)) indexAddress) 0xffff = 5.
Proof.
  pose proof (proj1 stereo_session_runs) as Hinst.
  rewrite RTC_SLOW_MEM_hw in Hinst.
  assert (Hs : status (cop (hw stereo_session)) = Running)
    by (vm_compute; reflexivity).
  assert (Hpc : pc (cop (hw stereo_session)) = 4) by (vm_compute; reflexivity).
  assert (H3 : r3 (cop (hw stereo_session)) = 0) by (vm_compute; reflexivity).
  assert (H0 : 0 <= r0 (cop (hw stereo_session)) < totalSampleWords)
    by (vm_compute; split; [discriminate | reflexivity]).
  pose proof (coprocessor_consumes_one_slot_per_pass _ _ (hw stereo_session) 1003
              Hinst Hs Hpc H3 H0) as A.
  assert (Hn : (1 <= 1003)%nat) by lia.
  specialize (A Hn).
  cbv zeta in A.
  destruct A as [_ [_ [Hr _]]].
  pose proof (coprocessor_consumes_one_slot_per_pass _ _ (hw stereo_session) 5
              Hinst Hs Hpc H3 H0 ltac:(lia)) as B.
  cbv zeta in B. destruct B as [_ [_ [_ [Hl _]]]].
  split.
  - rewrite Hr. vm_compute. reflexivity.
  - rewrite Hl. vm_compute. reflexivity.
Defined.

(* ---------------------------------------------------------------------- *)
(** ** [begin] *)

Module BeginFacts.

Lemma uint32_low16 (x : Z) : uint32 x mod 2 ^ 16 = x mod 2 ^ 16.
Proof.
  unfold uint32.
  rewrite (Z.div_mod x (2 ^ 32)) at 2 by lia.
  replace (2 ^ 32 * (x / 2 ^ 32) + x mod 2 ^ 32)
    with (x mod 2 ^ 32 + (2 ^ 16 * (x / 2 ^ 32)) * 2 ^ 16) by lia.
  rewrite Z_mod_plus_full. reflexivity.
Qed.

(** The delays [setup] computes from the measured clock. *)
Lemma setup_start_delays (w w1 : world) :
  setup_start w = Ret w1 ->
  let o := this w in
  let f := uint32 (1000000 * 2 ^ RTC_CLK_CAL_FRACT * 256
                   / uint32 (rtc_8md256_period w)) in
  let q := f / uint32 (hertz o) in
  RTC_SLOW_MEM w1
  = setup_image (activeDACs o)
      (if stereoOutput o then uint32 (q - 134) else uint32 (q - 90))
      (if stereoOutput o then 0 else uint32 (q - 44))
      (RTC_SLOW_MEM w).
Proof.
  unfold setup_start. cbv zeta. intros H.
  destruct (uint32 (rtc_8md256_period w) =? 0); [discriminate |].
  set (o1 := if negb (stereoOutput (this w))
             then set_waitingOddSample false (this w) else this w) in *.
  assert (Hact : activeDACs o1 = activeDACs (this w))
    by (subst o1; destruct (stereoOutput (this w)); reflexivity).
  assert (Hhz : hertz o1 = hertz (this w))
    by (subst o1; destruct (stereoOutput (this w)); reflexivity).
  assert (Hst : stereoOutput o1 = stereoOutput (this w)).
  { subst o1. destruct (stereoOutput (this w)) eqn:E;
      cbn [negb stereoOutput set_waitingOddSample]; exact E. }
  destruct (uint32 (hertz o1) =? 0); [discriminate |].
  apply Ret_inj in H. subst w1.
  unfold RTC_SLOW_MEM.
  cbn [hw ulp_run ulp_process_macros_and_load mem cop dac].
  rewrite Hact, Hhz, Hst.
  rewrite !on_active_dacs_mem by (intros [] m0; reflexivity).
  unfold setup_image. reflexivity.
Qed.

Section Timing.
Variable ulp_ticks : Z -> nat.

Lemma wait_index_more_fuel (fuel k : nat) :
  forall w w', wait_index ulp_ticks fuel w = Ret w' ->
               wait_index ulp_ticks (fuel + k) w = Ret w'.
Proof.
  induction fuel as [| fuel IH]; intros w w' H.
  - cbn [wait_index] in H.
    destruct (RTC_SLOW_MEM w indexAddress =? 0) eqn:E; [discriminate |].
    destruct k; cbn [Nat.add wait_index]; rewrite E; assumption.
  - cbn [Nat.add wait_index] in *.
    destruct (RTC_SLOW_MEM w indexAddress =? 0); [apply IH |]; assumption.
Qed.

Lemma begin_more_fuel (fuel k : nat) (info : AudioInfo) (w w' : world) :
  begin ulp_ticks fuel info w = Ret (true, w') ->
  begin ulp_ticks (fuel + k) info w = Ret (true, w').
Proof.
  unfold begin, setup. cbv zeta.
  destruct (negb (bits_per_sample info =? 16)); [discriminate |].
  destruct (setup_start _) as [w1 | |]; try discriminate.
  destruct (wait_index ulp_ticks fuel w1) as [w2 | |] eqn:Hwait;
    try discriminate.
  intros H. rewrite (wait_index_more_fuel _ k _ _ Hwait). exact H.
Qed.

End Timing.

End BeginFacts.

Import BeginFacts.

(** X14: [begin] with 16-bit samples divides by the measured clock period
    and by the sample rate without checking them: if the calibration yields a
    period of 0, or the sample rate is 0, it traps.  With 16-bit samples
    [begin] never returns false. *)
Theorem begin_traps_on_zero_clock_or_rate
    (ulp_ticks : Z -> nat) (fuel : nat) (info : AudioInfo) (w : world) :
  bits_per_sample info = 16 ->
  (rtc_8md256_period w = 0 \/ sample_rate info = 0 ->
   begin ulp_ticks fuel info w = Crash) /\
  (forall w', begin ulp_ticks fuel info w <> Ret (false, w')).
Proof.
  intros Hbits. split.
  - intros Hz. unfold begin. cbv zeta. rewrite Hbits. cbn [Z.eqb Pos.eqb negb].
    unfold setup, setup_start. cbv zeta.
    cbn [rtc_8md256_period set_this this].
    destruct Hz as [-> | Hr].
    + reflexivity.
    + destruct (uint32 (rtc_8md256_period w) =? 0); [reflexivity |].
      assert (Hh : hertz (if negb (stereoOutput (begin_config info (this w)))
                         then set_waitingOddSample false (begin_config info (this w))
                         else begin_config info (this w)) = 0).
      { destruct (negb _); cbn [hertz set_waitingOddSample begin_config];
          rewrite Hr; reflexivity. }
      rewrite Hh. reflexivity.
  - intros w'. unfold begin, setup. cbv zeta. rewrite Hbits.
    cbn [Z.eqb Pos.eqb negb].
    destruct (setup_start _) as [w1 | |]; try discriminate.
    destruct (wait_index ulp_ticks fuel w1) as [w2 | |]; discriminate.
Qed.

Lemma begin_traps_on_zero_clock_or_rate_witness :
  begin four_per_ms 4 (mk_info 0 2 16) fresh_world = Crash.
Proof.
  exact (proj1 (begin_traps_on_zero_clock_or_rate four_per_ms 4 (mk_info 0 2 16)
                  fresh_world eq_refl) (or_intror eq_refl)).
Defined.

(** X15: the waiting loop at the end of [setup] terminates.  With 16-bit
    samples, a non-zero clock period and sample rate, and a coprocessor that
    retires at least one instruction per millisecond of host sleep, [begin]
    returns true after at most four sleeps of 1 ms, whatever state the driver
    and the hardware were in before (fresh, running or stopped by [end]); the
    index cell is then non-zero and the coprocessor runs.  Allowing more
    sleeps does not change the result. *)
Theorem begin_returns_once_index_is_published
    (ulp_ticks : Z -> nat) (fuel : nat) (info : AudioInfo) (w : world) :
  (1 <= ulp_ticks 1%Z)%nat -> (4 <= fuel)%nat ->
  bits_per_sample info = 16 ->
  uint32 (rtc_8md256_period w) <> 0 ->
  uint32 (to_int32 (sample_rate info)) <> 0 ->
  exists w',
    begin ulp_ticks fuel info w = Ret (true, w') /\
    RTC_SLOW_MEM w' indexAddress <> 0 /\
    status (cop (hw w')) = Running /\
    (forall more, begin ulp_ticks (fuel + more) info w = Ret (true, w')).
Proof.
  intros Htick Hfuel Hbits Hp Hr.
  destruct (begin_returns ulp_ticks Htick fuel info w Hbits Hp Hr Hfuel)
    as [w' Hb].
  exists w'. split; [exact Hb |].
  destruct (begin_true _ _ _ _ _ Hb) as [_ [_ [_ [_ [[Hrun _] _]]]]].
  split; [ | split; [exact Hrun |]].
  - revert Hb. unfold begin, setup. cbv zeta.
    destruct (negb (bits_per_sample info =? 16)); [discriminate |].
    destruct (setup_start _) as [w1 | |]; try discriminate.
    destruct (wait_index ulp_ticks fuel w1) as [w2 | |] eqn:Hwait;
      try discriminate.
    intros H. apply Ret_inj in H. injection H as <-.
    exact (proj2 (proj2 (proj2 (proj2 (wait_index_ret _ _ _ _ Hwait))))).
  - intros more. apply begin_more_fuel. exact Hb.
Qed.

Lemma begin_returns_once_index_is_published_witness :
  exists w',
    begin four_per_ms 4 defaultConfig fresh_world = Ret (true, w') /\
    RTC_SLOW_MEM w' indexAddress <> 0.
Proof.
  destruct (begin_returns_once_index_is_published four_per_ms 4 defaultConfig
              fresh_world
              ltac:(vm_compute; repeat constructor) ltac:(repeat constructor)
              eq_refl
              ltac:(vm_compute; discriminate) ltac:(vm_compute; discriminate))
    as [w' [Hb [Hi _]]].
  exists w'. split; [exact Hb | exact Hi].
Defined.

(** X16: [begin] does not rewind the write cursor.  A successful [begin]
    leaves the write cursor, the staged code, the threshold and the mono
    selection as they were, so [availableForWrite] reports what it reported
    before; the awaiting-pairing flag is cleared in mono and left as it was
    in stereo. *)
Theorem begin_keeps_cursor_and_stage
    (ulp_ticks : Z -> nat) (fuel : nat) (info : AudioInfo) (w w' : world) :
  begin ulp_ticks fuel info w = Ret (true, w') ->
  lastFilledWord (this w') = lastFilledWord (this w) /\
  bufferedOddSample (this w') = bufferedOddSample (this w) /\
  waitingOddSample (this w')
  = (if channels info =? 2 then waitingOddSample (this w) else false) /\
  min_write_bytes (this w') = min_write_bytes (this w) /\
  selected_mono_dac (this w') = selected_mono_dac (this w) /\
  ring_log w' = ring_log w /\
  availableForWrite (this w') = availableForWrite (this w).
Proof.
  intros Hb.
  destruct (begin_true _ _ _ _ _ Hb) as [_ [Hthis [Hlog _]]].
  cbv zeta in Hthis.
  assert (H : lastFilledWord (this w') = lastFilledWord (this w) /\
              bufferedOddSample (this w') = bufferedOddSample (this w) /\
              waitingOddSample (this w')
              = (if channels info =? 2 then waitingOddSample (this w) else false) /\
              min_write_bytes (this w') = min_write_bytes (this w) /\
              selected_mono_dac (this w') = selected_mono_dac (this w)).
  { rewrite Hthis. unfold begin_config. cbn [stereoOutput].
    destruct (channels info =? 2); cbn; auto. }
  destruct H as [H1 [H2 [H3 [H4 H5]]]].
  repeat split; try assumption.
  unfold availableForWrite. rewrite H1, H4. reflexivity.
Qed.

Lemma begin_keeps_cursor_and_stage_witness :
  exists w2,
    begin four_per_ms 4 defaultConfig
      (end_ (snd (writeFrame (0, 0) stereo_after_10))) = Ret (true, w2) /\
    lastFilledWord (this w2) = 1.
Proof.
  destruct (begin_returns four_per_ms ltac:(vm_compute; repeat constructor) 4
              defaultConfig (end_ (snd (writeFrame (0, 0) stereo_after_10)))
              eq_refl
              ltac:(vm_compute; discriminate) ltac:(vm_compute; discriminate)
              (le_n 4)) as [w2 Hb].
  exists w2. split; [exact Hb |].
  rewrite (proj1 (begin_keeps_cursor_and_stage _ _ _ _ _ Hb)).
  vm_compute. reflexivity.
Defined.

(** X17: the delays [begin] installs.  With [f] the clock frequency derived
    from the calibration, [10^6 * 2^19 * 256 / period] (as a 32-bit value),
    and [q = f / sample_rate], the three delay instructions of the installed
    program wait [q - 134], 0 and [q - 134 + 2] cycles in stereo, and
    [q - 90], [q - 44] and [q - 90 + 2] cycles in mono, each reduced modulo
    2^16 by the cycle field (so a quotient below the loop cost, or above
    65535 plus it, wraps around instead of being refused). *)
Theorem begin_installs_calibrated_delays
    (ulp_ticks : Z -> nat) (fuel : nat) (info : AudioInfo) (w w' : world) :
  begin ulp_ticks fuel info w = Ret (true, w') ->
  let f := uint32 (1000000 * 2 ^ 19 * 256 / uint32 (rtc_8md256_period w)) in
  let q := f / uint32 (to_int32 (sample_rate info)) in
  let cost := if channels info =? 2 then 134 else 90 in
  decode (RTC_SLOW_MEM w' 1) = Some (I_DELAY ((q - cost) mod 2 ^ 16)) /\
  decode (RTC_SLOW_MEM w' 9)
  = Some (I_DELAY (if channels info =? 2 then 0 else (q - 44) mod 2 ^ 16)) /\
  decode (RTC_SLOW_MEM w' 18) = Some (I_DELAY ((q - cost + 2) mod 2 ^ 16)).
Proof.
  intros Hb f q cost.
  destruct (begin_split _ _ _ _ _ Hb) as [w1 [n [Hstart [Hhw _]]]].
  pose proof (setup_start_delays _ _ Hstart) as Hmem.
  cbv zeta in Hmem. cbn [this set_this rtc_8md256_period] in Hmem.
  change (hertz (begin_config info (this w)))
    with (to_int32 (sample_rate info)) in Hmem.
  change (stereoOutput (begin_config info (this w)))
    with (channels info =? 2) in Hmem.
  change RTC_CLK_CAL_FRACT with 19 in Hmem.
  fold f in Hmem. fold q in Hmem.
  set (dt := if channels info =? 2 then uint32 (q - 134) else uint32 (q - 90)) in *.
  set (dt2 := if channels info =? 2 then 0 else uint32 (q - 44)) in *.
  pose proof (begin_config_active info (this w)) as Hact.
  assert (Hinst1 : installed (table_reg (activeDACs (begin_config info (this w))))
                     (table_reg (activeDACs (begin_config info (this w))))
                     (mem (hw w1))).
  { rewrite <- RTC_SLOW_MEM_hw, Hmem.
    apply setup_image_installed. assumption. }
  assert (Hloop1 : looping (hw w1)).
  { destruct (setup_start_ok _ _ Hstart) as [_ [_ [_ [_ [Hcop _]]]]].
    split; rewrite Hcop; [reflexivity | apply at_entry; reflexivity]. }
  destruct (loop_steps _ _ n (hw w1) Hinst1 Hloop1) as [_ [_ [Hsame _]]].
  assert (Hprog : forall k i, nth_error (stereo dt dt2) k = Some i ->
                    decode (RTC_SLOW_MEM w' (Z.of_nat k)) = Some (truncate i)).
  { intros k i Hk.
    assert (Hlt : (k < 20)%nat).
    { change 20%nat with (length (stereo dt dt2)).
      apply nth_error_Some. congruence. }
    rewrite RTC_SLOW_MEM_hw, Hhw, Hsame by (consts; lia).
    rewrite <- RTC_SLOW_MEM_hw, Hmem.
    unfold setup_image.
    rewrite store_neq by (consts; lia).
    rewrite silence_loop.
    replace ((bufferStart <=? Z.of_nat k)
             && (Z.of_nat k <? bufferStart + Z.of_nat (Z.to_nat totalSampleWords)))
      with false
      by (symmetry; apply andb_false_iff; left; apply Z.leb_gt; consts; lia).
    rewrite create_dac_tables_below by (consts; lia).
    change (Z.of_nat k) with (0 + Z.of_nat k).
    rewrite load_words_at by (rewrite length_map; exact Hlt).
    rewrite (nth_indep _ 0 (ulp_bin I_HALT)) by (rewrite length_map; exact Hlt).
    rewrite map_nth, (nth_error_nth _ _ _ Hk).
    apply decode_ulp_bin. }
  assert (Hlow : forall x, uint32 x mod 2 ^ 16 = x mod 2 ^ 16)
    by apply uint32_low16.
  split; [ | split].
  - change 1 with (Z.of_nat 1).
    rewrite (Hprog 1%nat (I_DELAY dt) eq_refl).
    unfold I_DELAY, truncate, dt, cost.
    destruct (channels info =? 2); rewrite Hlow; reflexivity.
  - change 9 with (Z.of_nat 9).
    rewrite (Hprog 9%nat (I_DELAY dt2) eq_refl).
    unfold I_DELAY, truncate, dt2.
    destruct (channels info =? 2); [reflexivity | rewrite Hlow; reflexivity].
  - change 18 with (Z.of_nat 18).
    rewrite (Hprog 18%nat (I_DELAY (uint32 (dt + 2))) eq_refl).
    unfold I_DELAY, truncate, dt, cost.
    destruct (channels info =? 2); rewrite Hlow;
      rewrite <- Z.add_mod_idemp_l, Hlow, Z.add_mod_idemp_l by lia;
      reflexivity.
Qed.

Lemma begin_installs_calibrated_delays_witness :
  decode (RTC_SLOW_MEM stereo_session 1) = Some (I_DELAY 58) /\
  decode (RTC_SLOW_MEM mono_session 9) = Some (I_DELAY 148).
Proof.
  destruct (begin_installs_calibrated_delays _ _ _ _ _ stereo_session_begins)
    as [H1 _].
  destruct (begin_installs_calibrated_delays _ _ _ _ _ mono_session_begins)
    as [_ [H9 _]].
  split.
  - rewrite H1. vm_compute. reflexivity.
  - rewrite H9. vm_compute. reflexivity.
Defined.

(** X18: in mono only the output selected with [setMonoDAC] is used.  After
    [setMonoDAC(d)] and a successful mono [begin], the active-output mask is
    the value of [d]; output [d] is enabled, and the other output is left
    alone by [begin] and by the coprocessor ever after: its enable and its
    code stay what they were before [begin]. *)
Theorem setMonoDAC_selects_the_only_output
    (ulp_ticks : Z -> nat) (fuel : nat) (info : AudioInfo) (d : UlpDac)
    (w w' : world) (n : nat) :
  channels info <> 2 ->
  begin ulp_ticks fuel info (set_this (setMonoDAC d (this w)) w) = Ret (true, w') ->
  let m := ulp_steps n (hw w') in
  activeDACs (this w') = UlpDac_value d /\
  (d = ULP_DAC1 ->
   dac1_enabled (dac m) = true /\
   dac2_enabled (dac m) = dac2_enabled (dac (hw w)) /\
   dac2_code (dac m) = dac2_code (dac (hw w))) /\
  (d = ULP_DAC2 ->
   dac2_enabled (dac m) = true /\
   dac1_enabled (dac m) = dac1_enabled (dac (hw w)) /\
   dac1_code (dac m) = dac1_code (dac (hw w))).
Proof.
  intros Hch Hb m.
  destruct (begin_true _ _ _ _ _ Hb) as [_ [Hthis [_ [Hinst [Hloop Hfr]]]]].
  cbv zeta in Hthis, Hinst, Hfr. cbn [this set_this hw] in Hthis, Hinst, Hfr.
  assert (Hact : activeDACs (begin_config info (setMonoDAC d (this w)))
                 = UlpDac_value d).
  { unfold begin_config. cbn [activeDACs selected_mono_dac setMonoDAC].
    destruct (Z.eqb_spec (channels info) 2); [contradiction | reflexivity]. }
  rewrite Hact in Hinst, Hfr.
  rewrite RTC_SLOW_MEM_hw in Hinst.
  destruct (loop_steps _ _ n (hw w') Hinst Hloop) as [_ [_ [_ [_ Hfr2]]]].
  pose proof (dac_frame_trans _ _ _ _ _ Hfr Hfr2) as [E1 [E2 [K2 K1]]].
  fold m in E1, E2, K2, K1.
  split.
  - rewrite Hthis. destruct (negb _); cbn [activeDACs set_waitingOddSample];
      exact Hact.
  - split; intros ->; cbn [UlpDac_value] in *.
    + rewrite E1, E2, (K2 eq_refl eq_refl). repeat split.
    + rewrite E1, E2, (K1 eq_refl eq_refl). repeat split.
Qed.

Lemma setMonoDAC_selects_the_only_output_witness :
  exists w',
    begin four_per_ms 4 mono_config
      (set_this (setMonoDAC ULP_DAC2 (this fresh_world)) fresh_world)
    = Ret (true, w') /\
    dac2_enabled (dac (ulp_steps 100 (hw w'))) = true /\
    dac1_enabled (dac (ulp_steps 100 (hw w'))) = false.
Proof.
  destruct (begin_returns four_per_ms ltac:(vm_compute; repeat constructor) 4
              mono_config
              (set_this (setMonoDAC ULP_DAC2 (this fresh_world)) fresh_world)
              eq_refl
              ltac:(vm_compute; discriminate) ltac:(vm_compute; discriminate)
              (le_n 4)) as [w' Hb].
  destruct (setMonoDAC_selects_the_only_output four_per_ms 4 mono_config ULP_DAC2
              fresh_world w' 100 ltac:(vm_compute; discriminate) Hb)
    as [_ [_ H2]].
  destruct (H2 eq_refl) as [He2 [He1 _]].
  exists w'. split; [exact Hb | split; [exact He2 |]].
  rewrite He1. reflexivity.
Defined.

(* ---------------------------------------------------------------------- *)
(** ** The player sketch *)

Module SketchFacts.
Import Sketch.
Import Driver.

Lemma emit_reads (c : call) (b : board) : reads (emit c b) = reads b.
Proof. reflexivity. Qed.

Lemma emit_calls (c : call) (b : board) : calls (emit c b) = calls b ++ [c].
Proof. reflexivity. Qed.

Lemma start_player_log (b : board) :
  reads (start_player b) = reads b /\
  calls (start_player b) = calls b ++ start_log.
Proof.
  unfold start_player. cbv zeta. rewrite !emit_reads, !emit_calls.
  split; [reflexivity |].
  unfold start_log. rewrite <- !app_assoc. reflexivity.
Qed.

Lemma wait_for_card_returns (k : nat) :
  forall fuel b,
    card_back_after k b -> (k <= fuel)%nat ->
    wait_for_card fuel b
    = Ret (mk_board (card_pin b) (reads b + k + 1)
             (calls b ++ repeat (delay_ms 1000) k)).
Proof.
  induction k as [| k IH]; intros fuel b [Hout Hin] Hfuel.
  - rewrite Nat.add_0_r in Hin.
    destruct fuel; cbn [wait_for_card isSDCardInserted digitalRead];
      rewrite Hin; cbn [repeat]; rewrite app_nil_r, Nat.add_0_r, Nat.add_1_r;
      reflexivity.
  - destruct fuel as [| fuel]; [lia |].
    cbn [wait_for_card isSDCardInserted digitalRead].
    pose proof (Hout 0%nat ltac:(lia)) as H0. rewrite Nat.add_0_r in H0.
    rewrite H0.
    rewrite IH; unfold emit; cbn [card_pin reads calls].
    + f_equal. f_equal; [lia |].
      rewrite <- app_assoc. reflexivity.
    + split; cbn [card_pin reads].
      * intros j Hj.
        replace (S (reads b) + j)%nat with (reads b + S j)%nat by lia.
        apply Hout. lia.
      * replace (S (reads b) + k)%nat with (reads b + S k)%nat by lia.
        exact Hin.
    + lia.
Qed.

Lemma wait_for_card_blocks (fuel : nat) :
  forall b,
    (forall j, card_pin b (reads b + j) = HIGH) ->
    wait_for_card fuel b = OutOfFuel.
Proof.
  induction fuel as [| fuel IH]; intros b Hout;
    cbn [wait_for_card isSDCardInserted digitalRead];
    pose proof (Hout 0%nat) as H0; rewrite Nat.add_0_r in H0; rewrite H0.
  - reflexivity.
  - apply IH. intros j. unfold emit. cbn [card_pin reads].
    replace (S (reads b) + j)%nat with (reads b + S j)%nat by lia.
    apply Hout.
Qed.

Lemma wait_for_card_ret (fuel : nat) :
  forall b b',
    wait_for_card fuel b = Ret b' ->
    exists k, (k <= fuel)%nat /\ card_back_after k b /\
              b' = mk_board (card_pin b) (reads b + k + 1)
                     (calls b ++ repeat (delay_ms 1000) k).
Proof.
  induction fuel as [| fuel IH]; intros b b' H;
    cbn [wait_for_card isSDCardInserted digitalRead] in H;
    destruct (card_pin b (reads b)) eqn:E; try discriminate.
  - apply Ret_inj in H. subst b'. exists 0%nat.
    split; [lia | split; [split |]].
    + intros j Hj. lia.
    + rewrite Nat.add_0_r. exact E.
    + cbn [repeat]. rewrite app_nil_r, Nat.add_0_r, Nat.add_1_r. reflexivity.
  - apply Ret_inj in H. subst b'. exists 0%nat.
    split; [lia | split; [split |]].
    + intros j Hj. lia.
    + rewrite Nat.add_0_r. exact E.
    + cbn [repeat]. rewrite app_nil_r, Nat.add_0_r, Nat.add_1_r. reflexivity.
  - destruct (IH _ _ H) as [k [Hk [[Hout Hin] Hb]]].
    unfold emit in Hout, Hin, Hb. cbn [card_pin reads calls] in Hout, Hin, Hb.
    exists (S k). split; [lia | split; [split |]].
    + intros [| j] Hj; [rewrite Nat.add_0_r; exact E |].
      replace (reads b + S j)%nat with (S (reads b) + j)%nat by lia.
      apply Hout. lia.
    + replace (reads b + S k)%nat with (S (reads b) + k)%nat by lia.
      exact Hin.
    + rewrite Hb. f_equal; [lia |].
      rewrite <- app_assoc. reflexivity.
Qed.

End SketchFacts.

Import Sketch SketchFacts.

(** X19: [loop] of the player sketch plays only with the card in.  Whenever
    [loop] returns, the last card-detect reading it took was LOW, and it ends
    with exactly one [player.copy()] followed by [kit.processActions()].  If
    the first reading is LOW nothing else is logged.  Otherwise it logs the
    removal, pauses the player, sleeps 1000 ms for every further HIGH
    reading, then logs the reinsertion and resumes the player (whether or not
    it was playing before the removal).  [loop] returns as soon as a reading
    is LOW, and never while every reading is HIGH. *)
Theorem loop_plays_only_with_the_card_in (fuel : nat) (b : board) :
  (forall b',
     loop fuel b = Driver.Ret b' ->
     exists k,
       card_back_after k b /\
       reads b' = (reads b + k + 1)%nat /\
       calls b'
       = calls b ++ match k with O => [] | S k' => pause_log k' end
                 ++ [player_copy; kit_processActions]) /\
  (forall k, card_back_after k b -> (k <= S fuel)%nat ->
             exists b', loop fuel b = Driver.Ret b') /\
  ((forall j, card_pin b (reads b + j) = HIGH) ->
   loop fuel b = Driver.OutOfFuel).
Proof.
  split; [ | split].
  - intros b' H. unfold loop in H.
    cbn [isSDCardInserted digitalRead] in H.
    destruct (card_pin b (reads b)) eqn:E.
    + apply Ret_inj in H. subst b'. exists 0%nat.
      split; [split; [intros j Hj; lia | rewrite Nat.add_0_r; exact E] |].
      unfold play, emit. cbn [reads calls].
      split; [lia |]. rewrite <- app_assoc. reflexivity.
    + destruct (wait_for_card fuel _) as [b1 | |] eqn:Hw; try discriminate.
      apply Ret_inj in H. subst b'.
      destruct (wait_for_card_ret _ _ _ Hw) as [k [_ [[Hout Hin] ->]]].
      unfold emit in Hout, Hin. cbn [card_pin reads calls] in Hout, Hin.
      exists (S k). split; [split |].
      * intros [| j] Hj; [rewrite Nat.add_0_r; exact E |].
        replace (reads b + S j)%nat with (S (reads b) + j)%nat by lia.
        apply Hout. lia.
      * replace (reads b + S k)%nat with (S (reads b) + k)%nat by lia.
        exact Hin.
      * unfold play, emit, pause_log. cbn [reads calls card_pin].
        split; [lia |]. rewrite <- !app_assoc. reflexivity.
  - intros k [Hout Hin] Hk. unfold loop.
    cbn [isSDCardInserted digitalRead].
    destruct k as [| k].
    + rewrite Nat.add_0_r in Hin. rewrite Hin. eexists. reflexivity.
    + pose proof (Hout 0%nat ltac:(lia)) as H0. rewrite Nat.add_0_r in H0.
      rewrite H0. rewrite (wait_for_card_returns k); [eexists; reflexivity | | lia].
      split; unfold emit; cbn [card_pin reads].
      * intros j Hj.
        replace (S (reads b) + j)%nat with (reads b + S j)%nat by lia.
        apply Hout. lia.
      * replace (S (reads b) + k)%nat with (reads b + S k)%nat by lia.
        exact Hin.
  - intros Hout. unfold loop. cbn [isSDCardInserted digitalRead].
    pose proof (Hout 0%nat) as H0. rewrite Nat.add_0_r in H0. rewrite H0.
    rewrite wait_for_card_blocks; [reflexivity |].
    intros j. unfold emit. cbn [card_pin reads].
    replace (S (reads b) + j)%nat with (reads b + S j)%nat by lia.
    apply Hout.
Qed.

(** X20: [setup] of the player sketch starts the player once the card is
    in.  Whenever [setup] returns, the last card-detect reading it took was
    LOW, and the log is: serial port, logger and pin mode; if the first
    reading was HIGH, the request to insert a card and a sleep of 1000 ms for
    every further HIGH reading; then the detection message, the start of the
    audio kit, the three button actions, and buffer size, volume and start of
    the player, in that order: the kit and the player are called only after
    the wait.  [setup] returns as soon as a reading is LOW, and never while
    every reading is HIGH. *)
Theorem setup_starts_the_player_once_the_card_is_in (fuel : nat) (b : board) :
  (forall b',
     setup fuel b = Driver.Ret b' ->
     exists k,
       card_back_after k b /\
       reads b' = (reads b + k + 1)%nat /\
       calls b'
       = calls b ++ init_log
                 ++ match k with
                    | O => []
                    | S k' => Serial_println please_insert
                              :: repeat (delay_ms 1000) k'
                    end
                 ++ start_log) /\
  (forall k, card_back_after k b -> (k <= S fuel)%nat ->
             exists b', setup fuel b = Driver.Ret b') /\
  ((forall j, card_pin b (reads b + j) = HIGH) ->
   setup fuel b = Driver.OutOfFuel).
Proof.
  split; [ | split].
  - intros b' H. unfold setup, emit in H.
    cbn [isSDCardInserted digitalRead card_pin reads calls] in H.
    destruct (card_pin b (reads b)) eqn:E.
    + apply Ret_inj in H. subst b'. exists 0%nat.
      split; [split; [intros j Hj; lia | rewrite Nat.add_0_r; exact E] |].
      destruct (start_player_log
                  (mk_board (card_pin b) (S (reads b))
                     (((calls b ++ [Serial_begin 115200])
                       ++ [AudioToolsLogger_begin_Warning])
                      ++ [pinMode_INPUT_PULLUP sdCardPin]))) as [Hr Hc].
      rewrite Hr, Hc. cbn [reads calls].
      split; [lia |]. unfold init_log. cbn [app].
      rewrite <- !app_assoc. reflexivity.
    + destruct (wait_for_card fuel _) as [b1 | |] eqn:Hw; try discriminate.
      apply Ret_inj in H. subst b'.
      destruct (wait_for_card_ret _ _ _ Hw) as [k [_ [[Hout Hin] ->]]].
      cbn [card_pin reads calls] in Hout, Hin.
      exists (S k). split; [split |].
      * intros [| j] Hj; [rewrite Nat.add_0_r; exact E |].
        replace (reads b + S j)%nat with (S (reads b) + j)%nat by lia.
        apply Hout. lia.
      * replace (reads b + S k)%nat with (S (reads b) + k)%nat by lia.
        exact Hin.
      * match goal with
        | |- context [start_player ?x] =>
            destruct (start_player_log x) as [Hr Hc]
        end.
        rewrite Hr, Hc. cbn [reads calls].
        split; [lia |]. unfold init_log. cbn [app].
        rewrite <- !app_assoc. reflexivity.
  - intros k [Hout Hin] Hk. unfold setup, emit.
    cbn [isSDCardInserted digitalRead card_pin reads calls].
    destruct k as [| k].
    + rewrite Nat.add_0_r in Hin. rewrite Hin. eexists. reflexivity.
    + pose proof (Hout 0%nat ltac:(lia)) as H0. rewrite Nat.add_0_r in H0.
      rewrite H0. rewrite (wait_for_card_returns k); [eexists; reflexivity | | lia].
      split; cbn [card_pin reads].
      * intros j Hj.
        replace (S (reads b) + j)%nat with (reads b + S j)%nat by lia.
        apply Hout. lia.
      * replace (S (reads b) + k)%nat with (reads b + S k)%nat by lia.
        exact Hin.
  - intros Hout. unfold setup, emit.
    cbn [isSDCardInserted digitalRead card_pin reads calls].
    pose proof (Hout 0%nat) as H0. rewrite Nat.add_0_r in H0. rewrite H0.
    rewrite wait_for_card_blocks; [reflexivity |].
    intros j. cbn [card_pin reads].
    replace (S (reads b) + j)%nat with (reads b + S j)%nat by lia.
    apply Hout.
Qed.

Lemma loop_plays_only_with_the_card_in_witness :
  exists b',
    loop 2 (mk_board (fun n => if (n <? 3)%nat then HIGH else LOW) 0 [])
    = Driver.Ret b' /\
    calls b' = pause_log 2 ++ [player_copy; kit_processActions].
Proof.
  destruct (loop_plays_only_with_the_card_in 2
              (mk_board (fun n => if (n <? 3)%nat then HIGH else LOW) 0 []))
    as [_ [Hret _]].
  destruct (Hret 3%nat) as [b' Hb].
  - split; [ | reflexivity].
    intros [| [| [| j]]] Hj; try reflexivity. lia.
  - repeat constructor.
  - exists b'. split; [exact Hb |].
    apply Ret_inj in Hb. rewrite <- Hb. reflexivity.
Defined.

Lemma setup_starts_the_player_once_the_card_is_in_witness :
  exists b',
    setup 0 (mk_board (fun _ => LOW) 0 []) = Driver.Ret b' /\
    calls b' = init_log ++ start_log.
Proof.
  destruct (setup_starts_the_player_once_the_card_is_in 0
              (mk_board (fun _ => LOW) 0 []))
    as [_ [Hret _]].
  destruct (Hret 0%nat) as [b' Hb].
  - split; [intros j Hj; lia | reflexivity].
  - repeat constructor.
  - exists b'. split; [exact Hb |].
    apply Ret_inj in Hb. rewrite <- Hb. reflexivity.
Defined.
